(* ===== verification/_CoqProject ===== *)
-Q . S2P
Prelude.v
PyStr.v
Hasher.v
Model.v
Store.v
Manager.v
Auth.v
Perms.v
Spec.v
Trace.v
PermCache.v
Conc.v
