(* ===== verification/Prelude.v ===== *)
(** * A verification development of [src/users/models.py]

    The repository is a Django application.  Its only source file,
    [src/users/models.py], declares a custom user model [UserAccount] and
    its manager [UserAccountManager] with [create_user] and
    [create_superuser].  The manager does little by itself.  Its behaviour
    comes from the framework code it calls:
    [BaseUserManager.normalize_email], [Model.__init__] applied to
    [**kwargs], [AbstractBaseUser.set_password] (through Django's
    password hashers) and [Model.save] (through the ORM and the database
    constraints that the field declarations generate).  The development
    models the source line by line.  The framework code it calls is
    modelled from Django's documented behaviour.  Those definitions are
    marked [spec_modelled] in the manifest.

    ** Parts and how they interact

    caller -> [UserAccountManager.create_superuser] -> [create_user] ->
      [normalize_email], [str.lower], [self.model] on the keywords,
      [set_password] (-> hasher), [save] (-> database);
    login -> [ModelBackend.authenticate] -> [get_by_natural_key] ->
      [check_password] (-> hasher; an outdated hash is re-encoded and
      saved); admin site -> [has_permission];
    permission checks -> [PermissionsMixin.has_perm] / [has_perms] /
      [has_module_perms] -> [ModelBackend] -> its caches on the
      instance, else the permission tables;
    concurrent requests -> their database statements, interleaved
      ([create_superuser] issues two: an INSERT, then an UPDATE).

    ** Files, in dependency order

    - [Prelude] (this file): Python values [pyval] with their
      truthiness, Python exceptions [pyexc], the exception monad
      [result] with its notation [x <- m ;; k], and the state and
      exception monad [stE S A] with [x <~ m ;; k] (both in
      [py_scope]).  The manager threads the table through [stE]: a
      [save] that completed stays in the table when a later step
      raises, as in Django without a transaction.  It also holds the
      hint databases [djauth] and [djauth_rw], the tactics [py_simp]
      and [compute_lhs] and the generic lemmas on binds.
    - [PyStr]: the Python string methods the code calls.  These are
      [str.lower], [str.isspace], [str.strip], [str.rsplit("@", 1)] and
      [sep in s], on strings of code points below 256 (Latin-1).
      [str.startswith] is Stdlib's [String.prefix] and [str(int)]
      stdpp's [pretty].  The file proves idempotence of [lower] and
      the round trip of the split.
    - [Hasher]: the password-hasher interface.  The typeclass
      [PasswordHasher] has an encoder, a verifier and [must_update],
      with their laws.  On top of it are [make_password],
      [is_password_usable], [verify_password] and [check_password] of
      [django.contrib.auth.hashers].  The instance [plain_hasher] shows
      the laws can be met.  [versioned_hasher] stands for a hasher
      after an upgrade that still verifies old encodings.
    - [Model]: the instance record [UserAccount] with the fields of
      lines 42-55 and their defaults.  Also here: [Model.__init__] on
      [email=..., **kwargs], Python attribute assignment (a field or an
      attribute of the instance dict), [set_password], [check_password]
      and [__str__].
    - [Store]: the database.  The table is a [gmap Z Row] keyed by
      primary key, with the next auto-increment value.  The file holds
      the [get_prep_value] conversions of CharField and BooleanField,
      the NOT NULL, [max_length] and [unique] constraints, [save]
      (UPDATE of an existing pk, else INSERT) and [from_db]
      (re-loading an instance).  It also proves the table invariant
      [db_wf] and that [save] preserves it.
    - [Manager]: [normalize_email], [create_user] and
      [create_superuser], composed as the source composes them.  Its
      theorems cover every branch: success, the [ValueError] for a
      falsy email, the errors of the calls, and the uniqueness failure.
    - [Auth]: [ModelBackend.authenticate] as an operation on the table.
      It covers [get_by_natural_key], [check_password] with its rehash
      setter and the save of the password column.  The file also holds
      the admin site's [has_permission], and the consequences for
      accounts made by the manager.
    - [Perms]: [PermissionsMixin] (line 42) over [ModelBackend]: the
      permission tables, [has_perm], [has_perms] and
      [has_module_perms].
    - [Spec]: the spec's abstract Account Factory, the refinement
      theorems for [create_user] and for logins, and the step relation
      [reachable] over databases (the manager's two operations and
      logins) with the invariants proved by rule induction.
    - [Trace]: sequences of registrations and logins, run on the table
      ([run_impl]) and on the spec's store ([run_spec]).  It holds the
      simulation theorem over whole call sequences.
    - [PermCache]: the caches [ModelBackend] keeps on the instance
      ([_user_perm_cache], [_group_perm_cache], [_perm_cache]) as the
      record [PermCache].  The cached [has_perm], [has_perms] and
      [has_module_perms] thread it through [stE PermCache].
    - [Conc]: requests running [create_user], [create_superuser] and
      a login ([ModelBackend.authenticate]) side by side.  A [Thread]
      is a request between two of its database statements, and
      [thread_step] runs one statement ([login_step] for a login: its
      SELECT, then the UPDATE of a rehashed password).  The
      step relation [cstep] lets any request run its next statement.
      [run_sched] runs the interleaving a scheduler picks.

    ** Theorems

    The properties are numbered C1..C40 in their doc comments.
    - Refinement and invariant ([Spec]): [create_user] refines the
      spec's [create_account] on every branch (C1).  Every table
      reachable by the two manager methods and by logins is well formed
      and holds lower-case emails only (C8).  [create_superuser] does
      not refine the spec's superuser creation, because [is_admin]
      stays false (C9).  A login leaves the abstract store unchanged,
      even when it rehashes a password (C31).
    - Simulation over call sequences ([Trace]): every sequence of
      registrations and logins keeps the table related to the spec's
      store, and each call has the spec's outcome (C34).
    - Functional behaviour and errors of the manager ([Manager]): what
      a successful [create_user] stores (C2, C18, C20).  Its errors: a
      falsy email (C3), a duplicate (C4), an unknown keyword (C14), a
      bad password (C15), a non-string email (C16), an over-long email
      on a strict backend (C19).  What [create_superuser] stores and
      when it fails (C5, C6, C7).  [normalize_email] then [lower] (C17).
    - Authentication ([Auth]): the round trip of creation and login
      (C10), accounts without a password (C11), the case-sensitive
      lookup (C12), the admin check that always raises (C13), and the
      upgrade of an outdated hash on login (C30), which happens even
      when the login fails for an inactive account (C33).
    - Permissions ([Perms]): [has_perm] meets its contract (C23) and
      raises only for an unsaved instance (C29).  The superuser
      [create_superuser] makes has every permission (C24).  A new
      account has none (C25).  [is_admin] is read by no check (C26).
      [has_module_perms] follows the app labels (C28).
    - The permission caches ([PermCache]): while the tables do not
      change, any sequence of checks with the caches answers as without
      them (C35).  Once a check has filled [_perm_cache], the instance
      answers from it, whatever the tables become (C36).
    - Interleavings ([Conc]): every interleaving of account creations
      and logins keeps the table well formed, and a pending UPDATE of
      [create_superuser] always succeeds (C37).  Between the two statements the new account is visible
      without [is_superuser] (C27), against the spec's "single atomic
      creation-then-upgrade step".  Every interleaving is finite (C38).
      None blocks a request before it returns (C39).  Any number of
      account creations are serialisable: a complete interleaving ends
      as the serial execution of the whole calls in the order they
      started (C40).  With a login beside them they are not: a login
      between the two statements of [create_superuser] authenticates
      the account as an ordinary user, which no serial order gives
      (C22).
    - The model ([Model]): [set_password] then [check_password] (C21).
    - The table ([Store]): an instance comes back unchanged from a save
      and a reload exactly when its fields have their declared types
      (C32).

    ** Modelling choices, bounds and what is not modelled

    - Strings are Stdlib [string], i.e. code points 0..255.  [str.lower]
      and [str.isspace] are Python's on that range.  Code points above
      255 are not modelled.
    - Randomness (the salt, and the random suffix of an unusable
      password) is an explicit argument [rnd] of the operations.
    - Whether the database enforces [max_length] depends on the backend
      (PostgreSQL does, SQLite does not).  It is the Section variable
      [enforce_len] of [Store], so every theorem holds for both.
    - Inside one [save] the errors are raised in a fixed order.  First
      come the Python-side conversion errors, in field order.  Then the
      database checks: NOT NULL, then length, then uniqueness.  Theorems
      that name one error assume that only that constraint fails.
    - The keyword names [Model.__init__] accepts are the model's fields.
      The inherited [id], [last_login], [groups], [user_permissions] and
      the properties of [AbstractBaseUser] are not modelled: [model_init]
      treats them as unexpected names ([TypeError]), where Django would
      accept some of them.  The theorems pass keyword arguments that
      name the declared fields only ([kwargs_typed]) or state what
      happens to a name that is no field.
    - Concurrency is modelled at the grain of SQL statements in
      autocommit mode.  Each statement is atomic, and nothing of a
      request is atomic beyond one statement.  The requests in [Conc]
      are the manager's two methods and logins; permission checks only
      read the session's user and are not threads of [Conc].
      Isolation levels, locks and a second database connection's cache
      are not modelled.
    - Not modelled: sessions and tokens (djoser), migrations, the
      admin UI beyond [has_permission], and object-level permissions
      beyond [ModelBackend]'s [False].
    - No loops and no fuel: every operation is structural or
      non-recursive, so every definition is total and executable.
      Interleavings are unbounded, and C38 shows that each one ends:
      every statement lowers the number of statements left
      ([config_weight]). *)

From stdpp Require Export base gmap strings list pretty.
From Stdlib Require Export Ascii String.
From Stdlib Require Export ZArith Lia.

Declare Scope py_scope.
Delimit Scope py_scope with py.

(** ** Python values *)

(** The values a keyword argument or an attribute can hold, as far as the
    model distinguishes them. *)
Inductive pyval :=
| PyStr (s : string)
| PyBool (b : bool)
| PyInt (z : Z)
| PyNone.

#[export] Instance pyval_eq_dec : EqDecision pyval.
Proof. solve_decision. Defined.

(** [bool(v)]: Python truthiness. *)
Definition py_truthy (v : pyval) : bool :=
  match v with
  | PyStr s => bool_decide (s <> ""%string)
  | PyBool b => b
  | PyInt z => bool_decide (z <> 0%Z)
  | PyNone => false
  end.

(** ** Python exceptions and the exception monad *)

Inductive pyexc :=
| ValueError (msg : string)
| TypeError (msg : string)
| AttributeError (msg : string)
| ValidationError (msg : string)
| IntegrityError (msg : string)
| DataError (msg : string)
| DoesNotExist (msg : string)
| MultipleObjectsReturned (msg : string)
| DatabaseError (msg : string).

#[export] Instance pyexc_eq_dec : EqDecision pyexc.
Proof. solve_decision. Defined.

Inductive result (A : Type) :=
| Ok (a : A)
| Raise (e : pyexc).
Arguments Ok {A} a.
Arguments Raise {A} e.

Definition bind {A B} (m : result A) (k : A -> result B) : result B :=
  match m with
  | Ok a => k a
  | Raise e => Raise e
  end.

Notation "x <- m ;; k" := (bind m (fun x => k))
  (at level 100, m at next level, right associativity) : py_scope.

Definition is_ok {A} (m : result A) : bool :=
  match m with Ok _ => true | Raise _ => false end.

Open Scope py_scope.

(** ** The state and exception monad

    Code that writes to the database and may raise threads the database
    through: [stE S A] maps a state to the next state and a result.  A
    statement that completed before an exception keeps its effect, as a
    committed SQL statement does in autocommit mode. *)

Definition stE (S A : Type) : Type := S -> S * result A.

Definition st_ret {S A} (a : A) : stE S A := fun s => (s, Ok a).

Definition st_lift {S A} (r : result A) : stE S A := fun s => (s, r).

Definition st_bind {S A B} (m : stE S A) (k : A -> stE S B) : stE S B :=
  fun s => match m s with
           | (s', Ok a) => k a s'
           | (s', Raise e) => (s', Raise e)
           end.

Notation "x <~ m ;; k" := (st_bind m (fun x => k))
  (at level 100, m at next level, right associativity) : py_scope.

(** ** Generic lemmas on the monads *)

Lemma bind_Ok {A B} (a : A) (k : A -> result B) : bind (Ok a) k = k a.
Proof. reflexivity. Qed.

Lemma bind_Raise {A B} (e : pyexc) (k : A -> result B) : bind (Raise e) k = Raise e.
Proof. reflexivity. Qed.

Lemma bind_eq_Ok {A B} (m : result A) (k : A -> result B) (b : B) :
  bind m k = Ok b <-> exists a, m = Ok a /\ k a = Ok b.
Proof.
  destruct m as [a|e]; simpl; split.
  - eauto.
  - intros (? & [= ->] & ?). done.
  - discriminate.
  - intros (? & ? & ?). discriminate.
Qed.

Lemma bind_eq_Raise {A B} (m : result A) (k : A -> result B) (e : pyexc) :
  bind m k = Raise e <-> m = Raise e \/ exists a, m = Ok a /\ k a = Raise e.
Proof.
  destruct m as [a|e']; simpl; split.
  - eauto.
  - intros [? | (? & [= ->] & ?)]; done.
  - intros [= ->]. auto.
  - intros [? | (? & ? & ?)]; congruence.
Qed.

Lemma py_truthy_str (s : string) : py_truthy (PyStr s) = false <-> s = ""%string.
Proof.
  simpl. case_bool_decide as H.
  - split; [discriminate | intros ->; contradiction].
  - split; [intros _ | done]. destruct (decide (s = ""%string)); [done | contradiction].
Qed.

Lemma st_bind_Ok {S A B} (m : stE S A) (k : A -> stE S B) (s s' : S) (a : A) :
  m s = (s', Ok a) -> st_bind m k s = k a s'.
Proof. unfold st_bind. by intros ->. Qed.

Lemma st_bind_Raise {S A B} (m : stE S A) (k : A -> stE S B) (s s' : S) (e : pyexc) :
  m s = (s', Raise e) -> st_bind m k s = (s', Raise e).
Proof. unfold st_bind. by intros ->. Qed.

Lemma st_bind_inv {S A B} (m : stE S A) (k : A -> stE S B) (s s'' : S) (r : result B) :
  st_bind m k s = (s'', r) ->
  (exists s' a, m s = (s', Ok a) /\ k a s' = (s'', r)) \/
  (exists e, m s = (s'', Raise e) /\ r = Raise e).
Proof.
  unfold st_bind. destruct (m s) as [s' [a|e]]; intros Hk; [left; eauto|right].
  injection Hk as -> <-. eauto.
Qed.

Lemma st_bind_ret_r {S A} (m : stE S A) (s : S) : st_bind m st_ret s = m s.
Proof. unfold st_bind, st_ret. by destruct (m s) as [? []]. Qed.

Lemma st_bind_lift_Ok {S A B} (a : A) (k : A -> stE S B) (s : S) :
  st_bind (st_lift (Ok a)) k s = k a s.
Proof. reflexivity. Qed.

Lemma st_bind_lift_Raise {S A B} (e : pyexc) (k : A -> stE S B) (s : S) :
  st_bind (st_lift (Raise e)) k s = (s, Raise e).
Proof. reflexivity. Qed.

(** ** Generic list lemmas *)

(** A duplicate-free list whose elements all equal [x], and which holds
    [x], is [[x]]. *)
Lemma NoDup_singleton_of_all {A} (l : list A) (x : A) :
  NoDup l -> x ∈ l -> (forall y, y ∈ l -> y = x) -> l = [x].
Proof.
  intros Hnd Hx Hall. destruct l as [|a [|b l]].
  - by apply not_elem_of_nil in Hx.
  - f_equal. apply Hall. left.
  - exfalso. apply NoDup_cons in Hnd as [Hnin _]. apply Hnin.
    rewrite (Hall a), (Hall b); [left | right; left | left].
Qed.

(** Replacing the element at [i] changes a weighted sum by the
    difference of the weights. *)
Lemma sum_list_with_insert {A} (f : A -> nat) (l : list A) (i : nat) (x y : A) :
  l !! i = Some y -> sum_list_with f (<[i := x]> l) + f y = sum_list_with f l + f x.
Proof.
  revert i. induction l as [|a l IH]; intros [|i] Hi; simpl in *; try discriminate.
  - injection Hi as ->. lia.
  - specialize (IH i Hi). lia.
Qed.

(** A list on which a decidable property fails somewhere has an index
    where it fails. *)
Lemma not_Forall_lookup {A} (P : A -> Prop) `{!forall x, Decision (P x)} (l : list A) :
  ~ Forall P l -> exists i x, l !! i = Some x /\ ~ P x.
Proof.
  intros Hn. apply not_Forall_Exists, Exists_exists in Hn as (x & Hx & Hnx); [|apply _].
  apply list_elem_of_lookup_1 in Hx as [i Hi]. eauto.
Qed.

(** ** Generic map lemmas *)

(** Moving the entry of [k] from the left map of a union into the right
    one leaves the union unchanged. *)
Lemma union_delete_insert {K A} `{Countable K} (P m : gmap K A) (k : K) (x : A) :
  P !! k = Some x -> delete k P ∪ <[k := x]> m = P ∪ m.
Proof.
  intros Hk. apply map_eq. intros j. rewrite !lookup_union.
  destruct (decide (j = k)) as [->|Hne].
  - rewrite lookup_delete_eq, lookup_insert_eq, Hk. by destruct (m !! k).
  - by rewrite lookup_delete_ne, lookup_insert_ne by congruence.
Qed.

(** ** Automation *)

Create HintDb djauth discriminated.
Create Rewrite HintDb djauth_rw.
#[export] Hint Rewrite @bind_Ok @bind_Raise @st_bind_ret_r @st_bind_lift_Ok @st_bind_lift_Raise
  : djauth_rw.

(** [compute_lhs] evaluates the left side of an equation, so that a
    concrete run of an operation can be matched against a pattern. *)
Ltac compute_lhs :=
  match goal with |- ?l = _ => let v := eval vm_compute in l in change l with v end.

(** [py_simp] pushes a computation through its binds: it rewrites the
    bind equations and splits an equation [bind m k = Ok b] or
    [bind m k = Raise e] in a hypothesis into its parts. *)
Ltac py_simp :=
  repeat match goal with
  | H : bind _ _ = Ok _ |- _ =>
      apply bind_eq_Ok in H; destruct H as (? & ? & H)
  | H : Ok _ = Ok _ |- _ => injection H as H; subst
  | H : Ok _ = Raise _ |- _ => discriminate H
  | H : Raise _ = Ok _ |- _ => discriminate H
  | _ => progress autorewrite with djauth_rw in *
  end.
