(* ===== verification/PyStr.v ===== *)
(** * Python string methods used by the account code

    [str.lower], [str.isspace], [str.strip] and [str.rsplit(sep, 1)] on
    strings of code points 0..255 (Stdlib [string]).  In
    [src/users/models.py] they are reached from [create_user] (line 14,
    [email.lower()]) and from [BaseUserManager.normalize_email].  The
    file proves the lemmas the manager's theorems use: [lower] is
    idempotent, preserves length and commutes with concatenation, and
    [rsplit] at the last separator is a round trip. *)

From S2P Require Import Prelude.

Module PyStr.

(** ** [str.lower] *)

(** Python lowercases the ASCII capitals [A-Z] (65..90).  In the Latin-1
    range it also lowercases the capitals U+00C0..U+00DE, except U+00D7
    (the multiplication sign).  Each maps to its code point plus 32.
    Every other code point below 256 is its own lower case. *)
Definition is_upper_code (n : nat) : bool :=
  ((65 <=? n) && (n <=? 90)) || ((192 <=? n) && (n <=? 222) && negb (n =? 215)).

Definition lower_char (c : ascii) : ascii :=
  let n := Ascii.nat_of_ascii c in
  if is_upper_code n then Ascii.ascii_of_nat (n + 32) else c.

Fixpoint lower (s : string) : string :=
  match s with
  | EmptyString => EmptyString
  | String c s' => String (lower_char c) (lower s')
  end.

(** A string is in lower case when [lower] leaves it unchanged. *)
Definition is_lower (s : string) : bool := bool_decide (lower s = s).

(** ** [str.isspace] and [str.strip] *)

(** The code points below 256 for which Python's [str.isspace] holds:
    tab, LF, VT, FF, CR, the separators U+001C..U+001F, space, NEL
    U+0085 and NBSP U+00A0. *)
Definition isspace (c : ascii) : bool :=
  let n := Ascii.nat_of_ascii c in
  ((9 <=? n) && (n <=? 13)) || ((28 <=? n) && (n <=? 32)) || (n =? 133) || (n =? 160).

Fixpoint lstrip (s : string) : string :=
  match s with
  | EmptyString => EmptyString
  | String c s' => if isspace c then lstrip s' else s
  end.

Definition rstrip (s : string) : string := String.rev (lstrip (String.rev s)).

(** [str.strip()] with no argument. *)
Definition strip (s : string) : string := rstrip (lstrip s).

(** ** [str.rsplit(sep, 1)] *)

(** [rsplit1 sep s] is [Some (head, tail)] when [s.rsplit(sep, 1)] has two
    parts, [head] before the last [sep] and [tail] after it.  It is
    [None] when [sep] does not occur and the split has one part. *)
Fixpoint rsplit1 (sep : ascii) (s : string) : option (string * string) :=
  match s with
  | EmptyString => None
  | String c s' =>
      match rsplit1 sep s' with
      | Some (h, t) => Some (String c h, t)
      | None => if decide (c = sep) then Some (EmptyString, s') else None
      end
  end.

(** [sep in s]. *)
Fixpoint contains (sep : ascii) (s : string) : bool :=
  match s with
  | EmptyString => false
  | String c s' => bool_decide (c = sep) || contains sep s'
  end.

(** ** Lemmas *)

Lemma lower_char_idem (c : ascii) : lower_char (lower_char c) = lower_char c.
Proof. destruct c as [[] [] [] [] [] [] [] []]; reflexivity. Qed.

Lemma lower_idem (s : string) : lower (lower s) = lower s.
Proof. induction s as [|c s IH]; simpl; [done|]. by rewrite lower_char_idem, IH. Qed.

Lemma lower_length (s : string) : String.length (lower s) = String.length s.
Proof. induction s; simpl; auto. Qed.

Lemma lower_app (s1 s2 : string) : lower (s1 +:+ s2) = lower s1 +:+ lower s2.
Proof. induction s1 as [|c s1 IH]; simpl; [done|]. by rewrite IH. Qed.

Lemma lower_is_lower (s : string) : is_lower (lower s) = true.
Proof. unfold is_lower. apply bool_decide_eq_true_2, lower_idem. Qed.

Lemma lower_empty_iff (s : string) : lower s = EmptyString <-> s = EmptyString.
Proof. destruct s; simpl; split; congruence. Qed.

Lemma lower_string (c : ascii) (s : string) :
  lower (String c s) = String (lower_char c) (lower s).
Proof. reflexivity. Qed.

(** The separator '@' is its own lower case. *)
Lemma lower_char_at : lower_char "@"%char = "@"%char.
Proof. reflexivity. Qed.

Lemma lower_char_eq_at (c : ascii) :
  bool_decide (lower_char c = "@"%char) = bool_decide (c = "@"%char).
Proof. destruct c as [[] [] [] [] [] [] [] []]; vm_compute; reflexivity. Qed.

Lemma contains_lower_at (s : string) :
  contains "@"%char (lower s) = contains "@"%char s.
Proof. induction s as [|c s IH]; simpl; [done|]. by rewrite IH, lower_char_eq_at. Qed.

(** Round trip of the split: the string is the head, the separator and
    the tail, and the tail has no separator. *)
Lemma rsplit1_Some (sep : ascii) (s h t : string) :
  rsplit1 sep s = Some (h, t) -> s = h +:+ String sep t /\ contains sep t = false.
Proof.
  revert h t. induction s as [|c s IH]; intros h t; simpl; [discriminate|].
  destruct (rsplit1 sep s) as [[h' t']|] eqn:E.
  - intros [= <- <-]. destruct (IH h' t' eq_refl) as [-> Ht]. done.
  - case_decide as Hc; [|discriminate]. intros [= <- <-]. subst. split; [done|].
    clear IH. induction s as [|c s IHs]; simpl in *; [done|].
    destruct (rsplit1 sep s) as [[]|]; [discriminate|].
    case_decide; [discriminate|]. rewrite bool_decide_eq_false_2; auto.
Qed.

Lemma rsplit1_None (sep : ascii) (s : string) :
  rsplit1 sep s = None <-> contains sep s = false.
Proof.
  induction s as [|c s IH]; simpl; [done|].
  destruct (rsplit1 sep s) as [[h t]|] eqn:E.
  - split; [discriminate|]. intros Hf. apply orb_false_iff in Hf as [_ Hf].
    apply IH in Hf. discriminate.
  - assert (contains sep s = false) as -> by (by apply IH).
    rewrite orb_false_r. case_decide; subst.
    + rewrite bool_decide_eq_true_2; done.
    + rewrite bool_decide_eq_false_2; done.
Qed.

(** [s.rsplit(sep, 1)] splits [head + sep + tail] back into [head]
    and [tail] when [tail] has no [sep], whatever [head] holds.  With
    ["@"] this is the split [normalize_email] makes. *)
Lemma rsplit1_app (sep : ascii) (h t : string) :
  contains sep t = false -> rsplit1 sep (h +:+ String sep t) = Some (h, t).
Proof.
  intros Ht. induction h as [|c h IH]; unfold String.app in *; simpl.
  - apply rsplit1_None in Ht. rewrite Ht. by rewrite decide_True.
  - by rewrite IH.
Qed.

End PyStr.

#[export] Hint Rewrite PyStr.lower_idem PyStr.lower_length PyStr.lower_app : djauth_rw.
#[export] Hint Resolve PyStr.lower_is_lower : djauth.
