(* ===== verification/Hasher.v ===== *)
(** * Password hashing: [django.contrib.auth.hashers]

    [AbstractBaseUser.set_password], which [create_user] calls on line 22
    of [src/users/models.py], stores [make_password(raw)].  Login runs
    [check_password].  The hashing algorithm is an external collaborator
    (spec section 6).  It is the typeclass [PasswordHasher]: an encoder
    from a password and a salt, a verifier, [must_update], and the laws the rest
    of Django relies on.
    - An encoded password never starts with the unusable prefix "!".
    - The verifier accepts the password that was encoded.
    - The verifier rejects any other password.  This idealises collision
      resistance.
    - A fresh encoding never needs an update ([must_update]).
    [make_password], [is_password_usable], [verify_password] and
    [check_password] are Django's functions over any such hasher.
    [plain_hasher] is an instance that shows the laws can be met.
    [versioned_hasher] encodes with ["v2$"] but still verifies ["v1$"]
    encodings, and asks for those to be updated.  This is what a
    project sees after it changes [PASSWORD_HASHERS]. *)

From S2P Require Import Prelude PyStr.

Class PasswordHasher := {
  hasher_encode : string -> string -> string;
  hasher_verify : string -> string -> bool;
  hasher_must_update : string -> bool;
  hasher_encode_usable : forall p salt, String.prefix "!" (hasher_encode p salt) = false;
  hasher_verify_encode : forall p salt, hasher_verify p (hasher_encode p salt) = true;
  hasher_verify_sound : forall p q salt, hasher_verify p (hasher_encode q salt) = true -> p = q;
  hasher_encode_current : forall p salt, hasher_must_update (hasher_encode p salt) = false
}.

(** An instance: the password with a marker in front.  The salt is
    ignored, as in Django's unsalted hashers.  No encoding needs an
    update. *)
#[export] Program Instance plain_hasher : PasswordHasher := {
  hasher_encode p _ := ("plain$" +:+ p)%string;
  hasher_verify p e := bool_decide (e = ("plain$" +:+ p)%string);
  hasher_must_update _ := false
}.
Next Obligation. done. Qed.
Next Obligation. intros. by apply bool_decide_eq_true_2. Qed.
Next Obligation.
  intros p q salt H. apply bool_decide_eq_true_1 in H. by apply (inj (String.app _)) in H.
Qed.
Next Obligation. done. Qed.

(** A hasher after an upgrade of [PASSWORD_HASHERS]: it encodes with
    ["v2$"], still verifies the older ["v1$"] encodings, and asks for
    those to be updated.  It is not an instance: the theorems that need
    it name it. *)
Program Definition versioned_hasher : PasswordHasher := {|
  hasher_encode p _ := ("v2$" +:+ p)%string;
  hasher_verify p e := bool_decide (e = ("v2$" +:+ p)%string) || bool_decide (e = ("v1$" +:+ p)%string);
  hasher_must_update e := String.prefix "v1$" e
|}.
Next Obligation. intros. reflexivity. Qed.
Next Obligation. intros p salt. cbv beta. apply orb_true_iff. left. by apply bool_decide_eq_true_2. Qed.
Next Obligation.
  intros p q salt H. cbv beta in H. apply orb_true_iff in H as [H|H]; apply bool_decide_eq_true_1 in H.
  - by apply (inj (String.app _)) in H.
  - discriminate.
Qed.
Next Obligation. intros. reflexivity. Qed.

Module Hashers.
Section WithHasher.
Context {HP : PasswordHasher}.

Definition UNUSABLE_PASSWORD_PREFIX : string := "!".

(** [make_password(password, salt=None)].  [None] gives the unusable
    prefix followed by a random string, [rnd].  A [str] is encoded with
    [rnd] as its salt.  Any other value raises [TypeError]. *)
Definition make_password (password : pyval) (rnd : string) : result string :=
  match password with
  | PyNone => Ok (UNUSABLE_PASSWORD_PREFIX +:+ rnd)%string
  | PyStr p => Ok (hasher_encode p rnd)
  | _ => Raise (TypeError "Password must be a string or bytes")
  end.

(** [is_password_usable(encoded)]: [encoded is None or not
    encoded.startswith(UNUSABLE_PASSWORD_PREFIX)]. *)
Definition is_password_usable (encoded : option string) : bool :=
  match encoded with
  | None => true
  | Some e => negb (String.prefix UNUSABLE_PASSWORD_PREFIX e)
  end.

(** [check_password(password, encoded)] through [verify_password]: a
    [None] password or an unusable encoding is rejected.  Otherwise the
    hasher decides. *)
Definition check_password (password : option string) (encoded : string) : bool :=
  match password with
  | None => false
  | Some p => if is_password_usable (Some encoded) then hasher_verify p encoded else false
  end.

(** [verify_password(password, encoded)]: whether the password is
    right, and whether the encoding must be updated.  A [None]
    password or an unusable encoding gives [(False, False)]. *)
Definition verify_password (password : option string) (encoded : string) : bool * bool :=
  match password with
  | None => (false, false)
  | Some p =>
      if is_password_usable (Some encoded) then (hasher_verify p encoded, hasher_must_update encoded)
      else (false, false)
  end.

Lemma encode_is_usable (p salt : string) : is_password_usable (Some (hasher_encode p salt)) = true.
Proof. simpl. by rewrite hasher_encode_usable. Qed.

Lemma check_password_encode (p q salt : string) :
  check_password (Some q) (hasher_encode p salt) = bool_decide (q = p).
Proof.
  unfold check_password. rewrite encode_is_usable. case_bool_decide as Hq.
  - subst. apply hasher_verify_encode.
  - destruct (hasher_verify q _) eqn:E; [|done]. by apply hasher_verify_sound in E.
Qed.


Lemma check_password_unusable (pw : option string) (rnd : string) :
  check_password pw (UNUSABLE_PASSWORD_PREFIX +:+ rnd)%string = false.
Proof. destruct pw, rnd; reflexivity. Qed.

(** The first component of [verify_password] is [check_password]. *)
Lemma verify_password_fst (pw : option string) (e : string) :
  (verify_password pw e).1 = check_password pw e.
Proof. unfold verify_password, check_password. destruct pw; [by destruct (is_password_usable _)|done]. Qed.

(** A fresh encoding is checked as [check_password_encode] says and
    never needs an update. *)
Lemma verify_password_encode (p q salt : string) :
  verify_password (Some q) (hasher_encode p salt) = (bool_decide (q = p), false).
Proof.
  pose proof (check_password_encode p q salt) as Hc. unfold check_password in Hc.
  unfold verify_password. rewrite encode_is_usable in Hc |- *. by rewrite Hc, hasher_encode_current.
Qed.

Lemma verify_password_unusable (pw : option string) (rnd : string) :
  verify_password pw (UNUSABLE_PASSWORD_PREFIX +:+ rnd)%string = (false, false).
Proof. destruct pw, rnd; reflexivity. Qed.

(** The value [make_password] stores for a [str] password accepts that
    password and no other. *)
Lemma make_password_check (p rnd e : string) :
  make_password (PyStr p) rnd = Ok e ->
  forall q, check_password (Some q) e = bool_decide (q = p).
Proof. intros [= <-] q. apply check_password_encode. Qed.

(** With no password the stored value is unusable, and no password is
    accepted against it. *)
Lemma make_password_None (rnd e : string) :
  make_password PyNone rnd = Ok e ->
  is_password_usable (Some e) = false /\ forall pw, check_password pw e = false.
Proof. intros [= <-]. split; [by destruct rnd | intros pw; apply check_password_unusable]. Qed.

Lemma make_password_ok_iff (pw : pyval) (rnd : string) :
  is_ok (make_password pw rnd) = true <-> (pw = PyNone \/ exists p, pw = PyStr p).
Proof. destruct pw as [p|b|z|]; simpl; split; intros Hp; eauto; try discriminate; destruct Hp as [? | [? ?]]; done. Qed.

End WithHasher.

End Hashers.
