(* ===== verification/Model.v ===== *)
(** * The model class [UserAccount] (lines 42-64 of [src/users/models.py])

    A Python instance of [UserAccount] is the record [UserAccount].  It
    has the primary key, the inherited [password] field, the six fields
    declared on lines 43-55, and the entries of the instance [__dict__]
    that are not fields ([attrs]).  Field values are [pyval]: Python
    keeps whatever the caller passed and converts only when it saves.
    The fields are also the enumeration [Field].  Its names give the
    keyword names [Model.__init__] accepts and the attribute names that
    Python assignment routes to a field.

    Operations: [model_init] ([self.model(email=email, **kwargs)],
    lines 16-19), [setattr]/[getattr] (Python attribute access, used by
    lines 36-37), [set_password] (line 22), [check_password] and
    [user_str] ([__str__], lines 63-64).  [has_field_type] and
    [user_typed] state that a field holds the Python type its
    declaration asks for.  The theorems: a successful
    [model_init] reads back each argument through [getattr], and after
    [set_password] the instance accepts exactly the password set. *)

From S2P Require Import Prelude PyStr Hasher.

Module Model.

(** The concrete fields of the model: [password] from [AbstractBaseUser],
    the declared ones of lines 43-55.  The key [id] is kept apart. *)
Inductive Field :=
| FPassword | FFirstName | FLastName | FEmail | FIsActive | FIsAdmin | FIsSuperuser.

#[export] Instance Field_eq_dec : EqDecision Field.
Proof. solve_decision. Defined.

Definition all_fields : list Field :=
  [FPassword; FFirstName; FLastName; FEmail; FIsActive; FIsAdmin; FIsSuperuser].

Definition field_name (f : Field) : string :=
  match f with
  | FPassword => "password"
  | FFirstName => "first_name"
  | FLastName => "last_name"
  | FEmail => "email"
  | FIsActive => "is_active"
  | FIsAdmin => "is_admin"
  | FIsSuperuser => "is_superuser"
  end.

Definition field_of_name (n : string) : option Field :=
  List.find (fun f => bool_decide (field_name f = n)) all_fields.

(** The defaults of the declarations: a [CharField] with no default
    gets the empty string; the [BooleanField]s declare theirs on lines
    51, 53 and 55. *)
Definition field_default (f : Field) : pyval :=
  match f with
  | FPassword | FFirstName | FLastName | FEmail => PyStr ""
  | FIsActive => PyBool true
  | FIsAdmin => PyBool false
  | FIsSuperuser => PyBool false
  end.

(** [max_length] of the [CharField]s ([password] has 128 in
    [AbstractBaseUser]); [None] for the [BooleanField]s. *)
Definition field_max_length (f : Field) : option nat :=
  match f with
  | FPassword => Some 128
  | FFirstName | FLastName => Some 200
  | FEmail => Some 255
  | _ => None
  end.

(** Lines 59-61. *)
Definition USERNAME_FIELD : Field := FEmail.
Definition REQUIRED_FIELDS : list Field := [FFirstName; FLastName].

Record UserAccount := mkUserAccount {
  id : option Z;
  password : pyval;
  first_name : pyval;
  last_name : pyval;
  email : pyval;
  is_active : pyval;
  is_admin : pyval;
  is_superuser : pyval;
  attrs : gmap string pyval
}.

Definition get_field (u : UserAccount) (f : Field) : pyval :=
  match f with
  | FPassword => password u
  | FFirstName => first_name u
  | FLastName => last_name u
  | FEmail => email u
  | FIsActive => is_active u
  | FIsAdmin => is_admin u
  | FIsSuperuser => is_superuser u
  end.

(** The Python type the declaration of a field asks for: a [str] for
    the [CharField]s (they have a [max_length]), a [bool] for the
    [BooleanField]s. *)
Definition has_field_type (f : Field) (v : pyval) : bool :=
  match field_max_length f, v with
  | Some _, PyStr _ => true
  | None, PyBool _ => true
  | _, _ => false
  end.

(** Every field of the instance holds a value of its declared type. *)
Definition user_typed (u : UserAccount) : bool :=
  forallb (fun f => has_field_type f (get_field u f)) all_fields.

Definition set_field (u : UserAccount) (f : Field) (v : pyval) : UserAccount :=
  let 'mkUserAccount i pw fn ln em act adm su dct := u in
  match f with
  | FPassword => mkUserAccount i v fn ln em act adm su dct
  | FFirstName => mkUserAccount i pw v ln em act adm su dct
  | FLastName => mkUserAccount i pw fn v em act adm su dct
  | FEmail => mkUserAccount i pw fn ln v act adm su dct
  | FIsActive => mkUserAccount i pw fn ln em v adm su dct
  | FIsAdmin => mkUserAccount i pw fn ln em act v su dct
  | FIsSuperuser => mkUserAccount i pw fn ln em act adm v dct
  end.

(** [obj.name = v]: a field name goes through the field's descriptor.
    Any other name (the model declares no property with a setter) lands
    in the instance [__dict__]. *)
Definition setattr (u : UserAccount) (n : string) (v : pyval) : UserAccount :=
  match field_of_name n with
  | Some f => set_field u f v
  | None =>
      let 'mkUserAccount i pw fn ln em act adm su dct := u in
      mkUserAccount i pw fn ln em act adm su (<[n := v]> dct)
  end.

(** The class attributes that are not fields, as far as the code reads
    them: the two properties of [AbstractBaseUser]. *)
Definition class_attr (n : string) : option pyval :=
  if decide (n = "is_anonymous") then Some (PyBool false)
  else if decide (n = "is_authenticated") then Some (PyBool true)
  else None.

(** [obj.name]: a field, else the instance [__dict__], else the class,
    else [AttributeError]. *)
Definition getattr (u : UserAccount) (n : string) : result pyval :=
  match field_of_name n with
  | Some f => Ok (get_field u f)
  | None =>
      match attrs u !! n with
      | Some v => Ok v
      | None =>
          match class_attr n with
          | Some v => Ok v
          | None => Raise (AttributeError ("'UserAccount' object has no attribute '" +:+ n +:+ "'"))
          end
      end
  end.

(** [self.model(email=email, **kwargs)] (lines 16-19), through
    [Model.__init__].  An [email] key in [kwargs] is a duplicate keyword
    argument.  A name that is no field is unexpected.  Both raise
    [TypeError].  Otherwise each field takes its keyword value or its
    default, and [email] takes the argument.  A new instance has no
    primary key and an empty [__dict__]. *)
Definition model_init (em : pyval) (kw : gmap string pyval) : result UserAccount :=
  if decide (is_Some (kw !! "email")) then
    Raise (TypeError "UserAccount() got multiple values for keyword argument 'email'")
  else if decide (map_Forall (fun n _ => is_Some (field_of_name n)) kw) then
    let arg f := default (field_default f) (kw !! field_name f) in
    Ok (mkUserAccount None (arg FPassword) (arg FFirstName) (arg FLastName) em
          (arg FIsActive) (arg FIsAdmin) (arg FIsSuperuser) ∅)
  else Raise (TypeError "UserAccount() got unexpected keyword arguments").

Section WithHasher.
Context {HP : PasswordHasher}.

(** [AbstractBaseUser.set_password] (line 22): [self.password =
    make_password(raw_password)]; [self._password = raw_password]. *)
Definition set_password (u : UserAccount) (raw : pyval) (rnd : string) : result UserAccount :=
  e <- Hashers.make_password raw rnd ;;
  Ok (setattr (set_field u FPassword (PyStr e)) "_password" raw).

(** [AbstractBaseUser.check_password(raw_password)], without the rehash
    on login. *)
Definition check_password (u : UserAccount) (raw : option string) : bool :=
  match password u with
  | PyStr e => Hashers.check_password raw e
  | _ => false
  end.

End WithHasher.

(** [__str__] (lines 63-64): [return self.email]; Python's [str()]
    raises [TypeError] when [__str__] returns a non-string. *)
Definition user_str (u : UserAccount) : result string :=
  match email u with
  | PyStr s => Ok s
  | _ => Raise (TypeError "__str__ returned non-string")
  end.

(** ** Lemmas *)

Lemma field_of_name_field (f : Field) : field_of_name (field_name f) = Some f.
Proof. destruct f; reflexivity. Qed.

Lemma field_of_name_Some (n : string) (f : Field) :
  field_of_name n = Some f -> n = field_name f.
Proof.
  unfold field_of_name. intros Hf.
  apply List.find_some in Hf as [_ Hf]. by apply bool_decide_eq_true_1 in Hf.
Qed.

Lemma get_set_field_eq (u : UserAccount) (f : Field) (v : pyval) :
  get_field (set_field u f v) f = v.
Proof. destruct u, f; reflexivity. Qed.

Lemma get_set_field_ne (u : UserAccount) (f g : Field) (v : pyval) :
  f <> g -> get_field (set_field u f v) g = get_field u g.
Proof. destruct u, f, g; simpl; congruence. Qed.

Lemma id_set_field (u : UserAccount) (f : Field) (v : pyval) : id (set_field u f v) = id u.
Proof. destruct u, f; reflexivity. Qed.

Lemma attrs_set_field (u : UserAccount) (f : Field) (v : pyval) : attrs (set_field u f v) = attrs u.
Proof. destruct u, f; reflexivity. Qed.

(** Assigning a name that is no field leaves every field alone. *)
Lemma setattr_nonfield (u : UserAccount) (n : string) (v : pyval) :
  field_of_name n = None ->
  (forall f, get_field (setattr u n v) f = get_field u f) /\
  id (setattr u n v) = id u /\ attrs (setattr u n v) = <[n := v]> (attrs u).
Proof. unfold setattr. intros ->. destruct u; split_and!; [intros []|..]; done. Qed.

Lemma setattr_field (u : UserAccount) (f : Field) (v : pyval) :
  setattr u (field_name f) v = set_field u f v.
Proof. unfold setattr. by rewrite field_of_name_field. Qed.

(** The password field after [setattr] of a name that is no field. *)
Lemma password_setattr_private (u : UserAccount) (v : pyval) :
  password (setattr u "_password" v) = password u.
Proof. by destruct u. Qed.

(** [UserAccount(email=em, **kw)] keeps what it was given: when it
    succeeds, reading back [email] gives [em] and reading back any
    keyword name gives that keyword's value, through Python attribute
    lookup. *)
Lemma model_init_kwargs_roundtrip (em : pyval) (kw : gmap string pyval) (u : UserAccount) :
  model_init em kw = Ok u ->
  getattr u "email" = Ok em /\ map_Forall (fun n v => getattr u n = Ok v) kw.
Proof.
  unfold model_init. case_decide as Hem; [done|]. case_decide as Hall; [|done].
  intros [= <-]. split; [done|]. intros n v Hn.
  destruct (Hall n v Hn) as [f Hf]. apply field_of_name_Some in Hf as Hnf. subst n.
  unfold getattr. rewrite field_of_name_field.
  destruct f; simpl in *; rewrite ?Hn; try done. exfalso. apply Hem. by exists v.
Qed.

Section Properties.
Context {HP : PasswordHasher}.

(** C21: After [set_password] with a [str] password [p] (line 22), the
    instance's [check_password] accepts [p] and no other password. *)
Theorem set_password_check (u u' : UserAccount) (p rnd : string) :
  set_password u (PyStr p) rnd = Ok u' ->
  forall q, check_password u' (Some q) = bool_decide (q = p).
Proof.
  unfold set_password. simpl. intros [= <-] q. unfold check_password.
  rewrite password_setattr_private. destruct u. apply Hashers.check_password_encode.
Qed.

End Properties.

End Model.

Lemma model_init_kwargs_roundtrip_witness :
  exists u, Model.model_init (PyStr "a@b.c") (<["first_name" := PyStr "Ann"]> ∅) = Ok u /\
  Model.getattr u "email" = Ok (PyStr "a@b.c") /\
  map_Forall (fun n v => Model.getattr u n = Ok v) (<["first_name" := PyStr "Ann"]> (∅ : gmap string pyval)).
Proof.
  eexists. split; [compute_lhs; reflexivity|].
  apply (Model.model_init_kwargs_roundtrip (PyStr "a@b.c") (<["first_name" := PyStr "Ann"]> ∅)).
  compute_lhs; reflexivity.
Defined.

Lemma set_password_check_witness :
  exists u', Model.set_password (Model.mkUserAccount None (PyStr "") (PyStr "") (PyStr "") (PyStr "a@b.c")
               (PyBool true) (PyBool false) (PyBool false) ∅) (PyStr "s3cret") "salt" = Ok u' /\
  forall q, Model.check_password u' (Some q) = bool_decide (q = "s3cret"%string).
Proof.
  eexists. split; [compute_lhs; reflexivity|].
  apply (Model.set_password_check (Model.mkUserAccount None (PyStr "") (PyStr "") (PyStr "") (PyStr "a@b.c")
               (PyBool true) (PyBool false) (PyBool false) ∅) _ "s3cret" "salt").
  compute_lhs; reflexivity.
Defined.
