(* ===== verification/Store.v ===== *)
(** * The database behind [save(using=self._db)] (lines 23 and 38)

    The table [users_useraccount] is a [gmap Z Row] from primary key to
    row, with the next value of the auto-increment sequence.  [save]
    follows [Model.save_base] for a model with an [AutoField] key.
    - The field values are converted first, on the Python side, by
      [get_prep_value]: [char_prep] for a [CharField], [bool_prep] for a
      [BooleanField].
    - The database then checks NOT NULL, the [max_length] of each
      [varchar] (only when the backend enforces it: [enforce_len]), and
      the [unique=True] index on [email] (line 47).
    - An instance without a key is INSERTed under the next sequence
      value.  An instance with a key is UPDATEd, or INSERTed under that
      key when no row has it.
    [from_db] rebuilds an instance from a row, as a query does.  The
    invariant [db_wf] holds of the empty table and [save] preserves it:
    keys are positive and below the sequence, emails are unique, and rows
    fit their columns when the backend enforces lengths.  An instance
    survives a save and a reload field for field exactly when each
    field holds its declared Python type ([user_typed]). *)

From S2P Require Import Prelude PyStr Hasher Model.
Import Model.

Module Store.

Record Row := mkRow {
  row_password : string;
  row_first_name : string;
  row_last_name : string;
  row_email : string;
  row_is_active : bool;
  row_is_admin : bool;
  row_is_superuser : bool
}.

Record Db := mkDb {
  db_rows : gmap Z Row;
  db_next_id : Z
}.

Definition db_empty : Db := mkDb ∅ 1.

(** [CharField.get_prep_value]: [to_python] keeps a [str] and [None] and
    applies [str()] to anything else.  [None] is SQL NULL. *)
Definition char_prep (v : pyval) : option string :=
  match v with
  | PyStr s => Some s
  | PyNone => None
  | PyBool b => Some (if b then "True" else "False")
  | PyInt z => Some (pretty z)
  end.

(** [BooleanField.get_prep_value]: [None] stays NULL.  Otherwise
    [to_python] accepts [True]/[False] and the integers equal to them
    ([1], [0]) and the strings ["t"], ["True"], ["1"] / ["f"],
    ["False"], ["0"].  Anything else raises [ValidationError]. *)
Definition bool_prep (v : pyval) : result (option bool) :=
  let invalid := Raise (ValidationError "value must be either True or False") in
  match v with
  | PyNone => Ok None
  | PyBool b => Ok (Some b)
  | PyInt z =>
      if decide (z = 1%Z) then Ok (Some true)
      else if decide (z = 0%Z) then Ok (Some false) else invalid
  | PyStr s =>
      if decide (s ∈ ["t"; "True"; "1"]) then Ok (Some true)
      else if decide (s ∈ ["f"; "False"; "0"]) then Ok (Some false) else invalid
  end%string.

(** The NOT NULL constraint of a column. *)
Definition not_null {A} (f : Field) (o : option A) : result A :=
  match o with
  | Some a => Ok a
  | None => Raise (IntegrityError ("NOT NULL constraint failed: users_useraccount." +:+ field_name f))
  end.

(** SQL [UNIQUE] on [email]: a row other than [pk] has the same email. *)
Definition email_taken (rows : gmap Z Row) (pk : Z) (em : string) : bool :=
  existsb (fun kr => bool_decide (kr.1 <> pk) && bool_decide (row_email kr.2 = em))
    (map_to_list rows).

Definition set_id (u : UserAccount) (k : Z) : UserAccount :=
  let 'mkUserAccount _ pw fn ln em act adm su dct := u in
  mkUserAccount (Some k) pw fn ln em act adm su dct.

(** [Model.from_db]: the instance a query returns for a row. *)
Definition from_db (k : Z) (r : Row) : UserAccount :=
  mkUserAccount (Some k) (PyStr (row_password r)) (PyStr (row_first_name r))
    (PyStr (row_last_name r)) (PyStr (row_email r)) (PyBool (row_is_active r))
    (PyBool (row_is_admin r)) (PyBool (row_is_superuser r)) ∅.

Definition row_fits (r : Row) : Prop :=
  String.length (row_password r) <= 128 /\ String.length (row_first_name r) <= 200 /\
  String.length (row_last_name r) <= 200 /\ String.length (row_email r) <= 255.

Section Backend.
(** Whether the backend rejects a value longer than its [varchar]. *)
Variable enforce_len : bool.

Definition check_len (f : Field) (s : string) : result unit :=
  match field_max_length f with
  | Some mx =>
      if enforce_len && bool_decide (mx < String.length s) then
        Raise (DataError ("value too long for type character varying(" +:+ pretty mx +:+ ")"))
      else Ok tt
  | None => Ok tt
  end.

(** The row an instance saves as, or the error raised on the way: the
    Python-side conversions in field order, then NOT NULL, then lengths. *)
Definition to_row (u : UserAccount) : result Row :=
  act <- bool_prep (is_active u) ;;
  adm <- bool_prep (is_admin u) ;;
  su <- bool_prep (is_superuser u) ;;
  pw <- not_null FPassword (char_prep (password u)) ;;
  fn <- not_null FFirstName (char_prep (first_name u)) ;;
  ln <- not_null FLastName (char_prep (last_name u)) ;;
  em <- not_null FEmail (char_prep (email u)) ;;
  act <- not_null FIsActive act ;;
  adm <- not_null FIsAdmin adm ;;
  su <- not_null FIsSuperuser su ;;
  _ <- check_len FPassword pw ;;
  _ <- check_len FFirstName fn ;;
  _ <- check_len FLastName ln ;;
  _ <- check_len FEmail em ;;
  Ok (mkRow pw fn ln em act adm su).

(** [Model.save()]: UPDATE-or-INSERT under the instance's key, or INSERT
    under the next sequence value, unless another row has the email.  On
    success the instance gets its key. *)
Definition save (u : UserAccount) : stE Db UserAccount :=
  r <~ st_lift (to_row u) ;;
  fun db =>
    let pk := default (db_next_id db) (id u) in
    if email_taken (db_rows db) pk (row_email r) then
      (db, Raise (IntegrityError "UNIQUE constraint failed: users_useraccount.email"))
    else
      let next := match id u with
                  | Some k => Z.max (db_next_id db) (k + 1)
                  | None => db_next_id db + 1
                  end%Z in
      (mkDb (<[pk := r]> (db_rows db)) next, Ok (set_id u pk)).

(** The table invariant. *)
Definition db_wf (db : Db) : Prop :=
  (0 < db_next_id db)%Z /\
  (forall k r, db_rows db !! k = Some r -> 0 < k < db_next_id db)%Z /\
  (forall k1 k2 r1 r2, db_rows db !! k1 = Some r1 -> db_rows db !! k2 = Some r2 ->
     row_email r1 = row_email r2 -> k1 = k2) /\
  (enforce_len = true -> forall k r, db_rows db !! k = Some r -> row_fits r).

(** The key an instance may carry: none, or a positive one. *)
Definition id_ok (u : UserAccount) : Prop :=
  match id u with Some k => (0 < k)%Z | None => True end.

(** ** Lemmas *)

Lemma email_taken_spec (rows : gmap Z Row) (pk : Z) (em : string) :
  email_taken rows pk em = true <->
  exists k r, rows !! k = Some r /\ k <> pk /\ row_email r = em.
Proof.
  unfold email_taken. rewrite existsb_exists. split.
  - intros ([k r] & Hin & Hb). apply andb_true_iff in Hb as [H1 H2].
    apply bool_decide_eq_true_1 in H1, H2. apply list_elem_of_In, elem_of_map_to_list in Hin.
    eauto.
  - intros (k & r & Hk & Hne & He). exists (k, r). split.
    + by apply list_elem_of_In, elem_of_map_to_list.
    + simpl. by rewrite !bool_decide_eq_true_2.
Qed.

Lemma email_taken_false (rows : gmap Z Row) (pk : Z) (em : string) (k : Z) (r : Row) :
  email_taken rows pk em = false -> rows !! k = Some r -> row_email r = em -> k = pk.
Proof.
  intros Hf Hk He. destruct (decide (k = pk)) as [|Hne]; [done|].
  assert (email_taken rows pk em = true) by (apply email_taken_spec; eauto). congruence.
Qed.

Lemma email_taken_none (rows : gmap Z Row) (pk : Z) (em : string) :
  (forall k r, rows !! k = Some r -> row_email r <> em) -> email_taken rows pk em = false.
Proof.
  intros Hn. destruct (email_taken rows pk em) eqn:E; [|done].
  apply email_taken_spec in E as (k & r & Hk & _ & He). by destruct (Hn k r Hk).
Qed.

Lemma check_len_ok (f : Field) (s : string) (mx : nat) :
  check_len f s = Ok tt -> field_max_length f = Some mx -> enforce_len = true ->
  String.length s <= mx.
Proof.
  unfold check_len. intros Hc Hf He. rewrite Hf, He in Hc. simpl in Hc.
  case_bool_decide; [discriminate | lia].
Qed.

Lemma to_row_fits (u : UserAccount) (r : Row) :
  to_row u = Ok r -> enforce_len = true -> row_fits r.
Proof.
  unfold to_row. intros Hr Hen. py_simp.
  repeat match goal with
         | H : check_len _ _ = Ok ?t |- _ => destruct t; eapply check_len_ok in H; [|done..]
         end.
  unfold row_fits; simpl. lia.
Qed.

Lemma check_len_pass (f : Field) (s : string) :
  (forall mx, field_max_length f = Some mx -> enforce_len = true -> String.length s <= mx) ->
  check_len f s = Ok tt.
Proof.
  unfold check_len. destruct (field_max_length f) as [mx|]; [|done]. intros Hl.
  destruct enforce_len; [|done]. simpl. rewrite bool_decide_eq_false_2; [done|].
  specialize (Hl mx eq_refl eq_refl). lia.
Qed.

(** An instance whose fields hold strings and booleans converts to the
    row of those values, when the row fits the columns. *)
Lemma to_row_typed (u : UserAccount) pw fn ln em act adm su :
  password u = PyStr pw -> first_name u = PyStr fn -> last_name u = PyStr ln ->
  email u = PyStr em -> is_active u = PyBool act -> is_admin u = PyBool adm ->
  is_superuser u = PyBool su ->
  (enforce_len = true -> row_fits (mkRow pw fn ln em act adm su)) ->
  to_row u = Ok (mkRow pw fn ln em act adm su).
Proof.
  intros Hpw Hfn Hln Hem Hact Hadm Hsu Hfit. unfold to_row.
  rewrite Hpw, Hfn, Hln, Hem, Hact, Hadm, Hsu. simpl.
  unfold row_fits in Hfit; simpl in Hfit.
  rewrite !check_len_pass; [done|intros mx [= <-] He; specialize (Hfit He); lia..].
Qed.

Lemma not_null_Ok {A} (f : Field) (o : option A) (a : A) : not_null f o = Ok a <-> o = Some a.
Proof. destruct o; simpl; split; congruence. Qed.

(** Inversion of [to_row]: each column holds the converted field. *)
Lemma to_row_inv (u : UserAccount) (r : Row) :
  to_row u = Ok r ->
  char_prep (password u) = Some (row_password r) /\
  char_prep (first_name u) = Some (row_first_name r) /\
  char_prep (last_name u) = Some (row_last_name r) /\
  char_prep (email u) = Some (row_email r) /\
  bool_prep (is_active u) = Ok (Some (row_is_active r)) /\
  bool_prep (is_admin u) = Ok (Some (row_is_admin r)) /\
  bool_prep (is_superuser u) = Ok (Some (row_is_superuser r)).
Proof.
  unfold to_row. intros Hr. py_simp.
  repeat match goal with H : not_null _ _ = Ok _ |- _ => apply not_null_Ok in H end.
  subst. simpl. auto 10.
Qed.

(** [to_row] reads the fields only. *)
Lemma to_row_ext (u1 u2 : UserAccount) :
  (forall f, get_field u1 f = get_field u2 f) -> to_row u1 = to_row u2.
Proof.
  intros H. pose proof (H FPassword). pose proof (H FFirstName). pose proof (H FLastName).
  pose proof (H FEmail). pose proof (H FIsActive). pose proof (H FIsAdmin).
  pose proof (H FIsSuperuser). destruct u1, u2; simpl in *; subst. reflexivity.
Qed.

Lemma email_taken_insert_same (rows : gmap Z Row) (pk : Z) (r : Row) (em : string) :
  email_taken (<[pk := r]> rows) pk em = email_taken rows pk em.
Proof.
  apply Bool.eq_true_iff_eq. rewrite !email_taken_spec.
  split; intros (k & r' & Hk & Hne & He); exists k, r'; split_and!; try done.
  - by rewrite lookup_insert_ne in Hk.
  - by rewrite lookup_insert_ne.
Qed.

Lemma save_taken (u : UserAccount) (r : Row) (db : Db) :
  to_row u = Ok r -> email_taken (db_rows db) (default (db_next_id db) (id u)) (row_email r) = true ->
  save u db = (db, Raise (IntegrityError "UNIQUE constraint failed: users_useraccount.email")).
Proof. intros Hr Ht. unfold save, st_bind, st_lift. by rewrite Hr; simpl; rewrite Ht. Qed.

Lemma save_free (u : UserAccount) (r : Row) (db : Db) :
  to_row u = Ok r -> email_taken (db_rows db) (default (db_next_id db) (id u)) (row_email r) = false ->
  save u db =
    (mkDb (<[default (db_next_id db) (id u) := r]> (db_rows db))
       (match id u with
        | Some k => Z.max (db_next_id db) (k + 1)
        | None => db_next_id db + 1
        end)%Z,
     Ok (set_id u (default (db_next_id db) (id u)))).
Proof. intros Hr Ht. unfold save, st_bind, st_lift. by rewrite Hr; simpl; rewrite Ht. Qed.

(** With lengths enforced, an email over 255 characters is rejected by
    its column once the other columns fit. *)
Lemma to_row_long_email (u : UserAccount) pw fn ln em act adm su :
  password u = PyStr pw -> first_name u = PyStr fn -> last_name u = PyStr ln ->
  email u = PyStr em -> is_active u = PyBool act -> is_admin u = PyBool adm ->
  is_superuser u = PyBool su -> enforce_len = true ->
  String.length pw <= 128 -> String.length fn <= 200 -> String.length ln <= 200 ->
  255 < String.length em ->
  to_row u = Raise (DataError "value too long for type character varying(255)").
Proof.
  intros Hpw Hfn Hln Hem Hact Hadm Hsu Hen Lpw Lfn Lln Lem. unfold to_row.
  rewrite Hpw, Hfn, Hln, Hem, Hact, Hadm, Hsu. simpl.
  rewrite (check_len_pass FPassword), (check_len_pass FFirstName), (check_len_pass FLastName);
    [| intros mx [= <-]; lia ..].
  simpl. unfold check_len. simpl. rewrite Hen. simpl.
  rewrite bool_decide_eq_true_2 by lia. reflexivity.
Qed.

(** Setting the [is_superuser] field to a boolean changes that column
    only. *)
Lemma to_row_set_superuser (u : UserAccount) (r : Row) (b : bool) :
  to_row u = Ok r ->
  to_row (set_field u FIsSuperuser (PyBool b)) =
    Ok (mkRow (row_password r) (row_first_name r) (row_last_name r) (row_email r)
          (row_is_active r) (row_is_admin r) b).
Proof.
  destruct u. unfold to_row. simpl. intros Hr. py_simp.
  repeat match goal with
         | H : ?a = Ok _ |- context [bind ?a _] => rewrite H, bind_Ok
         | H : not_null _ _ = Ok _ |- _ => apply not_null_Ok in H; subst
         end.
  reflexivity.
Qed.

(** A failing [save] leaves the table as it was. *)
Lemma save_Raise (u : UserAccount) (db db' : Db) (e : pyexc) :
  save u db = (db', Raise e) -> db' = db.
Proof.
  unfold save, st_bind, st_lift. destruct (to_row u); [|by intros [= ->]].
  case_match; [by intros [= ->]|discriminate].
Qed.

(** A successful [save] writes the row under the instance's key (or the
    next sequence value) and returns the instance with that key. *)
Lemma save_Ok (u u' : UserAccount) (db db' : Db) :
  save u db = (db', Ok u') ->
  exists r, to_row u = Ok r /\
    email_taken (db_rows db) (default (db_next_id db) (id u)) (row_email r) = false /\
    db_rows db' = <[default (db_next_id db) (id u) := r]> (db_rows db) /\
    db_next_id db' = match id u with
                     | Some k => Z.max (db_next_id db) (k + 1)
                     | None => db_next_id db + 1
                     end%Z /\
    u' = set_id u (default (db_next_id db) (id u)).
Proof.
  unfold save, st_bind, st_lift. destruct (to_row u) as [r|]; [|discriminate].
  destruct (email_taken _ _ _) eqn:E; [discriminate|]. intros [= <- <-]. eauto 10.
Qed.

(** Rewriting the row under a key with one of the same email that fits
    keeps the table invariant. *)
Lemma db_wf_update_row (db : Db) (k : Z) (r r' : Row) :
  db_wf db -> db_rows db !! k = Some r -> row_email r' = row_email r ->
  (enforce_len = true -> row_fits r') ->
  db_wf (mkDb (<[k := r']> (db_rows db)) (db_next_id db)).
Proof.
  intros (Hpos & Hkeys & Huniq & Hfits) Hk He Hfit'. split_and!; simpl; [done | | |].
  - intros k' r''. rewrite lookup_insert. case_decide; [intros _; subst; by eapply Hkeys | apply Hkeys].
  - intros k1 k2 r1 r2. rewrite !lookup_insert.
    case_decide; case_decide; intros H1 H2 Heq; simplify_eq; try done; eapply Huniq; eauto; congruence.
  - intros Hen k' r''. rewrite lookup_insert. case_decide; [intros [= <-]; by apply Hfit' | by apply Hfits].
Qed.

Lemma save_wf (u : UserAccount) (db db' : Db) (res : result UserAccount) :
  db_wf db -> id_ok u -> save u db = (db', res) -> db_wf db'.
Proof.
  intros Hwf Hid Hs. destruct res as [u''|e]; [|by apply save_Raise in Hs as ->].
  apply save_Ok in Hs as (r & Hr & Ht & Hrows & Hnext & _).
  destruct Hwf as (Hpos & Hkeys & Huniq & Hfits).
  unfold db_wf. rewrite Hrows, Hnext. unfold id_ok in Hid.
  split_and!.
  - destruct (id u); lia.
  - intros k r'. rewrite lookup_insert.
    case_decide as Hk; [intros _; subst k; destruct (id u); simpl; lia|].
    intros Hl. specialize (Hkeys _ _ Hl). destruct (id u); lia.
  - intros k1 k2 r1 r2. rewrite !lookup_insert.
    case_decide; case_decide; intros H1 H2 He; simplify_eq; [done|..].
    + symmetry. by eapply email_taken_false.
    + by eapply email_taken_false.
    + by eapply Huniq.
  - intros Hen k r'. rewrite lookup_insert. case_decide; intros Hl; simplify_eq.
    + by apply (to_row_fits u).
    + by eapply Hfits.
Qed.

(** [user_typed] reads the fields only. *)
Lemma user_typed_ext (u1 u2 : UserAccount) :
  (forall f, get_field u1 f = get_field u2 f) -> user_typed u1 = user_typed u2.
Proof. intros H. unfold user_typed. cbn [forallb all_fields]. by rewrite !H. Qed.

(** C32: An instance is well typed exactly when saving it and loading
    it back gives every field back unchanged.  [to_row] converts a
    value of the wrong type (say [is_active="0"]), so the stored row
    then disagrees with the instance. *)
Theorem save_reload_typed (u : UserAccount) (r : Row) (k : Z) :
  to_row u = Ok r -> (user_typed u = true <-> forall f, get_field (from_db k r) f = get_field u f).
Proof.
  intros Hr. split.
  - intros Ht. apply to_row_inv in Hr as (Hp & Hf & Hl & He & Ha & Had & Hs).
    destruct u as [i pw fn ln em act adm su dct]. unfold user_typed in Ht. simpl in *.
    repeat match goal with H : _ && _ = true |- _ => apply andb_true_iff in H as [? H] end.
    destruct pw, fn, ln, em, act, adm, su; try discriminate; simpl in *; simplify_eq; intros []; done.
  - intros Heq. rewrite <- (user_typed_ext _ _ Heq). by destruct r.
Qed.

End Backend.

Lemma db_empty_wf (enforce_len : bool) : db_wf enforce_len db_empty.
Proof. unfold db_wf, db_empty; simpl. split_and!; [lia | intros ?? H; done..]. Qed.

(** A table with one row under a positive key is well formed. *)
Lemma db_wf_singleton (enforce_len : bool) (k : Z) (r : Row) :
  (0 < k)%Z -> (enforce_len = true -> row_fits r) -> db_wf enforce_len (mkDb {[k := r]} (k + 1)).
Proof.
  intros Hk Hfit. unfold db_wf. simpl. split_and!; [lia | | |].
  - intros k' r' [<- <-]%lookup_singleton_Some. lia.
  - by intros k1 k2 r1 r2 [<- _]%lookup_singleton_Some [<- _]%lookup_singleton_Some.
  - by intros Hen k' r' [_ <-]%lookup_singleton_Some; apply Hfit.
Qed.

Lemma id_set_id (u : UserAccount) (k : Z) : id (set_id u k) = Some k.
Proof. by destruct u. Qed.

Lemma get_field_set_id (u : UserAccount) (k : Z) (f : Field) :
  get_field (set_id u k) f = get_field u f.
Proof. by destruct u, f. Qed.

Lemma attrs_set_id (u : UserAccount) (k : Z) : attrs (set_id u k) = attrs u.
Proof. by destruct u. Qed.

Lemma set_id_same (u : UserAccount) (k : Z) : id u = Some k -> set_id u k = u.
Proof. destruct u; simpl; congruence. Qed.

Lemma save_reload_typed_witness :
  to_row true (mkUserAccount None (PyStr "x") (PyStr "Ann") (PyStr "Lee") (PyStr "ann@example.com")
                 (PyStr "0") (PyBool false) (PyBool false) ∅) =
    Ok (mkRow "x" "Ann" "Lee" "ann@example.com" false false false) /\
  (user_typed (mkUserAccount None (PyStr "x") (PyStr "Ann") (PyStr "Lee") (PyStr "ann@example.com")
                 (PyStr "0") (PyBool false) (PyBool false) ∅) = true <->
   forall f, get_field (from_db 1 (mkRow "x" "Ann" "Lee" "ann@example.com" false false false)) f =
             get_field (mkUserAccount None (PyStr "x") (PyStr "Ann") (PyStr "Lee") (PyStr "ann@example.com")
                 (PyStr "0") (PyBool false) (PyBool false) ∅) f).
Proof.
  split; [reflexivity|].
  apply (save_reload_typed true (mkUserAccount None (PyStr "x") (PyStr "Ann") (PyStr "Lee")
           (PyStr "ann@example.com") (PyStr "0") (PyBool false) (PyBool false) ∅)
           (mkRow "x" "Ann" "Lee" "ann@example.com" false false false) 1).
  reflexivity.
Defined.

End Store.
