(* ===== verification/Manager.v ===== *)
(** * [UserAccountManager] (lines 5-39 of [src/users/models.py])

    [normalize_email] is [BaseUserManager.normalize_email], which line 13
    calls.  [create_user] is lines 6-24 and [create_superuser] is lines
    26-39.  Both are operations of the state and exception monad over
    the database [Db]: a completed [save] stays in the table even if a
    later step raises.  The Section variables are the hasher and the
    backend's length policy [enforce_len].

    The theorems cover each outcome of [create_user].  On success it
    inserts exactly one row, under the next key, with the normalised
    lower-case email; under the stated conditions it does succeed.  A
    falsy email raises [ValueError].  An email that is not a string
    raises [AttributeError].  An unknown keyword raises [TypeError], as
    does a password of the wrong type.  A taken email raises
    [IntegrityError].  Every failure leaves the table unchanged.  For
    [create_superuser] the theorems show: it fails exactly when
    [create_user] does; it stores [is_superuser] but not [is_admin];
    and the [is_staff] it sets lives only on the returned object. *)

From S2P Require Import Prelude PyStr Hasher Model Store.
Import Model Store.

Module Manager.

(** The string part of [normalize_email]: split [email.strip()] at the
    last ["@"] and lower-case the domain.  With no ["@"] the unpacking
    raises [ValueError], which the method catches: the input is returned
    unchanged, not even stripped. *)
Definition normalize_str (s : string) : string :=
  match PyStr.rsplit1 "@" (PyStr.strip s) with
  | Some (name, domain) => (name +:+ String "@" (PyStr.lower domain))%string
  | None => s
  end.

(** [BaseUserManager.normalize_email]: [email = email or ""], then the
    split.  A truthy value that is not a string has no [strip]. *)
Definition normalize_email (em : pyval) : result string :=
  match (if py_truthy em then em else PyStr "") with
  | PyStr s => Ok (normalize_str s)
  | _ => Raise (AttributeError "object has no attribute 'strip'")
  end.

Section Manager.
Context {HP : PasswordHasher}.
Variable enforce_len : bool.

(** Lines 6-24. *)
Definition create_user (em password : pyval) (kwargs : gmap string pyval) (rnd : string)
    : stE Db UserAccount :=
  if negb (py_truthy em) then st_lift (Raise (ValueError "Users must have an email address"))
  else
    e <~ st_lift (normalize_email em) ;;
    let e := PyStr.lower e in
    user <~ st_lift (model_init (PyStr e) kwargs) ;;
    user <~ st_lift (set_password user password rnd) ;;
    user <~ save enforce_len user ;;
    st_ret user.

(** Lines 36-37.  Line 36 assigns [is_staff], which is no field of
    [UserAccount]: it goes to the instance dictionary. *)
Definition superuser_flags (user : UserAccount) : UserAccount :=
  let user := setattr user "is_staff" (PyBool true) in
  setattr user "is_superuser" (PyBool true).

(** Lines 26-39. *)
Definition create_superuser (em password : pyval) (kwargs : gmap string pyval) (rnd : string)
    : stE Db UserAccount :=
  user <~ create_user em password kwargs rnd ;;
  let user := superuser_flags user in
  user <~ save enforce_len user ;;
  st_ret user.

(** The instance [create_user] hands to [save] for a string email. *)
Definition new_user (s : string) (password : pyval) (kwargs : gmap string pyval) (rnd : string)
    : result UserAccount :=
  user <- model_init (PyStr (PyStr.lower (normalize_str s))) kwargs ;;
  set_password user password rnd.

(** ** Vocabulary of the theorems *)

(** A keyword argument of the type its field declares: a [str] for the
    name fields, a [bool] for the flags. *)
Definition kwarg_typed (n : string) (v : pyval) : Prop :=
  match field_of_name n with
  | Some FFirstName | Some FLastName => exists x, v = PyStr x
  | Some FIsActive | Some FIsAdmin | Some FIsSuperuser => exists b, v = PyBool b
  | _ => False
  end.

Definition kwargs_typed (kw : gmap string pyval) : Prop := map_Forall kwarg_typed kw.

Definition password_ok (pw : pyval) : Prop := pw = PyNone \/ exists p, pw = PyStr p.

Definition kw_str (kw : gmap string pyval) (f : Field) : string :=
  match kw !! field_name f with Some (PyStr x) => x | _ => "" end.

Definition kw_bool (kw : gmap string pyval) (f : Field) (d : bool) : bool :=
  match kw !! field_name f with Some (PyBool b) => b | _ => d end.

(** The stored password: the hash of a [str], else the unusable marker. *)
Definition enc_password (pw : pyval) (rnd : string) : string :=
  match pw with
  | PyStr p => hasher_encode p rnd
  | _ => (Hashers.UNUSABLE_PASSWORD_PREFIX +:+ rnd)%string
  end.

(** The row [create_user] writes for typed arguments. *)
Definition expected_row (s : string) (pw : pyval) (kw : gmap string pyval) (rnd : string) : Row :=
  mkRow (enc_password pw rnd) (kw_str kw FFirstName) (kw_str kw FLastName)
    (PyStr.lower (normalize_str s)) (kw_bool kw FIsActive true) (kw_bool kw FIsAdmin false)
    (kw_bool kw FIsSuperuser false).

(** ** Lemmas *)

Lemma normalize_email_str (s : string) : s <> ""%string -> normalize_email (PyStr s) = Ok (normalize_str s).
Proof. intros Hs. unfold normalize_email. simpl. by rewrite bool_decide_eq_true_2. Qed.

(** For a non-empty string, [create_user] is [save] of [new_user]. *)
Lemma create_user_str (s : string) pw kw rnd (db : Db) :
  s <> ""%string ->
  create_user (PyStr s) pw kw rnd db =
    match new_user s pw kw rnd with
    | Ok u => save enforce_len u db
    | Raise e => (db, Raise e)
    end.
Proof.
  intros Hs. unfold create_user, new_user.
  replace (py_truthy (PyStr s)) with true by (simpl; by rewrite bool_decide_eq_true_2).
  cbn [negb]. rewrite normalize_email_str by done. autorewrite with djauth_rw.
  destruct (model_init _ kw) as [u|e]; autorewrite with djauth_rw; [|done].
  destruct (set_password u pw rnd); autorewrite with djauth_rw; done.
Qed.

Lemma kwargs_typed_email (kw : gmap string pyval) : kwargs_typed kw -> kw !! "email" = None.
Proof. intros Ht. destruct (kw !! "email") eqn:E; [|done]. by apply Ht in E. Qed.

Lemma kwargs_typed_fields (kw : gmap string pyval) :
  kwargs_typed kw -> map_Forall (fun n _ => is_Some (field_of_name n)) kw.
Proof. intros Ht n v Hn. apply Ht in Hn. unfold kwarg_typed in Hn. by destruct (field_of_name n). Qed.

Lemma kw_str_default (kw : gmap string pyval) (f : Field) :
  kwargs_typed kw -> f = FFirstName \/ f = FLastName ->
  default (field_default f) (kw !! field_name f) = PyStr (kw_str kw f).
Proof.
  intros Ht Hf. unfold kw_str. destruct (kw !! field_name f) as [v|] eqn:E.
  - apply Ht in E. unfold kwarg_typed in E. rewrite field_of_name_field in E.
    by destruct Hf as [-> | ->]; destruct E as [x ->].
  - by destruct Hf as [-> | ->].
Qed.

Lemma kw_bool_default (kw : gmap string pyval) (f : Field) (d : bool) :
  kwargs_typed kw -> field_default f = PyBool d ->
  default (field_default f) (kw !! field_name f) = PyBool (kw_bool kw f d).
Proof.
  intros Ht Hd. unfold kw_bool. rewrite Hd. destruct (kw !! field_name f) as [v|] eqn:E; [|done].
  apply Ht in E. unfold kwarg_typed in E. rewrite field_of_name_field in E.
  destruct f; try done; by destruct E as [b ->].
Qed.

(** The instance built for typed arguments: each field holds a string or
    a boolean. *)
Lemma new_user_typed (s : string) pw kw rnd :
  kwargs_typed kw -> password_ok pw ->
  exists u, new_user s pw kw rnd = Ok u /\ id u = None /\ attrs u = <["_password" := pw]> ∅ /\
    password u = PyStr (enc_password pw rnd) /\
    first_name u = PyStr (kw_str kw FFirstName) /\ last_name u = PyStr (kw_str kw FLastName) /\
    email u = PyStr (PyStr.lower (normalize_str s)) /\
    is_active u = PyBool (kw_bool kw FIsActive true) /\
    is_admin u = PyBool (kw_bool kw FIsAdmin false) /\
    is_superuser u = PyBool (kw_bool kw FIsSuperuser false).
Proof.
  intros Ht Hpw. unfold new_user, model_init.
  rewrite (kwargs_typed_email kw Ht), decide_False by (by intros [? ?]).
  rewrite decide_True by (by apply kwargs_typed_fields).
  rewrite bind_Ok. unfold set_password.
  assert (Hm : Hashers.make_password pw rnd = Ok (enc_password pw rnd))
    by (by destruct Hpw as [-> | [p ->]]).
  rewrite Hm, bind_Ok. eexists; split_and!; [reflexivity | done | done | done | | | done | | |].
  - exact (kw_str_default kw FFirstName Ht (or_introl eq_refl)).
  - exact (kw_str_default kw FLastName Ht (or_intror eq_refl)).
  - exact (kw_bool_default kw FIsActive true Ht eq_refl).
  - exact (kw_bool_default kw FIsAdmin false Ht eq_refl).
  - exact (kw_bool_default kw FIsSuperuser false Ht eq_refl).
Qed.

Lemma new_user_Ok (s : string) pw kw rnd (u : UserAccount) :
  new_user s pw kw rnd = Ok u ->
  id u = None /\ email u = PyStr (PyStr.lower (normalize_str s)) /\
  attrs u = <["_password" := pw]> ∅ /\ password u = PyStr (enc_password pw rnd) /\
  (forall f, f <> FPassword -> f <> FEmail -> get_field u f = default (field_default f) (kw !! field_name f)).
Proof.
  unfold new_user, model_init. case_decide; [discriminate|]. case_decide; [|discriminate].
  rewrite bind_Ok. unfold set_password.
  destruct pw as [p| | |]; simpl; intros [= <-]; split_and!; try done; intros [] ??; done.
Qed.

(** The table after a failed [create_user] is the table before. *)
Lemma create_user_Raise_unchanged (em pw : pyval) kw rnd (db db' : Db) (e : pyexc) :
  create_user em pw kw rnd db = (db', Raise e) -> db' = db.
Proof.
  destruct em as [s|b|z|]; [destruct (decide (s = ""%string)) as [->|Hs]|..].
  - unfold create_user. simpl. by intros [= ->].
  - rewrite create_user_str by done. destruct (new_user s pw kw rnd); [apply save_Raise | by intros [= ->]].
  - unfold create_user, normalize_email. destruct b; simpl; by intros [= ->].
  - unfold create_user, normalize_email. simpl. case_bool_decide; simpl; by intros [= ->].
  - unfold create_user. simpl. by intros [= ->].
Qed.

(** Inversion of a successful [create_user]. *)
Lemma create_user_Ok (em pw : pyval) kw rnd (db db' : Db) (u : UserAccount) :
  create_user em pw kw rnd db = (db', Ok u) ->
  exists s u0 r, em = PyStr s /\ s <> ""%string /\ new_user s pw kw rnd = Ok u0 /\
    to_row enforce_len u0 = Ok r /\ u = set_id u0 (db_next_id db) /\
    email_taken (db_rows db) (db_next_id db) (row_email r) = false /\
    db' = mkDb (<[db_next_id db := r]> (db_rows db)) (db_next_id db + 1).
Proof.
  destruct em as [s|b|z|]; [destruct (decide (s = ""%string)) as [->|Hs]|..].
  - unfold create_user. simpl. discriminate.
  - rewrite create_user_str by done. destruct (new_user s pw kw rnd) as [u0|] eqn:Hn; [|discriminate].
    intros Hsave. destruct (new_user_Ok _ _ _ _ _ Hn) as (Hid & _).
    apply save_Ok in Hsave as (r & Hr & Ht & Hrows & Hnext & ->). rewrite Hid in Ht, Hrows, Hnext |- *.
    exists s, u0, r. split_and!; try done. destruct db'; simpl in *; by subst.
  - unfold create_user, normalize_email. destruct b; simpl; discriminate.
  - unfold create_user, normalize_email. simpl. case_bool_decide; simpl; discriminate.
  - unfold create_user. simpl. discriminate.
Qed.

Lemma superuser_flags_field (u : UserAccount) (f : Field) :
  get_field (superuser_flags u) f = if decide (f = FIsSuperuser) then PyBool true else get_field u f.
Proof.
  unfold superuser_flags. change "is_superuser"%string with (field_name FIsSuperuser).
  rewrite setattr_field. case_decide as Hf.
  - subst. apply get_set_field_eq.
  - rewrite get_set_field_ne by congruence. by apply setattr_nonfield.
Qed.

Lemma superuser_flags_id (u : UserAccount) : id (superuser_flags u) = id u.
Proof.
  unfold superuser_flags. change "is_superuser"%string with (field_name FIsSuperuser).
  rewrite setattr_field, id_set_field. by apply setattr_nonfield.
Qed.

Lemma superuser_flags_attrs (u : UserAccount) :
  attrs (superuser_flags u) = <["is_staff" := PyBool true]> (attrs u).
Proof.
  unfold superuser_flags. change "is_superuser"%string with (field_name FIsSuperuser).
  rewrite setattr_field, attrs_set_field. by apply setattr_nonfield.
Qed.

Lemma to_row_superuser_flags (u : UserAccount) (r : Row) :
  to_row enforce_len u = Ok r ->
  to_row enforce_len (superuser_flags u) =
    Ok (mkRow (row_password r) (row_first_name r) (row_last_name r) (row_email r)
          (row_is_active r) (row_is_admin r) true).
Proof.
  intros Hr. rewrite <- (to_row_set_superuser enforce_len u r true Hr).
  apply to_row_ext. intros f. rewrite superuser_flags_field. case_decide as Hf.
  - subst. by rewrite get_set_field_eq.
  - by rewrite get_set_field_ne by congruence.
Qed.

Lemma create_superuser_unfold (em pw : pyval) kw rnd (db : Db) :
  create_superuser em pw kw rnd db =
    match create_user em pw kw rnd db with
    | (db1, Ok u) => save enforce_len (superuser_flags u) db1
    | (db1, Raise e) => (db1, Raise e)
    end.
Proof.
  unfold create_superuser, st_bind at 1. destruct (create_user em pw kw rnd db) as [db1 [u|e]]; [|done].
  apply st_bind_ret_r.
Qed.

(** The second [save] of [create_superuser] cannot fail: it rewrites the
    row [create_user] inserted, with [is_superuser] set. *)
Lemma superuser_resave (em pw : pyval) kw rnd (db db1 : Db) (u : UserAccount) :
  create_user em pw kw rnd db = (db1, Ok u) ->
  exists r, id u = Some (db_next_id db) /\ to_row enforce_len u = Ok r /\
    save enforce_len (superuser_flags u) db1 =
      (mkDb (<[db_next_id db := mkRow (row_password r) (row_first_name r) (row_last_name r)
                 (row_email r) (row_is_active r) (row_is_admin r) true]> (db_rows db))
            (db_next_id db + 1),
       Ok (superuser_flags u)).
Proof.
  intros Hc. apply create_user_Ok in Hc as (s & u0 & r & -> & Hs & Hn & Hr & -> & Ht & ->).
  assert (Hr' : to_row enforce_len (set_id u0 (db_next_id db)) = Ok r)
    by (rewrite <- Hr; apply to_row_ext, get_field_set_id).
  exists r. split_and!; [apply id_set_id | done |].
  erewrite save_free; [| by apply to_row_superuser_flags | ].
  - rewrite superuser_flags_id, id_set_id. simpl. rewrite insert_insert_eq.
    rewrite set_id_same by (by rewrite superuser_flags_id, id_set_id).
    do 3 f_equal. lia.
  - rewrite superuser_flags_id, id_set_id. simpl. by rewrite email_taken_insert_same.
Qed.

(** [create_user] preserves the table invariant, whatever it returns. *)
Lemma create_user_wf (em pw : pyval) kw rnd (db db' : Db) (res : result UserAccount) :
  db_wf enforce_len db -> create_user em pw kw rnd db = (db', res) -> db_wf enforce_len db'.
Proof.
  intros Hwf. destruct em as [s|b|z|]; [destruct (decide (s = ""%string)) as [->|Hs]|..].
  - unfold create_user. simpl. by intros [= <- _].
  - rewrite create_user_str by done. destruct (new_user s pw kw rnd) as [u|] eqn:Hn.
    + apply save_wf; [done | unfold id_ok; by rewrite (proj1 (new_user_Ok _ _ _ _ _ Hn))].
    + by intros [= <- _].
  - unfold create_user, normalize_email. destruct b; simpl; by intros [= <- _].
  - unfold create_user, normalize_email. simpl. case_bool_decide; simpl; by intros [= <- _].
  - unfold create_user. simpl. by intros [= <- _].
Qed.

(** When a row already holds the normalised lower-case email, a
    [create_user] whose other steps succeed raises the [IntegrityError]
    of the [unique=True] index. *)
Lemma create_user_taken (s : string) pw kw rnd (db : Db) (k : Z) (r : Row) :
  s <> ""%string -> kwargs_typed kw -> password_ok pw -> db_wf enforce_len db ->
  (enforce_len = true -> row_fits (expected_row s pw kw rnd)) ->
  db_rows db !! k = Some r -> row_email r = PyStr.lower (normalize_str s) ->
  create_user (PyStr s) pw kw rnd db =
    (db, Raise (IntegrityError "UNIQUE constraint failed: users_useraccount.email")).
Proof.
  intros Hs Ht Hpw Hwf Hfit Hk He.
  destruct (new_user_typed s pw kw rnd Ht Hpw)
    as (u & Hu & Hid & _ & Hp & Hfn & Hln & Hem & Hact & Hadm & Hsu).
  rewrite create_user_str, Hu by done.
  apply save_taken with (r := expected_row s pw kw rnd); [by apply to_row_typed|].
  rewrite Hid. apply email_taken_spec. exists k, r. split_and!; [done | | done].
  destruct Hwf as (_ & Hkeys & _). specialize (Hkeys k r Hk). simpl. lia.
Qed.

(** The row a successful [create_user] inserted. *)
Lemma create_user_Ok_row (em pw : pyval) kw rnd (db db' : Db) (u : UserAccount) :
  create_user em pw kw rnd db = (db', Ok u) ->
  exists s r, em = PyStr s /\ id u = Some (db_next_id db) /\
    db_rows db' !! db_next_id db = Some r /\ row_email r = PyStr.lower (normalize_str s) /\
    to_row enforce_len u = Ok r.
Proof.
  intros Hc. apply create_user_Ok in Hc as (s & u0 & r & -> & _ & Hn & Hr & -> & _ & ->).
  destruct (new_user_Ok _ _ _ _ _ Hn) as (_ & Hem & _).
  pose proof (to_row_inv _ _ _ Hr) as (_ & _ & _ & Hre & _).
  rewrite Hem in Hre. injection Hre as Hre.
  exists s, r. split_and!; [done | apply id_set_id | apply lookup_insert_eq | done |].
  rewrite <- Hr. apply to_row_ext, get_field_set_id.
Qed.

(** The columns of the row a successful [create_user] inserted. *)
Lemma create_user_Ok_stored (em pw : pyval) kw rnd (db db' : Db) (u : UserAccount) :
  create_user em pw kw rnd db = (db', Ok u) ->
  exists s r, em = PyStr s /\ id u = Some (db_next_id db) /\
    db_rows db' = <[db_next_id db := r]> (db_rows db) /\
    row_email r = PyStr.lower (normalize_str s) /\ row_password r = enc_password pw rnd /\
    bool_prep (default (PyBool true) (kw !! "is_active")) = Ok (Some (row_is_active r)) /\
    bool_prep (default (PyBool false) (kw !! "is_admin")) = Ok (Some (row_is_admin r)).
Proof.
  intros Hc. apply create_user_Ok in Hc as (s & u0 & r & -> & _ & Hn & Hr & -> & _ & ->).
  destruct (new_user_Ok _ _ _ _ _ Hn) as (_ & Hem & _ & Hpw & Hf).
  pose proof (to_row_inv _ _ _ Hr) as (Hp & _ & _ & Hre & Hact & Hadm & _).
  rewrite Hem in Hre. rewrite Hpw in Hp. injection Hre as Hre. injection Hp as Hp.
  exists s, r. split_and!; [done | apply id_set_id | done | done | done | |].
  - rewrite <- Hact. f_equal.
    exact (eq_sym (Hf FIsActive ltac:(done) ltac:(done))).
  - rewrite <- Hadm. f_equal.
    exact (eq_sym (Hf FIsAdmin ltac:(done) ltac:(done))).
Qed.

(** [create_user] succeeds on a non-empty string email, typed keyword
    arguments, a [str] or [None] password, an email no row has, and a
    row that fits: the table gains exactly the expected row under the
    next key. *)
Lemma create_user_fresh (s : string) pw kw rnd (db : Db) :
  s <> ""%string -> kwargs_typed kw -> password_ok pw ->
  (forall k r, db_rows db !! k = Some r -> row_email r <> PyStr.lower (normalize_str s)) ->
  (enforce_len = true -> row_fits (expected_row s pw kw rnd)) ->
  exists u, create_user (PyStr s) pw kw rnd db =
    (mkDb (<[db_next_id db := expected_row s pw kw rnd]> (db_rows db)) (db_next_id db + 1), Ok u) /\
    id u = Some (db_next_id db) /\ email u = PyStr (PyStr.lower (normalize_str s)).
Proof.
  intros Hs Ht Hpw Hfree Hfit.
  destruct (new_user_typed s pw kw rnd Ht Hpw)
    as (u & Hu & Hid & _ & Hp & Hfn & Hln & Hem & Hact & Hadm & Hsu).
  rewrite create_user_str, Hu by done.
  erewrite save_free; [| by apply to_row_typed |].
  - rewrite Hid. eexists; split_and!; [reflexivity | apply id_set_id |].
    exact (eq_trans (get_field_set_id u _ FEmail) Hem).
  - rewrite Hid. by apply email_taken_none.
Qed.

(** ** Properties *)


(** C3: A falsy email ([None], [""], [False], [0]) raises
    [ValueError("Users must have an email address")] before anything
    else, and the table is unchanged (lines 10-11). *)
Theorem create_user_falsy_email (em pw : pyval) kw rnd (db : Db) :
  py_truthy em = false ->
  create_user em pw kw rnd db = (db, Raise (ValueError "Users must have an email address")).
Proof. intros H. unfold create_user. by rewrite H. Qed.

(** C4: Two [create_user] calls whose emails normalise to the same
    lower-case address, such as ["ada@example.com"] and
    [" ADA@Example.COM "]: once the first succeeds, the second raises the
    [IntegrityError] of the [unique=True] index (line 47), and the table
    keeps only the first account. *)
Theorem create_user_twice (s1 s2 : string) pw1 pw2 kw1 kw2 rnd1 rnd2 (db db1 : Db) (u1 : UserAccount) :
  db_wf enforce_len db -> create_user (PyStr s1) pw1 kw1 rnd1 db = (db1, Ok u1) ->
  PyStr.lower (normalize_str s2) = PyStr.lower (normalize_str s1) ->
  s2 <> ""%string -> kwargs_typed kw2 -> password_ok pw2 ->
  (enforce_len = true -> row_fits (expected_row s2 pw2 kw2 rnd2)) ->
  create_user (PyStr s2) pw2 kw2 rnd2 db1 =
    (db1, Raise (IntegrityError "UNIQUE constraint failed: users_useraccount.email")).
Proof.
  intros Hwf Hc Heq Hs Ht Hpw Hfit.
  pose proof (create_user_wf _ _ _ _ _ _ _ Hwf Hc) as Hwf1.
  apply create_user_Ok_row in Hc as (s & r & [= <-] & _ & Hk & He & _).
  eapply create_user_taken; try done. by rewrite He, Heq.
Qed.

(** C5: After a successful [create_superuser], the row of the returned
    instance has [is_superuser] true.  Its [is_admin] is whatever the
    keyword arguments gave, [False] by default: [create_superuser] never
    sets it, although the spec says it does. *)
Theorem create_superuser_admin_flag (em pw : pyval) kw rnd (db db' : Db) (u : UserAccount) :
  create_superuser em pw kw rnd db = (db', Ok u) ->
  exists k r, id u = Some k /\ db_rows db' !! k = Some r /\ row_is_superuser r = true /\
    bool_prep (default (PyBool false) (kw !! "is_admin")) = Ok (Some (row_is_admin r)).
Proof.
  intros Hc. rewrite create_superuser_unfold in Hc.
  destruct (create_user em pw kw rnd db) as [db1 [u0|e]] eqn:E; [|discriminate].
  destruct (superuser_resave _ _ _ _ _ _ _ E) as (r & Hid & Hr & Hs).
  rewrite Hs in Hc. injection Hc as <- <-.
  eexists _, _. split_and!; [by rewrite superuser_flags_id | apply lookup_insert_eq | done |].
  apply create_user_Ok in E as (s & u1 & r1 & -> & _ & Hn & _ & -> & _ & _).
  destruct (new_user_Ok _ _ _ _ _ Hn) as (_ & _ & _ & _ & Hf).
  pose proof (to_row_inv _ _ _ Hr) as (_ & _ & _ & _ & _ & Hadm & _).
  change (is_admin (set_id u1 (db_next_id db))) with (get_field (set_id u1 (db_next_id db)) FIsAdmin)
    in Hadm.
  by rewrite get_field_set_id, Hf in Hadm.
Qed.

(** C6: [create_superuser] raises exactly when [create_user] raises,
    with the same exception and the same table.  Its second [save]
    never fails. *)
Theorem create_superuser_fails_iff (em pw : pyval) kw rnd (db db' : Db) (e : pyexc) :
  create_superuser em pw kw rnd db = (db', Raise e) <-> create_user em pw kw rnd db = (db', Raise e).
Proof.
  rewrite create_superuser_unfold.
  destruct (create_user em pw kw rnd db) as [db1 [u|e']] eqn:E; [|done].
  destruct (superuser_resave _ _ _ _ _ _ _ E) as (r & _ & _ & ->). split; discriminate.
Qed.

(** C7: The [is_staff] flag of line 36 is not persisted.  The instance
    [create_superuser] returns has [is_staff] set.  The same account
    loaded back from its row has no [is_staff] attribute at all:
    reading it raises [AttributeError]. *)
Theorem create_superuser_is_staff_not_persisted (em pw : pyval) kw rnd (db db' : Db) (u : UserAccount) :
  create_superuser em pw kw rnd db = (db', Ok u) ->
  getattr u "is_staff" = Ok (PyBool true) /\
  exists k r, id u = Some k /\ db_rows db' !! k = Some r /\
    getattr (from_db k r) "is_staff" =
      Raise (AttributeError "'UserAccount' object has no attribute 'is_staff'").
Proof.
  intros Hc. rewrite create_superuser_unfold in Hc.
  destruct (create_user em pw kw rnd db) as [db1 [u0|e]] eqn:E; [|discriminate].
  destruct (superuser_resave _ _ _ _ _ _ _ E) as (r & Hid & _ & Hs).
  rewrite Hs in Hc. injection Hc as <- <-. split.
  - unfold getattr. rewrite superuser_flags_attrs.
    replace (field_of_name "is_staff") with (@None Field) by reflexivity.
    by rewrite lookup_insert_eq.
  - eexists _, _. split_and!; [by rewrite superuser_flags_id | apply lookup_insert_eq | reflexivity].
Qed.


(** C15: A password that is neither [str] nor [None] makes
    [set_password] (line 22) raise [TypeError] before [save].  Nothing
    is saved. *)
Theorem create_user_bad_password (s : string) pw kw rnd (db : Db) :
  s <> ""%string -> kwargs_typed kw -> ~ password_ok pw ->
  create_user (PyStr s) pw kw rnd db = (db, Raise (TypeError "Password must be a string or bytes")).
Proof.
  intros Hs Ht Hpw. rewrite create_user_str by done. unfold new_user, model_init.
  rewrite (kwargs_typed_email kw Ht), decide_False by (by intros [? ?]).
  rewrite decide_True by (by apply kwargs_typed_fields).
  rewrite bind_Ok. unfold set_password.
  destruct pw as [p| | |]; [destruct Hpw; right; eauto | done | done | destruct Hpw; by left].
Qed.

(** C16: A truthy email that is not a string (say [5]) gets past the
    check of line 10.  It then fails in [normalize_email], which calls
    [strip] on it: [AttributeError], not the [ValueError] of line 11.
    Nothing is saved. *)
Theorem create_user_non_str_email (em pw : pyval) kw rnd (db : Db) :
  py_truthy em = true -> (forall s, em <> PyStr s) ->
  create_user em pw kw rnd db = (db, Raise (AttributeError "object has no attribute 'strip'")).
Proof.
  intros Ht Hns. unfold create_user, normalize_email. rewrite Ht.
  destruct em as [s| | |]; simpl; try reflexivity. by destruct (Hns s).
Qed.

(** C17: [normalize_email] followed by [.lower()] (lines 13-14) is the
    lower case of the stripped email when it has an ["@"].  Otherwise
    it is the lower case of the email as given, surrounding whitespace
    included.  Lower-casing the domain inside [normalize_email] adds
    nothing. *)
Theorem normalize_then_lower (s : string) :
  PyStr.lower (normalize_str s) =
  PyStr.lower (if PyStr.contains "@" (PyStr.strip s) then PyStr.strip s else s).
Proof.
  unfold normalize_str. destruct (PyStr.rsplit1 "@" (PyStr.strip s)) as [[n d]|] eqn:E.
  - destruct (PyStr.rsplit1_Some _ _ _ _ E) as [Hst _].
    destruct (PyStr.contains "@" (PyStr.strip s)) eqn:C;
      [| apply PyStr.rsplit1_None in C; congruence].
    rewrite Hst, !PyStr.lower_app, !PyStr.lower_string, PyStr.lower_idem. done.
  - apply PyStr.rsplit1_None in E. by rewrite E.
Qed.

(** C18: The instance [create_user] returns keeps [is_active] exactly as
    passed, while its row holds the [BooleanField] conversion.  With
    [is_active="0"] the row says [False] and the returned object holds
    the non-empty string ["0"], which Python treats as true. *)
Theorem create_user_returned_vs_stored (em pw : pyval) kw rnd (db db' : Db) (u : UserAccount) :
  create_user em pw kw rnd db = (db', Ok u) ->
  exists k r, id u = Some k /\ db_rows db' !! k = Some r /\
    is_active u = default (PyBool true) (kw !! "is_active") /\
    bool_prep (is_active u) = Ok (Some (row_is_active r)).
Proof.
  intros Hc. apply create_user_Ok in Hc as (s & u0 & r & -> & _ & Hn & Hr & -> & _ & ->).
  destruct (new_user_Ok _ _ _ _ _ Hn) as (_ & _ & _ & _ & Hf).
  pose proof (to_row_inv _ _ _ Hr) as (_ & _ & _ & _ & Hact & _).
  exists (db_next_id db), r. split_and!; [apply id_set_id | apply lookup_insert_eq | |].
  - exact (eq_trans (get_field_set_id u0 _ FIsActive) (Hf FIsActive ltac:(done) ltac:(done))).
  - exact (eq_ind_r (fun v => bool_prep v = _) Hact (get_field_set_id u0 _ FIsActive)).
Qed.


(** C20: [str(user)] of the instance [create_user] returns (lines 63-64)
    is the stored, normalised lower-case email. *)
Theorem user_str_after_create (em pw : pyval) kw rnd (db db' : Db) (u : UserAccount) :
  create_user em pw kw rnd db = (db', Ok u) ->
  exists s, em = PyStr s /\ user_str u = Ok (PyStr.lower (normalize_str s)).
Proof.
  intros Hc. apply create_user_Ok in Hc as (s & u0 & r & -> & _ & Hn & _ & -> & _ & _).
  destruct (new_user_Ok _ _ _ _ _ Hn) as (_ & Hem & _).
  exists s. split; [done|]. unfold user_str.
  change (email (set_id u0 (db_next_id db))) with (get_field (set_id u0 (db_next_id db)) FEmail).
  by rewrite get_field_set_id; simpl; rewrite Hem.
Qed.

End Manager.

(** ** Witnesses, with the [plain_hasher] instance *)


Lemma create_user_falsy_email_witness :
  py_truthy (PyStr "") = false /\
  create_user true (PyStr "") (PyStr "pw") ∅ "salt" db_empty =
    (db_empty, Raise (ValueError "Users must have an email address")).
Proof. split; [reflexivity | apply create_user_falsy_email; reflexivity]. Defined.

Lemma create_user_twice_witness :
  exists db1 u1,
    create_user true (PyStr "ada@example.com") (PyStr "pw") ∅ "salt" db_empty = (db1, Ok u1) /\
    create_user true (PyStr "  ADA@Example.COM ") (PyStr "other") ∅ "salt2" db1 =
      (db1, Raise (IntegrityError "UNIQUE constraint failed: users_useraccount.email")).
Proof.
  eexists _, _. split; [compute_lhs; reflexivity|].
  eapply (create_user_twice true "ada@example.com" "  ADA@Example.COM " (PyStr "pw") (PyStr "other") ∅ ∅ "salt" "salt2" db_empty); [apply db_empty_wf | compute_lhs; reflexivity
    | vm_compute; reflexivity | discriminate | apply map_Forall_empty | right; eauto
    | intros _; vm_compute; lia].
Defined.

Lemma create_superuser_admin_flag_witness :
  exists db' u, create_superuser true (PyStr "root@example.com") (PyStr "pw") ∅ "salt" db_empty = (db', Ok u) /\
  exists k r, id u = Some k /\ db_rows db' !! k = Some r /\ row_is_superuser r = true /\
    bool_prep (default (PyBool false) ((∅ : gmap string pyval) !! "is_admin")) = Ok (Some (row_is_admin r)).
Proof.
  eexists _, _. split; [compute_lhs; reflexivity|]. apply (create_superuser_admin_flag true (PyStr "root@example.com") (PyStr "pw") _ "salt" db_empty). compute_lhs; reflexivity.
Defined.

Lemma create_superuser_is_staff_not_persisted_witness :
  exists db' u, create_superuser true (PyStr "root@example.com") (PyStr "pw") ∅ "salt" db_empty = (db', Ok u) /\
  getattr u "is_staff" = Ok (PyBool true) /\
  exists k r, id u = Some k /\ db_rows db' !! k = Some r /\
    getattr (from_db k r) "is_staff" =
      Raise (AttributeError "'UserAccount' object has no attribute 'is_staff'").
Proof.
  eexists _, _. split; [compute_lhs; reflexivity|]. apply (create_superuser_is_staff_not_persisted true (PyStr "root@example.com") (PyStr "pw") ∅ "salt" db_empty). compute_lhs; reflexivity.
Defined.


Lemma create_user_bad_password_witness :
  create_user true (PyStr "ada@example.com") (PyInt 42) ∅ "salt" db_empty =
    (db_empty, Raise (TypeError "Password must be a string or bytes")).
Proof.
  apply create_user_bad_password;
    [discriminate | apply map_Forall_empty | intros [H | [p H]]; discriminate].
Defined.

Lemma create_user_non_str_email_witness :
  create_user true (PyInt 5) (PyStr "pw") ∅ "salt" db_empty =
    (db_empty, Raise (AttributeError "object has no attribute 'strip'")).
Proof. apply create_user_non_str_email; [reflexivity | intros s; discriminate]. Defined.

Lemma create_user_returned_vs_stored_witness :
  exists db' u,
    create_user true (PyStr "ada@example.com") (PyStr "pw") {["is_active" := PyStr "0"]} "salt" db_empty =
      (db', Ok u) /\
    exists k r, id u = Some k /\ db_rows db' !! k = Some r /\
      is_active u = default (PyBool true) (({["is_active" := PyStr "0"]} : gmap string pyval) !! "is_active") /\
      bool_prep (is_active u) = Ok (Some (row_is_active r)).
Proof.
  eexists _, _. split; [compute_lhs; reflexivity|]. apply (create_user_returned_vs_stored true (PyStr "ada@example.com") (PyStr "pw") _ "salt" db_empty). compute_lhs; reflexivity.
Defined.


Lemma user_str_after_create_witness :
  exists db' u, create_user true (PyStr "Foo@Example.COM") (PyStr "pw") ∅ "salt" db_empty = (db', Ok u) /\
  exists s, PyStr "Foo@Example.COM" = PyStr s /\ user_str u = Ok (PyStr.lower (normalize_str s)).
Proof.
  eexists _, _. split; [compute_lhs; reflexivity|]. eapply (user_str_after_create true _ (PyStr "pw") ∅ "salt" db_empty). compute_lhs; reflexivity.
Defined.

End Manager.
