(* ===== verification/Auth.v ===== *)
(** * Logging in: [ModelBackend.authenticate] and the admin site

    [USERNAME_FIELD = 'email'] (line 59) makes the email the login
    identifier.  Django's [ModelBackend.authenticate] looks the account
    up with [get_by_natural_key], which runs [get(email=username)] as an
    exact match.  It then asks [user.check_password(password) and
    self.user_can_authenticate(user)].  [check_password] carries a
    setter.  When the password is right but its encoding must be
    updated, the setter encodes it again and saves the password column
    ([save_password]).  So [authenticate] is an operation on the table,
    [check_password_rehash] writes, and both take the new salt [rnd].
    [AdminSite.has_permission] admits a request when
    [request.user.is_active and request.user.is_staff].

    The theorems show the consequences for accounts [create_user] and
    [create_superuser] make.
    - The password given at creation logs in, and nothing else does; no
      such login writes.
    - An account created without a password never logs in.
    - The address as typed at registration fails to log in when it was
      not already lower case.
    - The admin check of any account that logs in raises
      [AttributeError], because the model has no [is_staff].
    - An outdated encoding is upgraded once, on the first right login,
      and the same password keeps working.  The upgrade happens before
      [is_active] is read, so an inactive account's row is rewritten by
      a login that fails.
    The lemmas [authenticate_db] and [authenticate_wf] bound what a
    login may write.  [Spec] uses them for its invariant and refinement. *)

From S2P Require Import Prelude PyStr Hasher Model Store Manager.
Import Model Store Manager.

Module Auth.

(** [UserAccount.objects.filter(email=username)]: the rows whose email
    is exactly [em]. *)
Definition rows_with_email (db : Db) (em : string) : list (Z * Row) :=
  filter (fun kr => row_email kr.2 = em) (map_to_list (db_rows db)).

(** [BaseUserManager.get_by_natural_key(username)]:
    a [get] on the [USERNAME_FIELD] with the given value. *)
Definition get_by_natural_key (db : Db) (username : string) : result UserAccount :=
  match rows_with_email db username with
  | [] => Raise (DoesNotExist "UserAccount matching query does not exist.")
  | [(k, r)] => Ok (from_db k r)
  | _ => Raise (MultipleObjectsReturned "get() returned more than one UserAccount")
  end.

(** [ModelBackend.user_can_authenticate]: [getattr(user, "is_active",
    True)]. *)
Definition user_can_authenticate (u : UserAccount) : bool :=
  match getattr u "is_active" with
  | Ok v => py_truthy v
  | Raise _ => true
  end.

(** [AdminSite.has_permission]: [request.user.is_active and
    request.user.is_staff], with Python's short-circuit [and]. *)
Definition has_permission (u : UserAccount) : result bool :=
  a <- getattr u "is_active" ;;
  if py_truthy a then (s <- getattr u "is_staff" ;; Ok (py_truthy s)) else Ok false.

(** The row with a new password. *)
Definition set_row_password (r : Row) (pw : string) : Row :=
  mkRow pw (row_first_name r) (row_last_name r) (row_email r) (row_is_active r) (row_is_admin r)
    (row_is_superuser r).

Section WithHasher.
Context {HP : PasswordHasher}.
Variable enforce_len : bool.

(** [self.save(update_fields=["password"])]: an UPDATE of the password
    column of the row under the instance's key.  An instance without a
    key raises [ValueError].  An UPDATE that matches no row raises
    [DatabaseError].  On the matched row the database checks NOT NULL
    and the length of the new value. *)
Definition save_password (u : UserAccount) : stE Db unit :=
  fun db =>
    match id u with
    | None => (db, Raise (ValueError "Cannot force an update in save() with no primary key."))
    | Some k =>
        match db_rows db !! k with
        | None => (db, Raise (DatabaseError "Save with update_fields did not affect any rows."))
        | Some r =>
            match pw <- not_null FPassword (char_prep (password u)) ;;
                  _ <- check_len enforce_len FPassword pw ;; Ok pw with
            | Ok pw => (mkDb (<[k := set_row_password r pw]> (db_rows db)) (db_next_id db), Ok tt)
            | Raise e => (db, Raise e)
            end
        end
    end.

(** [AbstractBaseUser.check_password(raw_password)]: Django's
    [check_password(raw_password, self.password, setter)].  When the
    password is right and its encoding must be updated, the [setter]
    runs [self.set_password(raw_password)], sets [self._password = None]
    and saves the password column.  [rnd] is the new salt.  The result
    is the answer and the instance, which the setter may have changed. *)
Definition check_password_rehash (u : UserAccount) (raw rnd : string) : stE Db (bool * UserAccount) :=
  match password u with
  | PyStr e =>
      match Hashers.verify_password (Some raw) e with
      | (true, true) =>
          u' <~ st_lift (set_password u (PyStr raw) rnd) ;;
          let u' := setattr u' "_password" PyNone in
          _ <~ save_password u' ;;
          st_ret (true, u')
      | (ok, _) => st_ret (ok, u)
      end
  | _ => st_ret (false, u)
  end.

(** [ModelBackend.authenticate(request, username, password)]: a missing
    username or password gives [None].  [DoesNotExist] gives [None]
    (after hashing the password once, which changes nothing).  Other
    exceptions propagate.  Otherwise [user.check_password(password) and
    self.user_can_authenticate(user)] decides, in that order: the
    password is checked, and possibly rehashed, before [is_active] is
    read. *)
Definition authenticate (username password : option string) (rnd : string) : stE Db (option UserAccount) :=
  fun db =>
    match username, password with
    | Some un, Some pw =>
        match get_by_natural_key db un with
        | Ok user =>
            (res <~ check_password_rehash user pw rnd ;;
             st_ret (if res.1 && user_can_authenticate res.2 then Some res.2 else None)) db
        | Raise (DoesNotExist _) => (db, Ok None)
        | Raise e => (db, Raise e)
        end
    | _, _ => (db, Ok None)
    end.

End WithHasher.

(** ** Lemmas *)

Lemma rows_with_email_unique (enforce_len : bool) (db : Db) (k : Z) (r : Row) :
  db_wf enforce_len db -> db_rows db !! k = Some r ->
  rows_with_email db (row_email r) = [(k, r)].
Proof.
  intros (_ & _ & Huniq & _) Hk. apply NoDup_singleton_of_all.
  - apply NoDup_filter, NoDup_map_to_list.
  - apply list_elem_of_filter. split; [done|]. by apply elem_of_map_to_list.
  - intros [k' r'] (He & Hin)%list_elem_of_filter. apply elem_of_map_to_list in Hin.
    simpl in He. assert (k' = k) as -> by (by eapply Huniq). congruence.
Qed.

Lemma rows_with_email_none (db : Db) (em : string) :
  (forall k r, db_rows db !! k = Some r -> row_email r <> em) -> rows_with_email db em = [].
Proof.
  intros Hn. destruct (rows_with_email db em) as [|[k r] l] eqn:E; [done|].
  assert ((k, r) ∈ rows_with_email db em) as Hin by (rewrite E; left).
  apply list_elem_of_filter in Hin as [He Hin]. apply elem_of_map_to_list in Hin.
  by destruct (Hn k r Hin).
Qed.

Lemma user_can_authenticate_from_db (k : Z) (r : Row) :
  user_can_authenticate (from_db k r) = row_is_active r.
Proof. destruct r as [? ? ? ? [] ? ?]; reflexivity. Qed.

Lemma get_by_natural_key_Ok (db : Db) (un : string) (user : UserAccount) :
  get_by_natural_key db un = Ok user ->
  exists k r, db_rows db !! k = Some r /\ row_email r = un /\ user = from_db k r.
Proof.
  unfold get_by_natural_key. destruct (rows_with_email db un) as [|[k r] [|]] eqn:E; try discriminate.
  intros [= <-]. assert ((k, r) ∈ rows_with_email db un) as Hin by (rewrite E; left).
  apply list_elem_of_filter in Hin as [He Hin]. apply elem_of_map_to_list in Hin. eauto.
Qed.

(** The instance after [set_password] and [_password = None]. *)
Lemma rehashed_fields (u : UserAccount) (enc : string) (a b : pyval) :
  let u' := setattr (setattr (set_field u FPassword (PyStr enc)) "_password" a) "_password" b in
  id u' = id u /\ password u' = PyStr enc /\
  (forall f, f <> FPassword -> get_field u' f = get_field u f) /\
  attrs u' = <["_password" := b]> (attrs u).
Proof.
  destruct u. simpl. split_and!; [done | done | intros [] ?; done |]. by rewrite insert_insert_eq.
Qed.

Section Rehash.
Context {HP : PasswordHasher}.
Variable enforce_len : bool.

Lemma save_password_inv (u : UserAccount) (db db' : Db) (res : result unit) :
  save_password enforce_len u db = (db', res) ->
  db' = db \/ exists k r pw, id u = Some k /\ db_rows db !! k = Some r /\ char_prep (password u) = Some pw /\
    (enforce_len = true -> String.length pw <= 128) /\
    db' = mkDb (<[k := set_row_password r pw]> (db_rows db)) (db_next_id db).
Proof.
  unfold save_password. destruct (id u) as [k|]; [|intros [= <- _]; by left].
  destruct (db_rows db !! k) as [r|] eqn:Hk; [|intros [= <- _]; by left].
  destruct (char_prep (password u)) as [pw|] eqn:Hp; simpl; [|intros [= <- _]; by left].
  destruct (check_len enforce_len FPassword pw) as [[]|e] eqn:Hl; simpl; [|intros [= <- _]; by left].
  intros [= <- _]. right. exists k, r, pw. split_and!; try done.
  intros Hen. by apply (check_len_ok enforce_len FPassword pw 128).
Qed.

(** [check_password] writes nothing unless the password is right and
    its encoding must be updated. *)
Lemma check_password_rehash_keep (u : UserAccount) (e raw rnd : string) (db : Db) :
  password u = PyStr e -> Hashers.verify_password (Some raw) e <> (true, true) ->
  check_password_rehash enforce_len u raw rnd db = (db, Ok (Hashers.check_password (Some raw) e, u)).
Proof.
  intros Hp Hv. unfold check_password_rehash. rewrite Hp, <- Hashers.verify_password_fst.
  destruct (Hashers.verify_password (Some raw) e) as [[] []]; [done | reflexivity..].
Qed.

(** What [check_password] may write: nothing, or the new encoding of
    the right password into the row of the instance's key. *)
Lemma check_password_rehash_db (u : UserAccount) (raw rnd : string) (db db' : Db) res :
  check_password_rehash enforce_len u raw rnd db = (db', res) ->
  db' = db \/ exists k r e, id u = Some k /\ db_rows db !! k = Some r /\ password u = PyStr e /\
    Hashers.check_password (Some raw) e = true /\
    (enforce_len = true -> String.length (hasher_encode raw rnd) <= 128) /\
    db' = mkDb (<[k := set_row_password r (hasher_encode raw rnd)]> (db_rows db)) (db_next_id db).
Proof.
  unfold check_password_rehash. destruct (password u) as [e| | |] eqn:Hpu; try (intros [= <- _]; by left).
  destruct (Hashers.verify_password (Some raw) e) as [[] []] eqn:Hv; try (intros [= <- _]; by left).
  cbn [set_password Hashers.make_password bind]. rewrite st_bind_lift_Ok. intros Hc.
  pose proof (rehashed_fields u (hasher_encode raw rnd) (PyStr raw) PyNone) as Hr. cbv zeta in Hr.
  destruct Hr as (Hid' & Hp' & _).
  assert (Hs : exists res', save_password enforce_len
      (setattr (setattr (set_field u FPassword (PyStr (hasher_encode raw rnd))) "_password" (PyStr raw))
         "_password" PyNone) db = (db', res')).
  { apply st_bind_inv in Hc as [(db1 & [] & Hs & [= <- _]) | (e' & Hs & _)]; eauto. }
  destruct Hs as [res' Hs].
  apply save_password_inv in Hs as [-> | (k & r & pw & Hk' & Hk & Hpw & Hlen & ->)]; [by left|].
  right. exists k, r, e. rewrite Hp' in Hpw. injection Hpw as <-. rewrite Hid' in Hk'.
  split_and!; try done. by rewrite <- Hashers.verify_password_fst, Hv.
Qed.

(** The instance [check_password] returns differs from the one it was
    given in the password column and [_password] only.  Its answer is
    [check_password] of the stored encoding. *)
Lemma check_password_rehash_user (u : UserAccount) (raw rnd : string) (db db' : Db) (ok : bool) (u' : UserAccount) :
  check_password_rehash enforce_len u raw rnd db = (db', Ok (ok, u')) ->
  id u' = id u /\ (forall f, f <> FPassword -> get_field u' f = get_field u f) /\
  (forall n, n <> "_password" -> attrs u' !! n = attrs u !! n) /\
  ok = match password u with PyStr e => Hashers.check_password (Some raw) e | _ => false end.
Proof.
  unfold check_password_rehash. destruct (password u) as [e| | |]; try (intros [=]; subst; by split_and!).
  rewrite <- Hashers.verify_password_fst.
  destruct (Hashers.verify_password (Some raw) e) as [[] []]; try (intros [=]; subst; by split_and!).
  cbn [set_password Hashers.make_password bind]. rewrite st_bind_lift_Ok. intros Hc. apply st_bind_inv in Hc as [(db1 & [] & _ & [=]) | (e' & _ & [=])]. subst.
  pose proof (rehashed_fields u (hasher_encode raw rnd) (PyStr raw) PyNone) as Hr. cbv zeta in Hr.
  destruct Hr as (Hid & _ & Hf & Ha).
  split_and!; [done | done | intros n Hn; by rewrite Ha, lookup_insert_ne | done].
Qed.

(** What [authenticate] may write: nothing, or into an existing row
    the new encoding of a password its old encoding accepts. *)
Lemma authenticate_db (un pw : option string) (rnd : string) (db db' : Db) res :
  authenticate enforce_len un pw rnd db = (db', res) ->
  db' = db \/ exists k r p, db_rows db !! k = Some r /\
    Hashers.check_password (Some p) (row_password r) = true /\
    (enforce_len = true -> String.length (hasher_encode p rnd) <= 128) /\
    db' = mkDb (<[k := set_row_password r (hasher_encode p rnd)]> (db_rows db)) (db_next_id db).
Proof.
  unfold authenticate. destruct un as [un|], pw as [p|]; try (intros [= <- _]; by left).
  destruct (get_by_natural_key db un) as [user|[]] eqn:Eg; try (intros [= <- _]; by left).
  apply get_by_natural_key_Ok in Eg as (k0 & r0 & Hk0 & _ & ->).
  intros Ha. assert (Hc : exists res', check_password_rehash enforce_len (from_db k0 r0) p rnd db = (db', res')).
  { apply st_bind_inv in Ha as [(db1 & x & Hc & Hret) | (e & Hc & _)]; [|eauto].
    unfold st_ret in Hret. injection Hret as <- _. eauto. }
  destruct Hc as [res' Hc].
  apply check_password_rehash_db in Hc as [-> | (k & r & e & [= <-] & Hk & [= <-] & Hchk & Hlen & ->)];
    [by left|].
  right. exists k0, r, p. rewrite Hk0 in Hk. injection Hk as ->. by split_and!.
Qed.

(** [authenticate] keeps the table invariant and every row's email. *)
(** Rewriting the password column of a row with a value that fits
    keeps the table well formed. *)
Lemma db_wf_set_password (db : Db) (k : Z) (r : Row) (pw : string) :
  db_wf enforce_len db -> db_rows db !! k = Some r -> (enforce_len = true -> String.length pw <= 128) ->
  db_wf enforce_len (mkDb (<[k := set_row_password r pw]> (db_rows db)) (db_next_id db)).
Proof.
  intros Hwf Hk Hlen. apply (db_wf_update_row enforce_len db k r); [done..|]. intros Hen.
  destruct Hwf as (_ & _ & _ & Hfits). destruct (Hfits Hen k r Hk) as (_ & ? & ? & ?).
  unfold row_fits. simpl. split_and!; auto.
Qed.

Lemma authenticate_wf (un pw : option string) (rnd : string) (db db' : Db) res :
  db_wf enforce_len db -> authenticate enforce_len un pw rnd db = (db', res) ->
  db_wf enforce_len db' /\ forall k, row_email <$> db_rows db' !! k = row_email <$> db_rows db !! k.
Proof.
  intros Hwf Ha. apply authenticate_db in Ha as [-> | (k & r & p & Hk & _ & Hlen & ->)]; [done|]. split.
  - by apply db_wf_set_password.
  - intros k'. simpl. rewrite lookup_insert. case_decide; [subst; by rewrite Hk|done].
Qed.

(** Inversion of a successful login: the row the username names, a
    password that checks against it, an active account, and the
    instance of that row (with possibly a new password). *)
Lemma authenticate_Some (un pw : option string) (rnd : string) (db db' : Db) (user : UserAccount) :
  authenticate enforce_len un pw rnd db = (db', Ok (Some user)) ->
  exists k r p, db_rows db !! k = Some r /\ un = Some (row_email r) /\ pw = Some p /\
    Hashers.check_password (Some p) (row_password r) = true /\ row_is_active r = true /\
    id user = Some k /\ (forall f, f <> FPassword -> get_field user f = get_field (from_db k r) f) /\
    (forall n, n <> "_password" -> attrs user !! n = None).
Proof.
  unfold authenticate. destruct un as [un|], pw as [p|]; try discriminate.
  destruct (get_by_natural_key db un) as [u0|[]] eqn:Eg; try discriminate.
  apply get_by_natural_key_Ok in Eg as (k & r & Hk & <- & ->).
  intros Ha. apply st_bind_inv in Ha as [(db1 & [ok u'] & Hc & Hret) | (e & _ & [=])].
  unfold st_ret in Hret. simpl in Hret.
  destruct (ok && user_can_authenticate u') eqn:Hok; [injection Hret as _ <- | discriminate].
  apply check_password_rehash_user in Hc as (Hid & Hf & Hat & ->). apply andb_true_iff in Hok as [Hchk Hcan].
  assert (Hact : is_active u' = PyBool (row_is_active r)) by exact (Hf FIsActive ltac:(done)).
  unfold user_can_authenticate, getattr in Hcan. simpl in Hcan. rewrite Hact in Hcan.
  exists k, r, p. split_and!; try done. all: intros n Hn; by rewrite Hat.
Qed.

Lemma save_password_Ok (u : UserAccount) (db : Db) (k : Z) (r : Row) (pw : string) :
  id u = Some k -> db_rows db !! k = Some r -> char_prep (password u) = Some pw ->
  (enforce_len = true -> String.length pw <= 128) ->
  save_password enforce_len u db = (mkDb (<[k := set_row_password r pw]> (db_rows db)) (db_next_id db), Ok tt).
Proof.
  intros Hid Hk Hp Hlen. unfold save_password. rewrite Hid, Hk, Hp. simpl.
  rewrite check_len_pass; [done|]. intros mx [= <-]. exact Hlen.
Qed.

(** A right password whose encoding must be updated is encoded again
    with the new salt, written to the row, and kept on the instance. *)
Lemma check_password_rehash_update (u : UserAccount) (e raw rnd : string) (db : Db) (k : Z) (r : Row) :
  password u = PyStr e -> Hashers.verify_password (Some raw) e = (true, true) ->
  id u = Some k -> db_rows db !! k = Some r ->
  (enforce_len = true -> String.length (hasher_encode raw rnd) <= 128) ->
  check_password_rehash enforce_len u raw rnd db =
    (mkDb (<[k := set_row_password r (hasher_encode raw rnd)]> (db_rows db)) (db_next_id db),
     Ok (true, setattr (setattr (set_field u FPassword (PyStr (hasher_encode raw rnd))) "_password" (PyStr raw))
                 "_password" PyNone)).
Proof.
  intros Hp Hv Hid Hk Hlen. unfold check_password_rehash. rewrite Hp, Hv.
  cbn [set_password Hashers.make_password bind]. rewrite st_bind_lift_Ok.
  pose proof (rehashed_fields u (hasher_encode raw rnd) (PyStr raw) PyNone) as Hr. cbv zeta in Hr.
  destruct Hr as (Hid' & Hp' & _).
  erewrite st_bind_Ok; [reflexivity|]. apply save_password_Ok; [by rewrite Hid' | done | by rewrite Hp' | done].
Qed.

(** Logging in against a row whose encoding [verify_password] does not
    ask to update writes nothing, and answers as [check_password] and
    [is_active] say. *)
Lemma authenticate_row (db : Db) (k : Z) (r : Row) (pw rnd : string) :
  db_wf enforce_len db -> db_rows db !! k = Some r ->
  (Hashers.verify_password (Some pw) (row_password r)).2 = false ->
  authenticate enforce_len (Some (row_email r)) (Some pw) rnd db =
    (db, Ok (if Hashers.check_password (Some pw) (row_password r) && row_is_active r
             then Some (from_db k r) else None)).
Proof.
  intros Hwf Hk Hmu. unfold authenticate, get_by_natural_key.
  rewrite (rows_with_email_unique enforce_len db k r Hwf Hk). cbv beta iota.
  erewrite st_bind_Ok; [|apply (check_password_rehash_keep _ (row_password r)); [reflexivity|]].
  - unfold st_ret. simpl. by rewrite user_can_authenticate_from_db.
  - destruct (Hashers.verify_password (Some pw) (row_password r)). simpl in Hmu. congruence.
Qed.

(** Logging in with the right password against an encoding that must
    be updated rewrites the row's password, whatever [is_active] says,
    and returns the updated instance when the account is active. *)
Lemma authenticate_outdated (db : Db) (k : Z) (r : Row) (p rnd : string) :
  db_wf enforce_len db -> db_rows db !! k = Some r ->
  Hashers.verify_password (Some p) (row_password r) = (true, true) ->
  (enforce_len = true -> String.length (hasher_encode p rnd) <= 128) ->
  authenticate enforce_len (Some (row_email r)) (Some p) rnd db =
    (mkDb (<[k := set_row_password r (hasher_encode p rnd)]> (db_rows db)) (db_next_id db),
     Ok (if row_is_active r
         then Some (setattr (setattr (set_field (from_db k r) FPassword (PyStr (hasher_encode p rnd)))
                              "_password" (PyStr p)) "_password" PyNone)
         else None)).
Proof.
  intros Hwf Hk Hv Hlen. unfold authenticate, get_by_natural_key.
  rewrite (rows_with_email_unique enforce_len db k r Hwf Hk). cbv beta iota.
  erewrite st_bind_Ok; [|by apply (check_password_rehash_update _ (row_password r))].
  unfold st_ret. simpl. by destruct (row_is_active r).
Qed.

End Rehash.

Section Properties.
Context {HP : PasswordHasher}.
Variable enforce_len : bool.

(** C10: After [create_user] with the password [p] and no [is_active]
    override that disables the account, logging in with the stored
    email accepts exactly [p] and returns the account loaded from its
    row.  Every other password gives [None].  No login writes to the
    table: a fresh encoding never needs an update. *)
Theorem authenticate_after_create (s p : string) kw rnd (db db' : Db) (u : UserAccount) :
  db_wf enforce_len db ->
  create_user enforce_len (PyStr s) (PyStr p) kw rnd db = (db', Ok u) ->
  bool_prep (default (PyBool true) (kw !! "is_active")) = Ok (Some true) ->
  exists r, db_rows db' !! db_next_id db = Some r /\
    forall q rnd', authenticate enforce_len (Some (PyStr.lower (normalize_str s))) (Some q) rnd' db' =
      (db', Ok (if bool_decide (q = p) then Some (from_db (db_next_id db) r) else None)).
Proof.
  intros Hwf Hc Hact.
  pose proof (create_user_wf _ _ _ _ _ _ _ _ Hwf Hc) as Hwf'.
  apply create_user_Ok_stored in Hc as (s' & r & [= <-] & _ & Hrows & He & Hp & Ha & _).
  rewrite Hact in Ha. injection Ha as Ha.
  assert (Hk : db_rows db' !! db_next_id db = Some r) by (rewrite Hrows; apply lookup_insert_eq).
  exists r. split; [done|]. intros q rnd'. rewrite <- He.
  rewrite (authenticate_row enforce_len db' _ r q rnd' Hwf' Hk) by (rewrite Hp; simpl enc_password;
    by rewrite Hashers.verify_password_encode).
  rewrite Hp, <- Ha. simpl enc_password. rewrite Hashers.check_password_encode, andb_true_r.
  by case_bool_decide.
Qed.

(** C11: An account created with [password=None] never logs in.  No
    username, password or salt makes [authenticate] return it. *)
Theorem authenticate_no_password (s : string) kw rnd (db db' : Db) (u : UserAccount) :
  create_user enforce_len (PyStr s) PyNone kw rnd db = (db', Ok u) ->
  forall un pw rnd' db'' user, authenticate enforce_len un pw rnd' db' = (db'', Ok (Some user)) ->
  id user <> Some (db_next_id db).
Proof.
  intros Hc un pw rnd' db'' user Ha.
  apply create_user_Ok_stored in Hc as (s' & r & _ & _ & Hrows & _ & Hp & _).
  apply authenticate_Some in Ha as (k & r' & p & Hk & _ & _ & Hchk & _ & -> & _).
  intros [= ->]. rewrite Hrows, lookup_insert_eq in Hk. injection Hk as <-.
  rewrite Hp in Hchk. change (enc_password PyNone rnd) with (Hashers.UNUSABLE_PASSWORD_PREFIX +:+ rnd)%string in Hchk.
  by rewrite Hashers.check_password_unusable in Hchk.
Qed.

(** C12: The login lookup is an exact match on the stored email.  The
    address as typed at registration, when it is not already in
    normalised lower case (say ["Ada@Example.com"]), finds no account:
    [authenticate] returns [None], whatever the password, and writes
    nothing. *)
Theorem authenticate_as_typed_fails (s p : string) kw rnd (db db' : Db) (u : UserAccount) (q rnd' : string) :
  create_user enforce_len (PyStr s) (PyStr p) kw rnd db = (db', Ok u) ->
  (forall k r, db_rows db !! k = Some r -> row_email r <> s) ->
  s <> PyStr.lower (normalize_str s) ->
  authenticate enforce_len (Some s) (Some q) rnd' db' = (db', Ok None).
Proof.
  intros Hc Hold Hne.
  apply create_user_Ok_stored in Hc as (s' & r & [= <-] & _ & Hrows & He & _).
  unfold authenticate, get_by_natural_key. rewrite rows_with_email_none; [done|].
  intros k r'. rewrite Hrows, lookup_insert. case_decide.
  - intros [= <-]. rewrite He. congruence.
  - apply Hold.
Qed.

(** C13: No account that logs in passes the admin site's permission
    check.  [has_permission] reads [is_staff], which the model does not
    declare (it declares [is_admin], line 53).  So it raises
    [AttributeError] for every account [authenticate] returns,
    superusers included. *)
Theorem admin_permission_raises (db db' : Db) (un pw : option string) (rnd : string) (user : UserAccount) :
  authenticate enforce_len un pw rnd db = (db', Ok (Some user)) ->
  has_permission user = Raise (AttributeError "'UserAccount' object has no attribute 'is_staff'").
Proof.
  intros Ha. apply authenticate_Some in Ha as (k & r & p & _ & _ & _ & _ & Hact & _ & Hf & Hat).
  unfold has_permission. change (getattr user "is_active") with (Ok (get_field user FIsActive)).
  rewrite Hf by done. simpl. rewrite Hact. simpl.
  unfold getattr. simpl. by rewrite Hat.
Qed.

(** C30: Logging in with the right password against an encoding that
    must be updated (after a change of [PASSWORD_HASHERS]) rewrites that
    row's password with the current hasher and the new salt, and
    nothing else.  From then on logins accept exactly the same password,
    return the account of the updated row, and write nothing. *)
Theorem authenticate_rehash (db : Db) (k : Z) (r : Row) (p rnd : string) :
  db_wf enforce_len db -> db_rows db !! k = Some r -> row_is_active r = true ->
  Hashers.verify_password (Some p) (row_password r) = (true, true) ->
  (enforce_len = true -> String.length (hasher_encode p rnd) <= 128) ->
  let db' := mkDb (<[k := set_row_password r (hasher_encode p rnd)]> (db_rows db)) (db_next_id db) in
  (exists user, authenticate enforce_len (Some (row_email r)) (Some p) rnd db = (db', Ok (Some user)) /\
     id user = Some k) /\
  forall q rnd', authenticate enforce_len (Some (row_email r)) (Some q) rnd' db' =
    (db', Ok (if bool_decide (q = p) then Some (from_db k (set_row_password r (hasher_encode p rnd))) else None)).
Proof.
  intros Hwf Hk Hact Hv Hlen db'.
  pose proof (authenticate_outdated enforce_len db k r p rnd Hwf Hk Hv Hlen) as H1. rewrite Hact in H1.
  split; [eexists; split; [exact H1 | reflexivity]|].
  destruct (authenticate_wf enforce_len _ _ _ _ _ _ Hwf H1) as [Hwf' _]. intros q rnd'.
  assert (Hk' : db_rows db' !! k = Some (set_row_password r (hasher_encode p rnd))) by apply lookup_insert_eq.
  rewrite (authenticate_row enforce_len db' k _ q rnd' Hwf' Hk') by (cbn [row_password set_row_password]; by rewrite Hashers.verify_password_encode).
  cbn [row_password row_is_active set_row_password]. rewrite Hashers.check_password_encode, Hact, andb_true_r. by case_bool_decide.
Qed.

(** C33: The password is checked, and an outdated encoding rewritten,
    before [is_active] is read.  A login attempt with the right
    password on an inactive account returns [None], yet still rewrites
    that account's password column. *)
Theorem authenticate_inactive_rehash (db : Db) (k : Z) (r : Row) (p rnd : string) :
  db_wf enforce_len db -> db_rows db !! k = Some r -> row_is_active r = false ->
  Hashers.verify_password (Some p) (row_password r) = (true, true) ->
  (enforce_len = true -> String.length (hasher_encode p rnd) <= 128) ->
  authenticate enforce_len (Some (row_email r)) (Some p) rnd db =
    (mkDb (<[k := set_row_password r (hasher_encode p rnd)]> (db_rows db)) (db_next_id db), Ok None).
Proof.
  intros Hwf Hk Hact Hv Hlen. rewrite (authenticate_outdated enforce_len db k r p rnd Hwf Hk Hv Hlen).
  by rewrite Hact.
Qed.

End Properties.

(** ** Witnesses, with the [plain_hasher] instance, and [versioned_hasher]
    for the upgrade of an old encoding *)

Lemma authenticate_after_create_witness :
  exists db' u,
    create_user true (PyStr "Ada@Example.com") (PyStr "s3cret") ∅ "salt" db_empty = (db', Ok u) /\
    exists r, db_rows db' !! db_next_id db_empty = Some r /\
      forall q rnd', authenticate true (Some (PyStr.lower (normalize_str "Ada@Example.com"))) (Some q) rnd' db' =
        (db', Ok (if bool_decide (q = "s3cret"%string) then Some (from_db (db_next_id db_empty) r) else None)).
Proof.
  eexists _, _. split; [compute_lhs; reflexivity|].
  eapply (authenticate_after_create true "Ada@Example.com" "s3cret" ∅ "salt" db_empty);
    [apply db_empty_wf | compute_lhs; reflexivity | reflexivity].
Defined.

Lemma authenticate_no_password_witness :
  exists db' u,
    create_user true (PyStr "ada@example.com") PyNone ∅ "rnd" db_empty = (db', Ok u) /\
    forall un pw rnd' db'' user, authenticate true un pw rnd' db' = (db'', Ok (Some user)) ->
      id user <> Some (db_next_id db_empty).
Proof.
  eexists _, _. split; [compute_lhs; reflexivity|].
  eapply (authenticate_no_password true "ada@example.com" ∅ "rnd" db_empty). compute_lhs; reflexivity.
Defined.

Lemma authenticate_as_typed_fails_witness :
  exists db' u,
    create_user true (PyStr "Ada@Example.com") (PyStr "s3cret") ∅ "salt" db_empty = (db', Ok u) /\
    authenticate true (Some "Ada@Example.com"%string) (Some "s3cret"%string) "salt2" db' = (db', Ok None).
Proof.
  eexists _, _. split; [compute_lhs; reflexivity|].
  eapply (authenticate_as_typed_fails true "Ada@Example.com" "s3cret" ∅ "salt" db_empty);
    [compute_lhs; reflexivity | intros k r Hk; simpl in Hk; by rewrite lookup_empty in Hk
    | vm_compute; discriminate].
Defined.

Lemma admin_permission_raises_witness :
  exists db' u db'' user,
    create_superuser true (PyStr "root@example.com") (PyStr "pw") ∅ "salt" db_empty = (db', Ok u) /\
    authenticate true (Some "root@example.com"%string) (Some "pw"%string) "salt2" db' = (db'', Ok (Some user)) /\
    has_permission user = Raise (AttributeError "'UserAccount' object has no attribute 'is_staff'").
Proof.
  eexists _, _, _, _. split; [compute_lhs; reflexivity|].
  match goal with
  | |- authenticate ?b ?un ?pw ?rnd ?d = (?d', Ok (Some ?u)) /\ _ =>
      assert (H : authenticate b un pw rnd d = (d', Ok (Some u))) by (compute_lhs; reflexivity);
      split; [exact H | exact (admin_permission_raises b d d' un pw rnd u H)]
  end.
Defined.

Lemma authenticate_rehash_witness :
  let r := mkRow "v1$pw" "" "" "ann@example.com" true false false in
  let db' := mkDb (<[1%Z := set_row_password r (@hasher_encode versioned_hasher "pw" "salt")]> {[1%Z := r]}) 2 in
  (exists user, authenticate (HP:=versioned_hasher) true (Some (row_email r)) (Some "pw"%string) "salt"
                  (mkDb {[1%Z := r]} 2) = (db', Ok (Some user)) /\ id user = Some 1%Z) /\
  forall q rnd', authenticate (HP:=versioned_hasher) true (Some (row_email r)) (Some q) rnd' db' =
    (db', Ok (if bool_decide (q = "pw"%string)
              then Some (from_db 1 (set_row_password r (@hasher_encode versioned_hasher "pw" "salt"))) else None)).
Proof.
  intros r db'.
  refine (authenticate_rehash (HP:=versioned_hasher) true (mkDb {[1%Z := r]} 2) 1 r "pw" "salt" _ _ _ _ _);
    [apply (db_wf_singleton true 1 r); [lia | intros _; unfold row_fits; simpl; lia]
    | reflexivity | reflexivity | reflexivity | intros _; simpl; lia].
Defined.

Lemma authenticate_inactive_rehash_witness :
  let r := mkRow "v1$pw" "" "" "ann@example.com" false false false in
  authenticate (HP:=versioned_hasher) true (Some (row_email r)) (Some "pw"%string) "salt" (mkDb {[1%Z := r]} 2) =
    (mkDb (<[1%Z := set_row_password r (@hasher_encode versioned_hasher "pw" "salt")]> {[1%Z := r]}) 2, Ok None).
Proof.
  intros r.
  refine (authenticate_inactive_rehash (HP:=versioned_hasher) true (mkDb {[1%Z := r]} 2) 1 r "pw" "salt" _ _ _ _ _);
    [apply (db_wf_singleton true 1 r); [lia | intros _; unfold row_fits; simpl; lia]
    | reflexivity | reflexivity | reflexivity | intros _; simpl; lia].
Defined.

End Auth.
