(* ===== verification/Perms.v ===== *)
(** * Permissions: [PermissionsMixin] and [ModelBackend]

    [UserAccount] inherits [PermissionsMixin] (line 42 of
    [src/users/models.py]).  Line 55 overrides the mixin's
    [is_superuser] field.  The mixin answers [has_perm], [has_perms] and
    [has_module_perms].  An active superuser gets every permission at
    once.  Every other question goes to the authentication backends.
    These are Django's default [[ModelBackend]], which reads the
    permission tables.

    The tables are the record [PermDb].  It holds [Permission.objects],
    the many-to-many tables [user_permissions] and [groups] of the user,
    and [Group.permissions].  A permission is a pair (app label,
    codename), named ["app_label.codename"] by [perm_name].  Here every
    call reads the tables.  The backend's caches on the instance are in
    [PermCache], which refines these definitions.

    The theorems characterise [has_perm], [has_perms] and
    [has_module_perms] against the tables.  They show that the instance
    [create_superuser] returns has every permission, and that [is_admin]
    plays no part in any of these checks. *)

From S2P Require Import Prelude PyStr Hasher Model Store Manager Auth.
Import Model Store Manager.

Module Perms.

(** A row of [auth_permission]: its content type's [app_label] and its
    [codename]. *)
Definition Permission : Type := string * string.

Record PermDb := mkPermDb {
  perm_all : gset Permission;
  user_permissions : gmap Z (gset Permission);
  user_groups : gmap Z (gset Z);
  group_permissions : gmap Z (gset Permission)
}.

(** ["%s.%s" % (ct, name)] of [ModelBackend._get_permissions]. *)
Definition perm_name (p : Permission) : string := (p.1 +:+ "." +:+ p.2)%string.

(** A many-to-many manager of an instance without a primary key raises. *)
Definition m2m_error : pyexc :=
  ValueError "UserAccount instance needs to have a value for field id before this many-to-many relationship can be used".

(** [obj is None]. *)
Definition obj_none (obj : pyval) : bool := bool_decide (obj = PyNone).

(** [ModelBackend._get_user_permissions]: [user_obj.user_permissions.all()]. *)
Definition get_user_perm_rows (pdb : PermDb) (u : UserAccount) : result (gset Permission) :=
  match id u with
  | Some k => Ok (default ∅ (user_permissions pdb !! k))
  | None => Raise m2m_error
  end.

(** The permissions of a set of groups. *)
Definition groups_perms (pdb : PermDb) (gs : gset Z) : gset Permission :=
  ⋃ ((fun g => default ∅ (group_permissions pdb !! g)) <$> elements gs).

(** [ModelBackend._get_group_permissions]:
    [Permission.objects.filter(group__user=user_obj)]. *)
Definition get_group_perm_rows (pdb : PermDb) (u : UserAccount) : result (gset Permission) :=
  match id u with
  | Some k => Ok (groups_perms pdb (default ∅ (user_groups pdb !! k)))
  | None => Raise m2m_error
  end.

Inductive PermSource := FromUser | FromGroup.

(** The guard that every [ModelBackend] lookup starts with: [not
    user_obj.is_active or user_obj.is_anonymous or obj is not None].
    [is_anonymous] is [False] for a [UserAccount]. *)
Definition backend_skips (u : UserAccount) (obj : pyval) : bool :=
  negb (py_truthy (is_active u)) || negb (obj_none obj).

(** [ModelBackend._get_permissions(user_obj, obj, from_name)]: a
    superuser gets every permission row. *)
Definition get_permissions (pdb : PermDb) (u : UserAccount) (obj : pyval) (src : PermSource)
    : result (gset string) :=
  if backend_skips u obj then Ok ∅
  else
    perms <- (if py_truthy (is_superuser u) then Ok (perm_all pdb)
              else match src with
                   | FromUser => get_user_perm_rows pdb u
                   | FromGroup => get_group_perm_rows pdb u
                   end) ;;
    Ok (set_map perm_name perms).

(** [ModelBackend.get_all_permissions] through
    [BaseBackend.get_all_permissions]: [{*user perms, *group perms}]. *)
Definition get_all_permissions (pdb : PermDb) (u : UserAccount) (obj : pyval) : result (gset string) :=
  if backend_skips u obj then Ok ∅
  else
    up <- get_permissions pdb u obj FromUser ;;
    gp <- get_permissions pdb u obj FromGroup ;;
    Ok (up ∪ gp).

(** [ModelBackend.has_perm]: [user_obj.is_active and perm in
    self.get_all_permissions(user_obj, obj)]. *)
Definition backend_has_perm (pdb : PermDb) (u : UserAccount) (perm : string) (obj : pyval)
    : result bool :=
  if py_truthy (is_active u) then
    ps <- get_all_permissions pdb u obj ;; Ok (bool_decide (perm ∈ ps))
  else Ok false.

(** The shortcut of the mixin: [self.is_active and self.is_superuser]. *)
Definition active_superuser (u : UserAccount) : bool :=
  py_truthy (is_active u) && py_truthy (is_superuser u).

(** [PermissionsMixin.has_perm], with [_user_has_perm] over the single
    default backend. *)
Definition has_perm (pdb : PermDb) (u : UserAccount) (perm : string) (obj : pyval) : result bool :=
  if active_superuser u then Ok true else backend_has_perm pdb u perm obj.

(** [PermissionsMixin.has_perms]: [all(self.has_perm(perm, obj) for perm
    in perm_list)], which stops at the first [False].  The argument is a
    list, so the [ValueError] for a [str] argument cannot arise. *)
Fixpoint has_perms (pdb : PermDb) (u : UserAccount) (perm_list : list string) (obj : pyval)
    : result bool :=
  match perm_list with
  | [] => Ok true
  | p :: l => b <- has_perm pdb u p obj ;; if b then has_perms pdb u l obj else Ok false
  end.

(** [s.index(".")] and the slice [s[:i]]: the text before the first
    dot. *)
Fixpoint before_dot (s : string) : option string :=
  match s with
  | EmptyString => None
  | String c s' => if decide (c = "."%char) then Some EmptyString else String c <$> before_dot s'
  end.

Definition str_index_prefix (s : string) : result string :=
  match before_dot s with
  | Some p => Ok p
  | None => Raise (ValueError "substring not found")
  end.

(** [any(perm[: perm.index(".")] == app_label for perm in perms)], left
    to right. *)
Fixpoint any_module (app : string) (perms : list string) : result bool :=
  match perms with
  | [] => Ok false
  | p :: l => pre <- str_index_prefix p ;; if bool_decide (pre = app) then Ok true else any_module app l
  end.

(** [ModelBackend.has_module_perms].  The set is walked in the order of
    [elements].  No name of the tables lacks a dot, so the order cannot
    change the answer. *)
Definition backend_has_module_perms (pdb : PermDb) (u : UserAccount) (app : string) : result bool :=
  if py_truthy (is_active u) then
    ps <- get_all_permissions pdb u PyNone ;; any_module app (elements ps)
  else Ok false.

(** [PermissionsMixin.has_module_perms]. *)
Definition has_module_perms (pdb : PermDb) (u : UserAccount) (app : string) : result bool :=
  if active_superuser u then Ok true else backend_has_module_perms pdb u app.

(** ** Vocabulary of the theorems *)

(** The permission rows granted to the user with key [k], directly or
    through a group. *)
Definition granted (pdb : PermDb) (k : Z) : gset Permission :=
  default ∅ (user_permissions pdb !! k) ∪ groups_perms pdb (default ∅ (user_groups pdb !! k)).

(** The rows the backend reads for a user it does not skip. *)
Definition backend_rows (pdb : PermDb) (u : UserAccount) : result (gset Permission) :=
  if py_truthy (is_superuser u) then Ok (perm_all pdb)
  else match id u with
       | Some k => Ok (granted pdb k)
       | None => Raise m2m_error
       end.

(** The contract of [has_perm]: an active superuser has every
    permission.  An inactive user, or a question about an object, gets
    [False].  Anyone else has the permissions granted to them directly
    or through a group.  An instance that was never saved cannot be
    asked. *)
Definition has_perm_ref (pdb : PermDb) (u : UserAccount) (perm : string) (obj : pyval) : result bool :=
  if active_superuser u then Ok true
  else if backend_skips u obj then Ok false
  else match id u with
       | Some k => Ok (bool_decide (set_Exists (fun p => perm = perm_name p) (granted pdb k)))
       | None => Raise m2m_error
       end.

(** ** Lemmas *)

Lemma get_all_permissions_skip (pdb : PermDb) (u : UserAccount) (obj : pyval) :
  backend_skips u obj = true -> get_all_permissions pdb u obj = Ok ∅.
Proof. unfold get_all_permissions. by intros ->. Qed.

(** Past the guard, [get_all_permissions] names the rows of
    [backend_rows]: the user's and the groups' rows united. *)
Lemma get_all_permissions_rows (pdb : PermDb) (u : UserAccount) (obj : pyval) :
  backend_skips u obj = false ->
  get_all_permissions pdb u obj = (rs <- backend_rows pdb u ;; Ok (set_map perm_name rs)).
Proof.
  unfold get_all_permissions, get_permissions, backend_rows, get_user_perm_rows, get_group_perm_rows.
  intros ->. destruct (py_truthy (is_superuser u)); [|destruct (id u)]; simpl; [| |done];
    f_equal; apply set_eq; unfold granted; set_solver.
Qed.

Lemma elem_of_perm_names (perm : string) (rs : gset Permission) :
  bool_decide (perm ∈ (set_map perm_name rs : gset string)) =
  bool_decide (set_Exists (fun p => perm = perm_name p) rs).
Proof. apply bool_decide_ext. unfold set_Exists. set_solver. Qed.

(** Whether the user is active or a superuser depends on two fields
    only. *)
Lemma active_superuser_false (u : UserAccount) (obj : pyval) :
  active_superuser u = false -> backend_skips u obj = false -> py_truthy (is_superuser u) = false.
Proof.
  unfold active_superuser, backend_skips. destruct (py_truthy (is_active u)); [done|]. simpl. discriminate.
Qed.

Lemma before_dot_perm_name (p : Permission) :
  PyStr.contains "." p.1 = false -> before_dot (perm_name p) = Some p.1.
Proof.
  destruct p as [a c]. unfold perm_name. simpl. induction a as [|x a IH]; intros Ha; [done|].
  simpl in Ha |- *. apply orb_false_iff in Ha as [Hx Ha].
  rewrite decide_False by (intros ->; by rewrite bool_decide_eq_true_2 in Hx).
  unfold String.app in IH |- *. by rewrite IH.
Qed.

Lemma any_module_Ok (app : string) (l : list string) :
  Forall (fun s => is_Some (before_dot s)) l ->
  any_module app l = Ok (bool_decide (Exists (fun s => before_dot s = Some app) l)).
Proof.
  induction 1 as [|s l [pre Hpre] _ IH]; [done|]. simpl. unfold str_index_prefix. rewrite Hpre, bind_Ok.
  destruct (decide (pre = app)) as [<-|Hne].
  - rewrite bool_decide_eq_true_2 by done. f_equal. symmetry. apply bool_decide_eq_true_2. by constructor.
  - rewrite bool_decide_eq_false_2 by done. rewrite IH. f_equal.
    apply bool_decide_ext. rewrite Exists_cons. naive_solver.
Qed.

(** [any] over the names of rows whose app labels have no dot asks
    whether some row has the app label. *)
Lemma any_module_perm_names (app : string) (rs : gset Permission) :
  set_Forall (fun p => PyStr.contains "." p.1 = false) rs ->
  any_module app (elements (set_map perm_name rs : gset string)) =
    Ok (bool_decide (set_Exists (fun p => p.1 = app) rs)).
Proof.
  intros Hrs. rewrite any_module_Ok.
  - f_equal. apply bool_decide_ext. rewrite <- set_Exists_elements. unfold set_Exists.
    setoid_rewrite elem_of_map. split.
    + intros (s & (p & -> & Hp) & Hs). exists p. split; [done|].
      rewrite before_dot_perm_name in Hs by (by apply Hrs). congruence.
    + intros (p & Hp & <-). exists (perm_name p). split; [by exists p|]. by apply before_dot_perm_name, Hrs.
  - apply Forall_forall. intros s Hs.
    rewrite elem_of_elements, elem_of_map in Hs. destruct Hs as (p & -> & Hp).
    rewrite before_dot_perm_name by (by apply Hrs). by eexists.
Qed.

Lemma has_perms_cons (pdb : PermDb) (u : UserAccount) (p : string) (l : list string) (obj : pyval) :
  has_perms pdb u (p :: l) obj = Ok true <->
  has_perm pdb u p obj = Ok true /\ has_perms pdb u l obj = Ok true.
Proof.
  simpl. destruct (has_perm pdb u p obj) as [[]|e]; simpl; split; try naive_solver; by intros [? ?].
Qed.

Lemma backend_has_perm_skip (pdb : PermDb) (u : UserAccount) (perm : string) (obj : pyval) :
  backend_skips u obj = true -> backend_has_perm pdb u perm obj = Ok false.
Proof.
  intros Hsk. unfold backend_has_perm. rewrite get_all_permissions_skip by done.
  destruct (py_truthy (is_active u)); [|reflexivity]. rewrite bind_Ok, bool_decide_eq_false_2; [reflexivity | set_solver].
Qed.

(** Past the guard, [ModelBackend.has_perm] asks whether some row the
    backend reads carries the name. *)
Lemma backend_has_perm_rows (pdb : PermDb) (u : UserAccount) (perm : string) (obj : pyval) :
  backend_skips u obj = false ->
  backend_has_perm pdb u perm obj =
    (rs <- backend_rows pdb u ;; Ok (bool_decide (set_Exists (fun p => perm = perm_name p) rs))).
Proof.
  intros Hsk. unfold backend_has_perm. rewrite get_all_permissions_rows by done.
  replace (py_truthy (is_active u)) with true
    by (unfold backend_skips in Hsk; by destruct (py_truthy (is_active u))).
  destruct (backend_rows pdb u); simpl; [|done]. by rewrite elem_of_perm_names.
Qed.

Lemma backend_skips_none (u : UserAccount) :
  py_truthy (is_active u) = true -> backend_skips u PyNone = false.
Proof. unfold backend_skips. by intros ->. Qed.

Lemma granted_fresh (pdb : PermDb) (k : Z) :
  user_permissions pdb !! k = None -> user_groups pdb !! k = None -> granted pdb k = ∅.
Proof. unfold granted, groups_perms. intros -> ->. simpl. rewrite elements_empty. set_solver. Qed.

Section Accounts.
Context {HP : PasswordHasher}.
Variable enforce_len : bool.

(** The fields of the instance [create_user] returns, other than the
    password and the email, are the keyword values or the defaults. *)
Lemma create_user_fields (em pw : pyval) kw rnd (db db' : Db) (u : UserAccount) :
  create_user enforce_len em pw kw rnd db = (db', Ok u) ->
  id u = Some (db_next_id db) /\
  forall f, f <> FPassword -> f <> FEmail -> get_field u f = default (field_default f) (kw !! field_name f).
Proof.
  intros Hc. apply create_user_Ok in Hc as (s & u0 & r & _ & _ & Hn & _ & -> & _).
  apply new_user_Ok in Hn as (_ & _ & _ & _ & Hf). split; [apply id_set_id|].
  intros f ??. rewrite get_field_set_id. by apply Hf.
Qed.

Lemma create_superuser_fields (em pw : pyval) kw rnd (db db' : Db) (u : UserAccount) :
  create_superuser enforce_len em pw kw rnd db = (db', Ok u) ->
  is_superuser u = PyBool true /\ is_active u = default (PyBool true) (kw !! "is_active").
Proof.
  rewrite create_superuser_unfold. destruct (create_user enforce_len em pw kw rnd db) as [db1 [u0|e]] eqn:E;
    [|discriminate].
  destruct (superuser_resave enforce_len _ _ _ _ _ _ _ E) as (r & _ & _ & ->). intros [= _ <-].
  apply create_user_fields in E as [_ Hf].
  change (is_superuser (superuser_flags u0)) with (get_field (superuser_flags u0) FIsSuperuser).
  change (is_active (superuser_flags u0)) with (get_field (superuser_flags u0) FIsActive).
  rewrite !superuser_flags_field. simpl. split; [done|]. by apply (Hf FIsActive).
Qed.

End Accounts.

(** ** Properties *)

(** C23: [PermissionsMixin.has_perm] over [ModelBackend] meets its
    contract [has_perm_ref].  An active superuser has every permission.
    An inactive user, or a question about a given object, gets [False].
    Any other saved user has exactly the permissions granted directly or
    through one of its groups.  An unsaved instance raises [ValueError]. *)
Theorem has_perm_matches_ref (pdb : PermDb) (u : UserAccount) (perm : string) (obj : pyval) :
  has_perm pdb u perm obj = has_perm_ref pdb u perm obj.
Proof.
  unfold has_perm, has_perm_ref. destruct (active_superuser u) eqn:Has; [done|].
  destruct (backend_skips u obj) eqn:Hsk; [by apply backend_has_perm_skip|].
  rewrite backend_has_perm_rows by done. unfold backend_rows.
  rewrite (active_superuser_false u obj) by done. by destruct (id u).
Qed.

(** C29: [has_perm] raises only for an active, non-superuser instance
    that was never saved, asked about no object, and then raises the
    [ValueError] of its many-to-many manager. *)
Theorem has_perm_unsaved_raises (pdb : PermDb) (u : UserAccount) (perm : string) (obj : pyval) (e : pyexc) :
  has_perm pdb u perm obj = Raise e <->
  py_truthy (is_active u) = true /\ py_truthy (is_superuser u) = false /\ obj = PyNone /\
  id u = None /\ e = m2m_error.
Proof.
  unfold has_perm, active_superuser.
  destruct (py_truthy (is_active u)) eqn:Ha, (py_truthy (is_superuser u)) eqn:Hs; simpl.
  - split; [discriminate | by intros (_ & ? & _)].
  - destruct (decide (obj = PyNone)) as [->|Ho].
    + rewrite backend_has_perm_rows by (by apply backend_skips_none).
      unfold backend_rows. rewrite Hs. destruct (id u); simpl.
      * split; [discriminate | by intros (_ & _ & _ & ? & _)].
      * split; [intros [= <-]; naive_solver | by intros (_ & _ & _ & _ & ->)].
    + rewrite backend_has_perm_skip
        by (unfold backend_skips, obj_none; rewrite (bool_decide_eq_false_2 _ Ho); apply orb_true_r).
      split; [discriminate | by intros (_ & _ & ? & _)].
  - rewrite backend_has_perm_skip by (unfold backend_skips; by rewrite Ha).
    split; [discriminate | by intros [? _]].
  - rewrite backend_has_perm_skip by (unfold backend_skips; by rewrite Ha).
    split; [discriminate | by intros [? _]].
Qed.

(** [has_perms] holds exactly when [has_perm] holds for every
    permission of the list; the empty list is always granted. *)
Lemma has_perms_iff (pdb : PermDb) (u : UserAccount) (l : list string) (obj : pyval) :
  has_perms pdb u l obj = Ok true <-> Forall (fun p => has_perm pdb u p obj = Ok true) l.
Proof.
  induction l as [|p l IH]; [split; [constructor | done]|].
  by rewrite has_perms_cons, Forall_cons, IH.
Qed.

(** C28: [has_module_perms] of a saved user whose granted app labels
    contain no dot: [True] for an active superuser; for another active
    user, [True] exactly when a granted permission belongs to the app;
    [False] for an inactive user. *)
Theorem has_module_perms_spec (pdb : PermDb) (u : UserAccount) (k : Z) (app : string) :
  id u = Some k -> set_Forall (fun p => PyStr.contains "." p.1 = false) (granted pdb k) ->
  has_module_perms pdb u app =
    Ok (active_superuser u ||
        (py_truthy (is_active u) && bool_decide (set_Exists (fun p => p.1 = app) (granted pdb k)))).
Proof.
  intros Hid Hlab. unfold has_module_perms, backend_has_module_perms.
  destruct (active_superuser u) eqn:Has; [done|]. simpl.
  destruct (py_truthy (is_active u)) eqn:Ha; [|done].
  rewrite get_all_permissions_rows by (by apply backend_skips_none).
  unfold backend_rows. rewrite (active_superuser_false u PyNone) by first [done | by apply backend_skips_none].
  rewrite Hid, bind_Ok. by apply any_module_perm_names.
Qed.

(** C26: No permission check reads [is_admin].  Setting it to any
    value changes neither [has_perm], [has_module_perms], nor the admin
    site's [has_permission].  The flag the comment of line 52 says gives
    admin-panel login grants nothing. *)
Theorem is_admin_ignored (pdb : PermDb) (u : UserAccount) (v : pyval) (perm app : string) (obj : pyval) :
  has_perm pdb (set_field u FIsAdmin v) perm obj = has_perm pdb u perm obj /\
  has_module_perms pdb (set_field u FIsAdmin v) app = has_module_perms pdb u app /\
  Auth.has_permission (set_field u FIsAdmin v) = Auth.has_permission u.
Proof. destruct u; split_and!; reflexivity. Qed.

Section Composition.
Context {HP : PasswordHasher}.
Variable enforce_len : bool.

(** C24: The instance [create_superuser] returns, when [is_active] is
    left at its default or given a truthy value, has every permission
    and every module permission, whatever the permission tables hold. *)
Theorem create_superuser_has_all_perms (em pw : pyval) kw rnd (db db' : Db) (u : UserAccount) :
  create_superuser enforce_len em pw kw rnd db = (db', Ok u) ->
  py_truthy (default (PyBool true) (kw !! "is_active")) = true ->
  forall pdb perm obj app, has_perm pdb u perm obj = Ok true /\ has_module_perms pdb u app = Ok true.
Proof.
  intros Hc Ha pdb perm obj app. destruct (create_superuser_fields enforce_len _ _ _ _ _ _ _ Hc) as [Hsu Hact].
  assert (Has : active_superuser u = true) by (unfold active_superuser; by rewrite Hsu, Hact, Ha).
  unfold has_perm, has_module_perms. by rewrite Has.
Qed.

(** C25: An account [create_user] makes without an [is_superuser]
    keyword starts with no permission: while the tables hold no row for
    its new key, [has_perm] and [has_module_perms] answer [False]. *)
Theorem create_user_no_perms (em pw : pyval) kw rnd (db db' : Db) (u : UserAccount) :
  create_user enforce_len em pw kw rnd db = (db', Ok u) -> kw !! "is_superuser" = None ->
  forall pdb, user_permissions pdb !! db_next_id db = None -> user_groups pdb !! db_next_id db = None ->
  forall perm obj app, has_perm pdb u perm obj = Ok false /\ has_module_perms pdb u app = Ok false.
Proof.
  intros Hc Hkw pdb Hup Hug perm obj app.
  destruct (create_user_fields enforce_len _ _ _ _ _ _ _ Hc) as [Hid Hf].
  assert (Hsu : is_superuser u = PyBool false).
  { change (is_superuser u) with (get_field u FIsSuperuser). rewrite Hf by done. simpl. by rewrite Hkw. }
  assert (Has : active_superuser u = false) by (unfold active_superuser; rewrite Hsu; apply andb_false_r).
  unfold has_perm, has_module_perms, backend_has_module_perms. rewrite Has. split.
  - destruct (backend_skips u obj) eqn:Hsk; [by apply backend_has_perm_skip|].
    rewrite backend_has_perm_rows by done. unfold backend_rows.
    rewrite Hsu, Hid. simpl. rewrite granted_fresh by done. rewrite bool_decide_eq_false_2; [reflexivity | set_solver].
  - destruct (py_truthy (is_active u)) eqn:Ha; [|done].
    rewrite get_all_permissions_rows by (by apply backend_skips_none).
    unfold backend_rows. rewrite Hsu, Hid. simpl. rewrite granted_fresh by done.
    by rewrite set_map_empty, elements_empty.
Qed.

End Composition.

Lemma create_superuser_has_all_perms_witness :
  exists db' u, create_superuser true (PyStr "root@example.com") (PyStr "pw") ∅ "salt" db_empty = (db', Ok u) /\
  py_truthy (default (PyBool true) ((∅ : gmap string pyval) !! "is_active")) = true /\
  forall pdb perm obj app, has_perm pdb u perm obj = Ok true /\ has_module_perms pdb u app = Ok true.
Proof.
  eexists _, _. split; [compute_lhs; reflexivity|]. split; [reflexivity|].
  eapply (create_superuser_has_all_perms true (PyStr "root@example.com") (PyStr "pw") ∅ "salt" db_empty);
    [compute_lhs; reflexivity | reflexivity].
Defined.

Lemma create_user_no_perms_witness :
  exists db' u, create_user true (PyStr "ann@example.com") (PyStr "pw") ∅ "salt" db_empty = (db', Ok u) /\
  (∅ : gmap string pyval) !! "is_superuser" = None /\
  forall perm obj app,
    has_perm (mkPermDb {[("auth", "add_user")]} (<[7%Z := {[("auth", "add_user")]}]> ∅) ∅ ∅) u perm obj = Ok false /\
    has_module_perms (mkPermDb {[("auth", "add_user")]} (<[7%Z := {[("auth", "add_user")]}]> ∅) ∅ ∅) u app = Ok false.
Proof.
  eexists _, _. split; [compute_lhs; reflexivity|]. split; [reflexivity|].
  eapply (create_user_no_perms true (PyStr "ann@example.com") (PyStr "pw") ∅ "salt" db_empty);
    [compute_lhs; reflexivity | reflexivity..].
Defined.

Lemma has_module_perms_spec_witness :
  has_module_perms (mkPermDb ∅ (<[1%Z := {[("auth", "add_user")]}]> ∅) ∅ ∅)
    (mkUserAccount (Some 1%Z) (PyStr "") (PyStr "") (PyStr "") (PyStr "ann@example.com")
       (PyBool true) (PyBool false) (PyBool false) ∅) "auth" = Ok true.
Proof.
  rewrite (has_module_perms_spec _ _ 1%Z); [reflexivity | reflexivity |].
  apply set_Forall_elements. vm_compute. repeat constructor.
Defined.

End Perms.
