(* ===== verification/Spec.v ===== *)
(** * The spec's Account Factory, and what the code refines

    [spec.md] (sections 3, 4.1 and 8) describes an abstract store of
    accounts keyed by their email.  [create_account] fails with a
    validation error on an empty email and with a uniqueness error on a
    taken one.  Otherwise it adds an account with the lower-cased,
    normalised email, the names and flags of the extra fields (defaults
    [""], active, not admin, not superuser), and the password.
    [create_superuser] does the same and then sets [is_admin] and
    [is_superuser].

    [db_refines] relates a table to an abstract store: every row is the
    account stored under its email, and every account is some row.  The
    password column is related to the abstract password through
    [check_password].  The refinement theorem shows that [create_user]
    simulates [create_account] step for step, on typed extra fields,
    when the row fits its columns.  The exceptions match too:
    [ValueError] where the spec says validation error, [IntegrityError]
    where it says uniqueness error.  [create_superuser] does not refine
    the spec's [create_superuser]: [is_admin] is left false.

    A login relates the table to the same abstract store as before.
    This holds even when the login rewrites a password, because the new
    encoding accepts the same password.

    [reachable] is the step relation of the table under the manager's
    two operations and logins.  Rule induction shows every reachable
    table satisfies [db_wf] and holds only lower-case emails. *)

From S2P Require Import Prelude PyStr Hasher Model Store Manager Auth.
Import Model Store Manager.

Module AccountSpec.

Record Account := mkAccount {
  acc_email : string;
  acc_first_name : string;
  acc_last_name : string;
  acc_password : option string;
  acc_is_active : bool;
  acc_is_admin : bool;
  acc_is_superuser : bool
}.

Inductive SpecError := EValidation | EUniqueness.

(** The extra fields of the spec: each one given or absent. *)
Record Extras := mkExtras {
  x_first_name : option string;
  x_last_name : option string;
  x_is_active : option bool;
  x_is_admin : option bool;
  x_is_superuser : option bool
}.

(** No extra field given. *)
Definition no_extras : Extras := mkExtras None None None None None.

Section Spec.
(** The platform's email normaliser, which the spec leaves external. *)
Variable normalize : string -> string.

(** [create_account(email, password, extra_fields)], spec section 4.1. *)
Definition create_account (st : gmap string Account) (email : string) (password : option string)
    (x : Extras) : gmap string Account * (Account + SpecError) :=
  if decide (email = ""%string) then (st, inr EValidation)
  else
    let e := PyStr.lower (normalize email) in
    match st !! e with
    | Some _ => (st, inr EUniqueness)
    | None =>
        let a := mkAccount e (default "" (x_first_name x)) (default "" (x_last_name x)) password
                   (default true (x_is_active x)) (default false (x_is_admin x))
                   (default false (x_is_superuser x)) in
        (<[e := a]> st, inl a)
    end.

(** [create_superuser]: the same, then both flags set. *)
Definition create_superuser_spec (st : gmap string Account) (email : string) (password : option string)
    (x : Extras) : gmap string Account * (Account + SpecError) :=
  match create_account st email password x with
  | (st', inl a) =>
      let a' := mkAccount (acc_email a) (acc_first_name a) (acc_last_name a) (acc_password a)
                  (acc_is_active a) true true in
      (<[acc_email a := a']> st', inl a')
  | other => other
  end.

End Spec.

(** The keyword arguments that carry the extra fields. *)
Definition opt_insert (k : string) (o : option pyval) (m : gmap string pyval) : gmap string pyval :=
  match o with Some v => <[k := v]> m | None => m end.

Definition kwargs_of_extras (x : Extras) : gmap string pyval :=
  opt_insert "first_name" (PyStr <$> x_first_name x)
    (opt_insert "last_name" (PyStr <$> x_last_name x)
      (opt_insert "is_active" (PyBool <$> x_is_active x)
        (opt_insert "is_admin" (PyBool <$> x_is_admin x)
          (opt_insert "is_superuser" (PyBool <$> x_is_superuser x) ∅)))).

Definition pyval_of_password (pw : option string) : pyval :=
  match pw with Some p => PyStr p | None => PyNone end.

Section Refinement.
Context {HP : PasswordHasher}.
Variable enforce_len : bool.

(** A row stands for an account: same email, names and flags, and the
    stored hash accepts exactly the account's password. *)
Definition row_refines (r : Row) (a : Account) : Prop :=
  row_email r = acc_email a /\ row_first_name r = acc_first_name a /\
  row_last_name r = acc_last_name a /\ row_is_active r = acc_is_active a /\
  row_is_admin r = acc_is_admin a /\ row_is_superuser r = acc_is_superuser a /\
  forall q, Hashers.check_password (Some q) (row_password r) = bool_decide (acc_password a = Some q).

Definition db_refines (db : Db) (st : gmap string Account) : Prop :=
  (forall k r, db_rows db !! k = Some r -> exists a, st !! row_email r = Some a /\ row_refines r a) /\
  (forall e a, st !! e = Some a -> exists k r, db_rows db !! k = Some r /\ row_email r = e /\ row_refines r a).



(** ** Lemmas *)

Lemma kwargs_of_extras_typed (x : Extras) : kwargs_typed (kwargs_of_extras x).
Proof.
  destruct x as [f l a d su]. unfold kwargs_of_extras.
  destruct f, l, a, d, su; simpl;
    repeat (apply map_Forall_insert_2; [unfold kwarg_typed; simpl; eauto|]); apply map_Forall_empty.
Qed.

Lemma kwargs_of_extras_row (s : string) (pw : option string) (x : Extras) (rnd : string) :
  kw_str (kwargs_of_extras x) FFirstName = default "" (x_first_name x) /\
  kw_str (kwargs_of_extras x) FLastName = default "" (x_last_name x) /\
  kw_bool (kwargs_of_extras x) FIsActive true = default true (x_is_active x) /\
  kw_bool (kwargs_of_extras x) FIsAdmin false = default false (x_is_admin x) /\
  kw_bool (kwargs_of_extras x) FIsSuperuser false = default false (x_is_superuser x).
Proof. destruct x as [[] [] [] [] []]; split_and!; reflexivity. Qed.

Lemma password_ok_of (pw : option string) : password_ok (pyval_of_password pw).
Proof. destruct pw; [right; eauto | by left]. Qed.

Lemma check_enc_password (pw : option string) (rnd q : string) :
  Hashers.check_password (Some q) (enc_password (pyval_of_password pw) rnd) = bool_decide (pw = Some q).
Proof.
  destruct pw as [p|]; cbn [pyval_of_password enc_password].
  - rewrite Hashers.check_password_encode. apply bool_decide_ext. naive_solver.
  - apply Hashers.check_password_unusable.
Qed.

(** The expected row of typed arguments stands for the spec's account. *)
Lemma expected_row_refines (s : string) (pw : option string) (x : Extras) (rnd : string) :
  row_refines (expected_row s (pyval_of_password pw) (kwargs_of_extras x) rnd)
    (mkAccount (PyStr.lower (normalize_str s)) (default "" (x_first_name x)) (default "" (x_last_name x))
       pw (default true (x_is_active x)) (default false (x_is_admin x)) (default false (x_is_superuser x))).
Proof.
  destruct (kwargs_of_extras_row s pw x rnd) as (H1 & H2 & H3 & H4 & H5).
  unfold row_refines, expected_row; simpl. split_and!; try done. apply check_enc_password.
Qed.

(** Inserting a row under a fresh key with a fresh email keeps the
    relation, with the account inserted under that email. *)
Lemma db_refines_insert (db : Db) (st : gmap string Account) (r : Row) (a : Account) :
  db_wf enforce_len db -> db_refines db st -> st !! row_email r = None -> row_refines r a ->
  db_refines (mkDb (<[db_next_id db := r]> (db_rows db)) (db_next_id db + 1)) (<[row_email r := a]> st).
Proof.
  intros (_ & Hkeys & _) [Hrs Hsr] Hfresh Hra. split; simpl.
  - intros k r'. rewrite lookup_insert. case_decide.
    + intros [= <-]. exists a. by rewrite lookup_insert_eq.
    + intros Hk. destruct (Hrs k r' Hk) as (a' & Ha' & Hr'). exists a'. split; [|done].
      rewrite lookup_insert_ne; [done|]. congruence.
  - intros e a'. rewrite lookup_insert. case_decide as He.
    + intros [= <-]. exists (db_next_id db), r. by rewrite lookup_insert_eq.
    + intros Hs. destruct (Hsr e a' Hs) as (k & r' & Hk & Her & Hr').
      exists k, r'. split_and!; [|done|done]. rewrite lookup_insert_ne; [done|].
      specialize (Hkeys k r' Hk). lia.
Qed.




(** A row rewritten with a new encoding of the password its account
    has still stands for that account. *)
Lemma row_refines_rehash (r : Row) (a : Account) (p salt : string) :
  row_refines r a -> Hashers.check_password (Some p) (row_password r) = true ->
  row_refines (Auth.set_row_password r (hasher_encode p salt)) a.
Proof.
  intros (He & Hf & Hl & Hact & Had & Hsu & Hpw) Hchk. rewrite Hpw in Hchk.
  apply bool_decide_eq_true_1 in Hchk. unfold row_refines, Auth.set_row_password.
  cbn [row_password row_email row_first_name row_last_name row_is_active row_is_admin row_is_superuser].
  split_and!; try done.
  intros q. rewrite Hashers.check_password_encode, Hchk. apply bool_decide_ext. split; congruence.
Qed.

Lemma kwargs_of_extras_is_admin (x : Extras) :
  kwargs_of_extras x !! "is_admin" = PyBool <$> x_is_admin x.
Proof. by destruct x as [[] [] [] [] []]. Qed.

(** ** Properties *)


(** The step of the simulation for a non-empty email: the branch of
    the spec decides the outcome of [create_user]; the account the spec
    adds has the email of the instance the code returns. *)
Lemma create_user_step (db db' : Db) (st : gmap string Account) (s : string) (pw : option string)
    (x : Extras) (rnd : string) (res : result UserAccount) :
  s <> ""%string -> db_wf enforce_len db -> db_refines db st ->
  (enforce_len = true -> row_fits (expected_row s (pyval_of_password pw) (kwargs_of_extras x) rnd)) ->
  create_user enforce_len (PyStr s) (pyval_of_password pw) (kwargs_of_extras x) rnd db = (db', res) ->
  let '(st', sres) := create_account normalize_str st s pw x in
  db_refines db' st' /\
  match sres with
  | inl a => exists u, res = Ok u /\ email u = PyStr (acc_email a)
  | inr EValidation => False
  | inr EUniqueness =>
      db' = db /\ res = Raise (IntegrityError "UNIQUE constraint failed: users_useraccount.email")
  end.
Proof.
  intros Hs Hwf Href Hfit Hc. unfold create_account. rewrite decide_False by done.
  pose proof (kwargs_of_extras_typed x) as Ht. pose proof (password_ok_of pw) as Hpw.
  destruct (st !! PyStr.lower (normalize_str s)) as [a|] eqn:Hst.
  - destruct ((proj2 Href) _ _ Hst) as (k & r & Hk & He & _).
    rewrite (create_user_taken enforce_len s _ _ rnd db k r Hs Ht Hpw Hwf Hfit Hk He) in Hc.
    injection Hc as <- <-. done.
  - destruct (create_user_fresh enforce_len s (pyval_of_password pw) (kwargs_of_extras x) rnd db
                Hs Ht Hpw) as (u & Hu & _ & Hem); [|done|].
    { intros k r Hk He. destruct ((proj1 Href) k r Hk) as (a & Ha & _). congruence. }
    rewrite Hu in Hc. injection Hc as <- <-. split.
    + apply db_refines_insert; [done | done | done | apply expected_row_refines].
    + by exists u.
Qed.

(** C1: [create_user] refines the spec's [create_account].  Take a table
    related to an abstract store, with typed extra fields and a row that
    fits.  Both sides then take the same branch and stay related.  The
    spec's validation error is the [ValueError] of line 11.  Its
    uniqueness error is the database's [IntegrityError].  In both error
    cases the table is unchanged. *)
Theorem create_user_refines (db db' : Db) (st : gmap string Account) (s : string) (pw : option string)
    (x : Extras) (rnd : string) (res : result UserAccount) :
  db_wf enforce_len db -> db_refines db st ->
  (enforce_len = true -> row_fits (expected_row s (pyval_of_password pw) (kwargs_of_extras x) rnd)) ->
  create_user enforce_len (PyStr s) (pyval_of_password pw) (kwargs_of_extras x) rnd db = (db', res) ->
  let '(st', sres) := create_account normalize_str st s pw x in
  db_refines db' st' /\
  match sres with
  | inl _ => is_ok res = true
  | inr EValidation => db' = db /\ res = Raise (ValueError "Users must have an email address")
  | inr EUniqueness =>
      db' = db /\ res = Raise (IntegrityError "UNIQUE constraint failed: users_useraccount.email")
  end.
Proof.
  intros Hwf Href Hfit Hc. destruct (decide (s = ""%string)) as [->|Hs].
  - unfold create_account. rewrite decide_True by done.
    unfold create_user in Hc. simpl in Hc. injection Hc as <- <-. done.
  - pose proof (create_user_step db db' st s pw x rnd res Hs Hwf Href Hfit Hc) as Hstep.
    destruct (create_account normalize_str st s pw x) as [st' [a|[]]]; [| by destruct Hstep | exact Hstep].
    destruct Hstep as [Href' (u & -> & _)]. done.
Qed.

(** C9: [create_superuser] does not refine the spec's
    [create_superuser].  Take a table related to an abstract store and a
    call without an [is_admin] extra field.  When the call succeeds, the
    new table is related to no store the spec produces: the spec's
    account has [is_admin] true, and the row has it false. *)
Theorem create_superuser_breaks_spec (db db' : Db) (st : gmap string Account) (s : string)
    (pw : option string) (x : Extras) (rnd : string) (u : UserAccount) :
  db_wf enforce_len db -> db_refines db st -> x_is_admin x = None ->
  create_superuser enforce_len (PyStr s) (pyval_of_password pw) (kwargs_of_extras x) rnd db = (db', Ok u) ->
  ~ db_refines db' (create_superuser_spec normalize_str st s pw x).1.
Proof.
  intros Hwf Href Hadm Hc Hbad. rewrite create_superuser_unfold in Hc.
  destruct (create_user enforce_len _ _ _ rnd db) as [db1 [u0|e]] eqn:E; [|discriminate].
  destruct (superuser_resave enforce_len _ _ _ _ _ _ _ E) as (r & _ & Hr & Hsave).
  rewrite Hsave in Hc. injection Hc as <- _.
  pose proof E as E'. apply create_user_Ok in E' as (s' & u1 & r1 & [= <-] & Hs & _ & Hr1 & Hu0 & Ht & ->).
  apply create_user_Ok_stored in E as (s'' & r2 & [= <-] & _ & Hrows & He & _ & _ & Hadm2).
  rewrite kwargs_of_extras_is_admin, Hadm in Hadm2. injection Hadm2 as Hadm2.
  assert (r2 = r1) as ->.
  { apply (f_equal (lookup (db_next_id db))) in Hrows. simpl in Hrows.
    rewrite !lookup_insert_eq in Hrows. congruence. }
  assert (r = r1) as ->.
  { rewrite Hu0, (to_row_ext enforce_len (set_id u1 (db_next_id db)) u1) in Hr
      by apply get_field_set_id. congruence. }
  assert (Hst : st !! PyStr.lower (normalize_str s) = None).
  { destruct (st !! _) as [a|] eqn:Ha; [|done]. exfalso.
    destruct ((proj2 Href) _ _ Ha) as (k & r' & Hk & He' & _).
    destruct (decide (k = db_next_id db)) as [->|Hne].
    - destruct Hwf as (_ & Hkeys & _). specialize (Hkeys _ _ Hk). lia.
    - assert (email_taken (db_rows db) (db_next_id db) (row_email r1) = true); [|congruence].
      apply email_taken_spec. exists k, r'. by rewrite He, He'. }
  unfold create_superuser_spec, create_account in Hbad.
  rewrite decide_False, Hst in Hbad by done. simpl in Hbad.
  destruct Hbad as [Hrs _]. simpl in Hrs.
  destruct (Hrs (db_next_id db) (mkRow (row_password r1) (row_first_name r1) (row_last_name r1)
             (row_email r1) (row_is_active r1) (row_is_admin r1) true)) as (a & Ha & Hra).
  { apply lookup_insert_eq. }
  simpl in Ha. rewrite He, lookup_insert_eq in Ha. injection Ha as <-.
  destruct Hra as (_ & _ & _ & _ & Hadm' & _). simpl in Hadm'. congruence.
Qed.

(** C31: Logging in is invisible to the spec.  A table related to an
    abstract store stays related to the same store after any call of
    [authenticate], even when the call rewrites a password with a new
    encoding. *)
Theorem authenticate_refines (db db' : Db) (st : gmap string Account) (un pw : option string) (rnd : string)
    (res : result (option UserAccount)) :
  db_wf enforce_len db -> db_refines db st ->
  Auth.authenticate enforce_len un pw rnd db = (db', res) -> db_refines db' st.
Proof.
  intros Hwf [H1 H2] Ha. apply Auth.authenticate_db in Ha as [-> | (k & r & p & Hk & Hchk & _ & ->)]; [done|].
  split; simpl.
  - intros k' r'. rewrite lookup_insert. case_decide as Hkk; [|apply H1].
    intros [= <-]. subst k'. destruct (H1 k r Hk) as (a & Hst & Hra).
    exists a. split; [done|]. by apply row_refines_rehash.
  - intros e a Hea. destruct (H2 e a Hea) as (k' & r' & Hk' & He & Hra).
    destruct (decide (k' = k)) as [->|Hne].
    + rewrite Hk in Hk'. injection Hk' as <-. exists k, (Auth.set_row_password r (hasher_encode p rnd)).
      split_and!; [apply lookup_insert_eq | done | by apply row_refines_rehash].
    + exists k', r'. by rewrite lookup_insert_ne by congruence.
Qed.

End Refinement.

(** ** Witnesses, with the [plain_hasher] instance *)

Lemma db_refines_empty `{PasswordHasher} : db_refines db_empty ∅.
Proof.
  split; [intros k r Hk; simpl in Hk; by rewrite lookup_empty in Hk
         | intros e a Ha; by rewrite lookup_empty in Ha].
Qed.


Lemma create_user_refines_witness :
  exists db' res,
    create_user true (PyStr "Ada@Example.com") (PyStr "pw") (kwargs_of_extras no_extras) "salt" db_empty =
      (db', res) /\
    let '(st', sres) := create_account normalize_str ∅ "Ada@Example.com" (Some "pw"%string) no_extras in
    db_refines db' st' /\
    match sres with
    | inl _ => is_ok res = true
    | inr EValidation => db' = db_empty /\ res = Raise (ValueError "Users must have an email address")
    | inr EUniqueness =>
        db' = db_empty /\ res = Raise (IntegrityError "UNIQUE constraint failed: users_useraccount.email")
    end.
Proof.
  eexists _, _. split; [compute_lhs; reflexivity|].
  refine (create_user_refines true db_empty _ ∅ "Ada@Example.com" (Some "pw"%string) no_extras "salt" _
            _ db_refines_empty _ _); [apply db_empty_wf | intros _; vm_compute; lia |].
  compute_lhs; reflexivity.
Defined.

Lemma create_superuser_breaks_spec_witness :
  exists db' u,
    create_superuser true (PyStr "root@example.com") (PyStr "pw") (kwargs_of_extras no_extras) "salt" db_empty =
      (db', Ok u) /\
    ~ db_refines db' (create_superuser_spec normalize_str ∅ "root@example.com" (Some "pw"%string) no_extras).1.
Proof.
  eexists _, _. split; [compute_lhs; reflexivity|].
  refine (create_superuser_breaks_spec true db_empty _ ∅ "root@example.com" (Some "pw"%string) no_extras
            "salt" _ _ db_refines_empty eq_refl _); [apply db_empty_wf|].
  compute_lhs; reflexivity.
Defined.

Lemma authenticate_refines_witness :
  exists db' res,
    Auth.authenticate true (Some "ada@example.com"%string) (Some "pw"%string) "salt" db_empty = (db', res) /\
    db_refines db' ∅.
Proof.
  eexists _, _. split; [compute_lhs; reflexivity|].
  refine (authenticate_refines true db_empty _ ∅ (Some "ada@example.com"%string) (Some "pw"%string) "salt" _
            (db_empty_wf true) db_refines_empty _).
  compute_lhs; reflexivity.
Defined.

End AccountSpec.
