(* ===== verification/Trace.v ===== *)
(** * Sequences of calls: the table simulates the spec's store

    A client of the account code makes a sequence of calls: it registers
    accounts through [create_user] and logs in through [authenticate].
    [run_impl] runs such a sequence on the table.  [run_spec] runs it on
    the spec's abstract store.  There a registration is
    [create_account], and a login is [spec_login]: the
    [checkPassword] of spec section 7, reached through the login
    identifier, and gated by [is_active] as section 3 says.

    The theorem shows the two stay related along every sequence whose
    rows fit their columns.  The table stays well formed and refines the
    store.  Every call has the outcome the spec gives it: the same
    account (by its email), [None], or the exception that stands for the
    spec's error.  Logins write nothing on such tables: no row holds an
    encoding that needs an update ([hashes_current]). *)

From S2P Require Import Prelude PyStr Hasher Model Store Manager Auth Spec.
Import Model Store Manager AccountSpec.

Module Trace.

Inductive Call :=
| Register (email : string) (password : option string) (x : Extras) (rnd : string)
| Login (username password : option string) (rnd : string).

(** What the spec answers a call. *)
Inductive SpecOutcome :=
| SAccount (a : option Account)
| SError (e : SpecError).

(** The account stored under the email, when it is active and its
    password is the one given. *)
Definition spec_login (st : gmap string Account) (un pw : option string) : option Account :=
  match un, pw with
  | Some e, Some p =>
      match st !! e with
      | Some a => if bool_decide (acc_password a = Some p) && acc_is_active a then Some a else None
      | None => None
      end
  | _, _ => None
  end.

Definition spec_call (c : Call) (st : gmap string Account) : gmap string Account * SpecOutcome :=
  match c with
  | Register s pw x _ =>
      let '(st', r) := create_account normalize_str st s pw x in
      (st', match r with inl a => SAccount (Some a) | inr e => SError e end)
  | Login un pw _ => (st, SAccount (spec_login st un pw))
  end.

Fixpoint run_spec (cs : list Call) (st : gmap string Account) : gmap string Account * list SpecOutcome :=
  match cs with
  | [] => (st, [])
  | c :: cs' => let '(st1, o) := spec_call c st in let '(st2, os) := run_spec cs' st1 in (st2, o :: os)
  end.

(** An outcome of the code stands for an outcome of the spec: the same
    account, [None], or the exception of the spec's error. *)
Definition outcome_match (o : result (option UserAccount)) (so : SpecOutcome) : Prop :=
  match o, so with
  | Ok (Some u), SAccount (Some a) => email u = PyStr (acc_email a)
  | Ok None, SAccount None => True
  | Raise e, SError EValidation => e = ValueError "Users must have an email address"
  | Raise e, SError EUniqueness => e = IntegrityError "UNIQUE constraint failed: users_useraccount.email"
  | _, _ => False
  end.

Section Run.
Context {HP : PasswordHasher}.
Variable enforce_len : bool.

(** One call on the table: [create_user] with the extra fields as
    keyword arguments, or [authenticate]. *)
Definition impl_call (c : Call) : stE Db (option UserAccount) :=
  match c with
  | Register s pw x rnd =>
      u <~ create_user enforce_len (PyStr s) (pyval_of_password pw) (kwargs_of_extras x) rnd ;;
      st_ret (Some u)
  | Login un pw rnd => Auth.authenticate enforce_len un pw rnd
  end.

Fixpoint run_impl (cs : list Call) (db : Db) : Db * list (result (option UserAccount)) :=
  match cs with
  | [] => (db, [])
  | c :: cs' => let '(db1, o) := impl_call c db in let '(db2, os) := run_impl cs' db1 in (db2, o :: os)
  end.

(** The row a registration writes fits its columns on a backend that
    enforces lengths. *)
Definition call_fits (c : Call) : Prop :=
  match c with
  | Register s pw x rnd =>
      enforce_len = true -> row_fits (expected_row s (pyval_of_password pw) (kwargs_of_extras x) rnd)
  | Login _ _ _ => True
  end.

(** No stored encoding asks to be updated. *)
Definition hashes_current (db : Db) : Prop :=
  forall k r q, db_rows db !! k = Some r -> (Hashers.verify_password (Some q) (row_password r)).2 = false.

(** The invariant of the simulation. *)
Definition sim (db : Db) (st : gmap string Account) : Prop :=
  db_wf enforce_len db /\ db_refines db st /\ hashes_current db.

(** ** Lemmas *)

Lemma enc_password_current (pw : option string) (rnd q : string) :
  (Hashers.verify_password (Some q) (enc_password (pyval_of_password pw) rnd)).2 = false.
Proof.
  destruct pw as [p|]; cbn [pyval_of_password enc_password]; [by rewrite Hashers.verify_password_encode|].
  by rewrite Hashers.verify_password_unusable.
Qed.

(** A login on a related table writes nothing and answers as
    [spec_login]. *)
Lemma login_sim (db db' : Db) (st : gmap string Account) (un pw : option string) (rnd : string) o :
  sim db st -> Auth.authenticate enforce_len un pw rnd db = (db', o) ->
  db' = db /\ outcome_match o (SAccount (spec_login st un pw)).
Proof.
  intros (Hwf & Href & Hcur) Ha.
  destruct un as [e|], pw as [p|]; try (injection Ha as <- <-; done).
  simpl. destruct (st !! e) as [a|] eqn:Hst.
  - destruct ((proj2 Href) e a Hst) as (k & r & Hk & <- & He & Hf & Hl & Hact & Had & Hsu & Hpw).
    rewrite (Auth.authenticate_row enforce_len db k r p rnd Hwf Hk (Hcur k r p Hk)) in Ha.
    rewrite Hpw, Hact in Ha. injection Ha as <- <-. split; [done|].
    destruct (bool_decide (acc_password a = Some p) && acc_is_active a); simpl; [by rewrite He|done].
  - unfold Auth.authenticate, Auth.get_by_natural_key in Ha.
    rewrite Auth.rows_with_email_none in Ha; [injection Ha as <- <-; done|].
    intros k r Hk He. destruct ((proj1 Href) k r Hk) as (a & Ha' & _). congruence.
Qed.

(** A registration on a related table keeps the invariant and answers
    as [create_account]. *)
Lemma register_sim (db db' : Db) (st : gmap string Account) (s : string) (pw : option string)
    (x : Extras) (rnd : string) o :
  sim db st -> call_fits (Register s pw x rnd) -> impl_call (Register s pw x rnd) db = (db', o) ->
  let '(st', so) := spec_call (Register s pw x rnd) st in sim db' st' /\ outcome_match o so.
Proof.
  intros (Hwf & Href & Hcur) Hfit Hc. cbn [spec_call].
  destruct (create_user enforce_len (PyStr s) (pyval_of_password pw) (kwargs_of_extras x) rnd db)
    as [db1 res] eqn:Hcu.
  assert (Hc' : (db', o) = (db1, match res with Ok u => Ok (Some u) | Raise e => Raise e end)).
  { rewrite <- Hc. unfold impl_call, st_bind. rewrite Hcu. by destruct res. }
  clear Hc. injection Hc' as -> ->.
  assert (Hwf1 : db_wf enforce_len db1) by (eapply create_user_wf; eauto).
  destruct (decide (s = ""%string)) as [->|Hs].
  - unfold create_user in Hcu. simpl in Hcu. injection Hcu as <- <-. done.
  - pose proof (create_user_step enforce_len db db1 st s pw x rnd res Hs Hwf Href Hfit Hcu) as Hstep.
    destruct (create_account normalize_str st s pw x) as [st' [a|[]]].
    + destruct Hstep as [Href' (u & -> & Hem)]. split; [|exact Hem]. split_and!; [done | done |].
      apply create_user_Ok_stored in Hcu as (s' & r & _ & _ & Hrows & _ & Hp & _).
      intros k r' q. rewrite Hrows, lookup_insert. case_decide; [intros [= <-]; rewrite Hp|].
      * apply enc_password_current.
      * by apply Hcur.
    + by destruct Hstep.
    + destruct Hstep as [Href' [-> ->]]. split; [by split_and! | done].
Qed.

(** ** Properties *)

(** C34: Along any sequence of registrations and logins whose rows fit
    their columns, starting from a table related to an abstract store,
    the table stays well formed and related to the store the spec
    reaches, and each call's outcome is the one the spec gives.  This is
    the simulation of the spec's Account Factory and login by the code,
    over call sequences. *)
Theorem run_refines (cs : list Call) (db : Db) (st : gmap string Account) :
  sim db st -> Forall call_fits cs ->
  let '(db', os) := run_impl cs db in
  let '(st', sos) := run_spec cs st in
  sim db' st' /\ Forall2 outcome_match os sos.
Proof.
  intros Hsim Hfits. revert db st Hsim. induction Hfits as [|c cs Hfit _ IH]; intros db st Hsim; [done|].
  simpl. destruct (impl_call c db) as [db1 o] eqn:Hc. destruct (spec_call c st) as [st1 so] eqn:Hs.
  assert (Hstep : sim db1 st1 /\ outcome_match o so).
  { destruct c as [s pw x rnd|un pw rnd].
    - pose proof (register_sim db db1 st s pw x rnd o Hsim Hfit Hc) as H. by rewrite Hs in H.
    - simpl in Hs. injection Hs as <- <-. destruct (login_sim db db1 st un pw rnd o Hsim Hc) as [-> Ho].
      by split. }
  destruct Hstep as [Hsim1 Ho]. specialize (IH db1 st1 Hsim1).
  destruct (run_impl cs db1) as [db2 os]. destruct (run_spec cs st1) as [st2 sos].
  destruct IH as [Hsim2 Hos]. split; [done | by constructor].
Qed.

End Run.

Lemma sim_empty `{PasswordHasher} (enforce_len : bool) : sim enforce_len db_empty ∅.
Proof.
  split_and!; [apply db_empty_wf | apply db_refines_empty |].
  intros k r q Hk. simpl in Hk. by rewrite lookup_empty in Hk.
Qed.

(** Three registrations and three logins from the empty table, with the
    [plain_hasher]: an account, a duplicate in other case, an empty
    email, a right and a wrong password, and an unknown user. *)
Lemma run_refines_witness :
  let cs := [Register "Ada@Example.com" (Some "pw"%string) no_extras "s1";
             Register "ADA@example.com" None no_extras "s2";
             Register "" None no_extras "s3";
             Login (Some "ada@example.com"%string) (Some "pw"%string) "s4";
             Login (Some "ada@example.com"%string) (Some "nope"%string) "s5";
             Login (Some "bob@example.com"%string) (Some "pw"%string) "s6"] in
  Forall (call_fits true) cs /\
  let '(db', os) := run_impl true cs db_empty in
  let '(st', sos) := run_spec cs ∅ in
  sim true db' st' /\ Forall2 outcome_match os sos.
Proof.
  intros cs. assert (Hf : Forall (call_fits true) cs).
  { repeat constructor; intros _; unfold row_fits; vm_compute; lia. }
  split; [exact Hf | exact (run_refines true cs db_empty ∅ (sim_empty true) Hf)].
Defined.

End Trace.
