(* ===== verification/PermCache.v ===== *)
(** * The permission caches of [ModelBackend]

    [ModelBackend] keeps what it reads on the user instance.
    [_get_permissions] stores the names it computes in
    [_user_perm_cache] or [_group_perm_cache].  [get_all_permissions]
    stores their union in [_perm_cache].  Each attribute is read back
    whenever [hasattr] finds it.  The record [PermCache] is these three
    attributes of one instance; [None] stands for an attribute not yet
    set.  The cached operations thread it through [stE PermCache], next
    to the uncached [Perms] operations they refine.

    The theorems show two things.  Caching is transparent while the
    tables do not change: any sequence of checks on one instance answers
    as the uncached checks do.  Once a check has filled [_perm_cache],
    the instance answers from it: a permission granted or revoked later
    in the tables is not seen until the instance is fetched again. *)

From S2P Require Import Prelude PyStr Hasher Model Store Manager Auth Perms.
Import Model Store Perms.

Module PermCache.

(** The cache attributes of one [UserAccount] instance. *)
Record PermCache := mkPermCache {
  user_perm_cache : option (gset string);
  group_perm_cache : option (gset string);
  perm_cache : option (gset string)
}.

(** An instance fresh from a query has none of the attributes. *)
Definition no_cache : PermCache := mkPermCache None None None.

(** [getattr(user_obj, "_%s_perm_cache" % from_name)]. *)
Definition src_cache (src : PermSource) (c : PermCache) : option (gset string) :=
  match src with FromUser => user_perm_cache c | FromGroup => group_perm_cache c end.

(** [setattr(user_obj, "_%s_perm_cache" % from_name, perms)]. *)
Definition set_src_cache (src : PermSource) (c : PermCache) (ps : gset string) : PermCache :=
  match src with
  | FromUser => mkPermCache (Some ps) (group_perm_cache c) (perm_cache c)
  | FromGroup => mkPermCache (user_perm_cache c) (Some ps) (perm_cache c)
  end.

(** [ModelBackend._get_permissions]: past the guard, the cached names,
    or the names [Perms.get_permissions] reads, stored before they are
    returned.  A lookup that raises stores nothing. *)
Definition get_permissions_c (pdb : PermDb) (u : UserAccount) (obj : pyval) (src : PermSource)
    : stE PermCache (gset string) :=
  fun c =>
    if backend_skips u obj then (c, Ok ∅)
    else match src_cache src c with
         | Some ps => (c, Ok ps)
         | None =>
             match get_permissions pdb u obj src with
             | Ok ps => (set_src_cache src c ps, Ok ps)
             | Raise e => (c, Raise e)
             end
         end.

(** [ModelBackend.get_all_permissions]: past the guard, [_perm_cache],
    or [BaseBackend.get_all_permissions(user_obj)] (user names, then
    group names, with [obj=None]) stored in [_perm_cache]. *)
Definition get_all_permissions_c (pdb : PermDb) (u : UserAccount) (obj : pyval)
    : stE PermCache (gset string) :=
  fun c =>
    if backend_skips u obj then (c, Ok ∅)
    else match perm_cache c with
         | Some ps => (c, Ok ps)
         | None =>
             (up <~ get_permissions_c pdb u PyNone FromUser ;;
              gp <~ get_permissions_c pdb u PyNone FromGroup ;;
              fun c' => (mkPermCache (user_perm_cache c') (group_perm_cache c') (Some (up ∪ gp)),
                         Ok (up ∪ gp))) c
         end.

(** [ModelBackend.has_perm]. *)
Definition backend_has_perm_c (pdb : PermDb) (u : UserAccount) (perm : string) (obj : pyval)
    : stE PermCache bool :=
  if py_truthy (is_active u) then
    ps <~ get_all_permissions_c pdb u obj ;; st_ret (bool_decide (perm ∈ ps))
  else st_ret false.

(** [PermissionsMixin.has_perm] on an instance carrying its caches. *)
Definition has_perm_c (pdb : PermDb) (u : UserAccount) (perm : string) (obj : pyval)
    : stE PermCache bool :=
  if active_superuser u then st_ret true else backend_has_perm_c pdb u perm obj.

(** [PermissionsMixin.has_perms], stopping at the first [False]. *)
Fixpoint has_perms_c (pdb : PermDb) (u : UserAccount) (perm_list : list string) (obj : pyval)
    : stE PermCache bool :=
  match perm_list with
  | [] => st_ret true
  | p :: l => b <~ has_perm_c pdb u p obj ;; if b then has_perms_c pdb u l obj else st_ret false
  end.

(** [PermissionsMixin.has_module_perms] with [ModelBackend.has_module_perms]. *)
Definition has_module_perms_c (pdb : PermDb) (u : UserAccount) (app : string) : stE PermCache bool :=
  if active_superuser u then st_ret true
  else if py_truthy (is_active u) then
    ps <~ get_all_permissions_c pdb u PyNone ;; st_lift (any_module app (elements ps))
  else st_ret false.

(** A permission check a client makes on the instance. *)
Inductive Query :=
| QPerm (perm : string) (obj : pyval)
| QPerms (perms : list string) (obj : pyval)
| QModule (app : string).

(** The check with the caches, and without. *)
Definition query_c (pdb : PermDb) (u : UserAccount) (q : Query) : stE PermCache bool :=
  match q with
  | QPerm p obj => has_perm_c pdb u p obj
  | QPerms l obj => has_perms_c pdb u l obj
  | QModule app => has_module_perms_c pdb u app
  end.

Definition query (pdb : PermDb) (u : UserAccount) (q : Query) : result bool :=
  match q with
  | QPerm p obj => has_perm pdb u p obj
  | QPerms l obj => has_perms pdb u l obj
  | QModule app => has_module_perms pdb u app
  end.

(** A sequence of checks on one instance, each seeing the caches the
    previous ones left. *)
Fixpoint run_queries_c (pdb : PermDb) (u : UserAccount) (qs : list Query) (c : PermCache)
    : PermCache * list (result bool) :=
  match qs with
  | [] => (c, [])
  | q :: qs' =>
      let '(c1, r) := query_c pdb u q c in
      let '(c2, rs) := run_queries_c pdb u qs' c1 in (c2, r :: rs)
  end.

(** ** Vocabulary of the theorems *)

(** The names a source yields for the user, guard aside. *)
Definition source_names (pdb : PermDb) (u : UserAccount) (src : PermSource) : result (gset string) :=
  get_permissions pdb (set_field u FIsActive (PyBool true)) PyNone src.

(** Every attribute set holds what the tables give now. *)
Definition coherent (pdb : PermDb) (u : UserAccount) (c : PermCache) : Prop :=
  (forall src ps, src_cache src c = Some ps -> source_names pdb u src = Ok ps) /\
  (forall ps, perm_cache c = Some ps ->
     (up <- source_names pdb u FromUser ;; gp <- source_names pdb u FromGroup ;; Ok (up ∪ gp)) = Ok ps).

(** A cached computation answers [r] from every coherent cache, and
    leaves the cache coherent. *)
Definition transparent {A} (pdb : PermDb) (u : UserAccount) (m : stE PermCache A) (r : result A) : Prop :=
  forall c c' r', coherent pdb u c -> m c = (c', r') -> r' = r /\ coherent pdb u c'.

(** ** Lemmas *)

Section Transparency.
Variables (pdb : PermDb) (u : UserAccount).

Lemma no_cache_coherent : coherent pdb u no_cache.
Proof. split; [by intros [] | done]. Qed.

Lemma transparent_ret {A} (a : A) : transparent pdb u (st_ret a) (Ok a).
Proof. intros c c' r' Hc [= <- <-]. done. Qed.

Lemma transparent_lift {A} (r : result A) : transparent pdb u (st_lift r) r.
Proof. intros c c' r' Hc [= <- <-]. done. Qed.

Lemma transparent_bind {A B} (m : stE PermCache A) (r : result A) (k : A -> stE PermCache B)
    (k' : A -> result B) :
  transparent pdb u m r -> (forall a, r = Ok a -> transparent pdb u (k a) (k' a)) ->
  transparent pdb u (st_bind m k) (bind r k').
Proof.
  intros Hm Hk c c'' r'' Hc Hb. apply st_bind_inv in Hb as [(c' & a & Hma & Hka) | (e & Hme & ->)].
  - destruct (Hm c c' (Ok a) Hc Hma) as [<- Hc']. exact (Hk a eq_refl c' c'' r'' Hc' Hka).
  - destruct (Hm c c'' (Raise e) Hc Hme) as [<- Hc']. done.
Qed.

(** The guard of the backend reads [is_active] and [obj] only. *)
Lemma get_permissions_source (obj : pyval) (src : PermSource) :
  backend_skips u obj = false -> get_permissions pdb u obj src = source_names pdb u src.
Proof.
  unfold source_names, get_permissions. intros ->.
  replace (backend_skips (set_field u FIsActive (PyBool true)) PyNone) with false by by destruct u.
  by destruct u, src.
Qed.

Lemma backend_skips_obj (obj : pyval) : backend_skips u obj = false -> obj = PyNone.
Proof.
  unfold backend_skips, obj_none. rewrite orb_false_iff. intros [_ H].
  by apply negb_false_iff, bool_decide_eq_true in H.
Qed.

Lemma get_permissions_c_transparent (obj : pyval) (src : PermSource) :
  transparent pdb u (get_permissions_c pdb u obj src) (get_permissions pdb u obj src).
Proof.
  intros c c' r' Hc. unfold get_permissions_c.
  destruct (backend_skips u obj) eqn:Hsk; [intros [= <- <-]; unfold get_permissions; by rewrite Hsk|].
  rewrite get_permissions_source by done.
  destruct (src_cache src c) as [ps|] eqn:Hsc; [intros [= <- <-]; split; [symmetry; by apply Hc | done]|].
  destruct (source_names pdb u src) as [ps|e] eqn:Hn; intros [= <- <-]; [|done].
  split; [done|]. destruct Hc as [Hsrc Hall]. split; [|by destruct src].
  intros src' ps'. destruct src, src'; simpl in *; try (intros [= <-]; done);
    [apply (Hsrc FromGroup) | apply (Hsrc FromUser)].
Qed.

(** Past the guard, [Perms.get_all_permissions] unites the names of the
    two sources. *)
Lemma get_all_permissions_source (obj : pyval) :
  backend_skips u obj = false ->
  get_all_permissions pdb u obj =
    (up <- source_names pdb u FromUser ;; gp <- source_names pdb u FromGroup ;; Ok (up ∪ gp)).
Proof.
  intros Hsk. unfold get_all_permissions. rewrite Hsk, !get_permissions_source by done. reflexivity.
Qed.

Lemma get_all_permissions_c_transparent (obj : pyval) :
  transparent pdb u (get_all_permissions_c pdb u obj) (get_all_permissions pdb u obj).
Proof.
  intros c c' r' Hc. unfold get_all_permissions_c.
  destruct (backend_skips u obj) eqn:Hsk;
    [intros [= <- <-]; by rewrite get_all_permissions_skip|].
  rewrite get_all_permissions_source by done.
  destruct (perm_cache c) as [ps|] eqn:Hpc; [intros [= <- <-]; split; [symmetry; by apply Hc | done]|].
  rewrite (backend_skips_obj obj Hsk) in Hsk. intros Hm.
  refine (_ c c' r' Hc Hm). rewrite <- !(get_permissions_source PyNone) by done.
  apply transparent_bind; [apply get_permissions_c_transparent|]. intros up Hup.
  apply transparent_bind; [apply get_permissions_c_transparent|]. intros gp Hgp.
  intros c1 c2 r2 [Hsrc _] [= <- <-]. split; [done|]. split; [apply Hsrc|].
  intros ps [= <-]. rewrite <- !(get_permissions_source PyNone), Hup, Hgp by done. reflexivity.
Qed.

Lemma has_perm_c_transparent (perm : string) (obj : pyval) :
  transparent pdb u (has_perm_c pdb u perm obj) (has_perm pdb u perm obj).
Proof.
  unfold has_perm_c, has_perm, backend_has_perm_c, backend_has_perm.
  destruct (active_superuser u); [apply transparent_ret|].
  destruct (py_truthy (is_active u)); [|apply transparent_ret].
  apply transparent_bind; [apply get_all_permissions_c_transparent|]. intros ps _. apply transparent_ret.
Qed.

Lemma has_perms_c_transparent (l : list string) (obj : pyval) :
  transparent pdb u (has_perms_c pdb u l obj) (has_perms pdb u l obj).
Proof.
  induction l as [|p l IH]; [apply transparent_ret|]. simpl.
  apply transparent_bind; [apply has_perm_c_transparent|]. intros [] _; [exact IH | apply transparent_ret].
Qed.

Lemma has_module_perms_c_transparent (app : string) :
  transparent pdb u (has_module_perms_c pdb u app) (has_module_perms pdb u app).
Proof.
  unfold has_module_perms_c, has_module_perms, backend_has_module_perms.
  destruct (active_superuser u); [apply transparent_ret|].
  destruct (py_truthy (is_active u)); [|apply transparent_ret].
  apply transparent_bind; [apply get_all_permissions_c_transparent|]. intros ps _. apply transparent_lift.
Qed.

Lemma query_c_transparent (q : Query) : transparent pdb u (query_c pdb u q) (query pdb u q).
Proof.
  destruct q; [apply has_perm_c_transparent | apply has_perms_c_transparent | apply has_module_perms_c_transparent].
Qed.

(** Once [_perm_cache] is set, [get_all_permissions] answers from it and
    reads no table. *)
Lemma get_all_permissions_c_cached (pdb' : PermDb) (obj : pyval) (c : PermCache) (ps : gset string) :
  perm_cache c = Some ps -> get_all_permissions_c pdb' u obj c = get_all_permissions_c pdb u obj c.
Proof. unfold get_all_permissions_c. intros ->. reflexivity. Qed.

(** A lookup past the guard that returns sets [_perm_cache]. *)
Lemma get_all_permissions_c_fills (obj : pyval) (c c' : PermCache) (ps : gset string) :
  backend_skips u obj = false -> get_all_permissions_c pdb u obj c = (c', Ok ps) -> perm_cache c' = Some ps.
Proof.
  unfold get_all_permissions_c. intros ->. destruct (perm_cache c) as [ps'|] eqn:Hpc; [by intros [= <- <-]|].
  intros Hb. apply st_bind_inv in Hb as [(c1 & up & _ & Hb) | (e & _ & ?)]; [|done].
  apply st_bind_inv in Hb as [(c2 & gp & _ & Hb) | (e & _ & ?)]; [|done].
  by injection Hb as <- <-.
Qed.

End Transparency.

(** ** Properties *)

(** C35: Caching is transparent while the tables do not change.  From
    an instance whose cache attributes agree with the tables (a fresh
    instance has none), any sequence of [has_perm], [has_perms] and
    [has_module_perms] calls answers, call by call, exactly as the
    uncached checks of [Perms] do, exceptions included, and leaves
    caches that still agree with the tables. *)
Theorem run_queries_transparent (pdb : PermDb) (u : UserAccount) (qs : list Query) (c : PermCache) :
  coherent pdb u c ->
  let '(c', rs) := run_queries_c pdb u qs c in rs = query pdb u <$> qs /\ coherent pdb u c'.
Proof.
  revert c. induction qs as [|q qs IH]; intros c Hc; [done|]. simpl.
  destruct (query_c pdb u q c) as [c1 r] eqn:Hq.
  destruct (query_c_transparent pdb u q c c1 r Hc Hq) as [-> Hc1].
  specialize (IH c1 Hc1). destruct (run_queries_c pdb u qs c1) as [c2 rs]. destruct IH as [-> Hc2]. done.
Qed.

(** C36: An active user who is not a superuser, once a [has_perm]
    check with no object has returned, answers every later
    [has_perm] and [has_module_perms] from [_perm_cache].  Whatever the
    permission tables become ([pdb']), the instance answers as it did
    with the tables it first read ([pdb]).  A permission granted or
    revoked afterwards is not seen until the instance is fetched again. *)
Theorem perm_cache_stale (pdb pdb' : PermDb) (u : UserAccount) (c c' : PermCache) (perm : string) (b : bool) :
  py_truthy (is_active u) = true -> active_superuser u = false ->
  has_perm_c pdb u perm PyNone c = (c', Ok b) ->
  forall perm' obj' app,
    has_perm_c pdb' u perm' obj' c' = has_perm_c pdb u perm' obj' c' /\
    has_module_perms_c pdb' u app c' = has_module_perms_c pdb u app c'.
Proof.
  intros Ha Hsu Hc perm' obj' app.
  unfold has_perm_c, backend_has_perm_c in Hc. rewrite Hsu, Ha in Hc.
  apply st_bind_inv in Hc as [(c1 & ps & Hg & Hret) | (e & _ & ?)]; [|done].
  injection Hret as <- _.
  pose proof (get_all_permissions_c_fills pdb u PyNone c c1 ps (backend_skips_none u Ha) Hg) as Hps.
  unfold has_perm_c, has_module_perms_c, backend_has_perm_c. rewrite Hsu, Ha. unfold st_bind. cbv beta.
  by rewrite !(get_all_permissions_c_cached pdb u pdb' _ c1 ps Hps).
Qed.

(** Five checks on a fresh instance of an active user holding one
    permission: a permission, a module, a list, an object, an unknown
    permission. *)
Lemma run_queries_transparent_witness :
  let u := mkUserAccount (Some 1%Z) (PyStr "") (PyStr "") (PyStr "") (PyStr "ann@example.com")
             (PyBool true) (PyBool false) (PyBool false) ∅ in
  let pdb := mkPermDb {[("auth", "add_user"); ("auth", "view_user")]}
               {[1%Z := {[("auth", "add_user")]}]} ∅ ∅ in
  let qs := [QPerm "auth.add_user" PyNone; QModule "auth"; QPerms ["auth.add_user"; "auth.view_user"] PyNone;
             QPerm "auth.add_user" (PyInt 3); QPerm "auth.view_user" PyNone] in
  coherent pdb u no_cache /\
  let '(c', rs) := run_queries_c pdb u qs no_cache in rs = query pdb u <$> qs /\ coherent pdb u c'.
Proof.
  intros u pdb qs. split; [apply no_cache_coherent|].
  exact (run_queries_transparent pdb u qs no_cache (no_cache_coherent pdb u)).
Defined.

(** The user with key 1 is asked for [auth.add_user] while the tables
    grant nothing.  The permission is then granted: the instance still
    answers [False], where the uncached check answers [True]. *)
Lemma perm_cache_stale_witness :
  let u := mkUserAccount (Some 1%Z) (PyStr "") (PyStr "") (PyStr "") (PyStr "ann@example.com")
             (PyBool true) (PyBool false) (PyBool false) ∅ in
  let pdb := mkPermDb {[("auth", "add_user")]} ∅ ∅ ∅ in
  let pdb' := mkPermDb {[("auth", "add_user")]} {[1%Z := {[("auth", "add_user")]}]} ∅ ∅ in
  let c' := fst (has_perm_c pdb u "auth.add_user" PyNone no_cache) in
  has_perm_c pdb u "auth.add_user" PyNone no_cache = (c', Ok false) /\
  has_perm_c pdb' u "auth.add_user" PyNone c' = (c', Ok false) /\
  has_perm pdb' u "auth.add_user" PyNone = Ok true.
Proof.
  intros u pdb pdb' c'.
  assert (H1 : has_perm_c pdb u "auth.add_user" PyNone no_cache = (c', Ok false)) by (vm_compute; reflexivity).
  split; [exact H1|]. split; [|vm_compute; reflexivity].
  rewrite (proj1 (perm_cache_stale pdb pdb' u no_cache c' "auth.add_user" false eq_refl eq_refl H1
                    "auth.add_user" PyNone "auth")).
  vm_compute; reflexivity.
Defined.

End PermCache.
