(* ===== verification/Conc.v ===== *)
(** * Concurrent requests that create accounts and log in

    Each request runs one manager call on the shared table.  Django runs
    every statement in its own transaction (autocommit), and the two
    methods of [src/users/models.py] open no transaction of their own.
    [create_user] issues one statement, the INSERT of its [save] (line
    23).  [create_superuser] issues two: the INSERT of the [create_user]
    it calls (line 30), and the UPDATE of its own [save] (line 38).
    Statements of other requests can run between these two.

    A [Thread] is a request between two of its statements:
    - about to run [create_user] or [create_superuser];
    - inside [create_superuser], after line 37 with its UPDATE still
      to run ([TSuperuserSave]);
    - returned ([TDone]);
    - a login ([ModelBackend.authenticate] of [Auth]) about to run its
      SELECT ([TLogin]), after a successful [check_password] that
      rehashed the password, with the UPDATE of [set_password]'s
      [save(update_fields=['password'])] still to run ([TLoginRehash]),
      or returned ([TLoginDone]).  [login_step] runs these statements.
    [thread_step] runs one statement of a thread together with the
    Python code around it.  [cstep] lets any thread run its next
    statement: every interleaving of the requests is a sequence of
    [cstep]s.

    The theorems cover every interleaving:
    - the table stays well formed, and every pending UPDATE of
      [create_superuser] will succeed;
    - every interleaving is finite;
    - no configuration is stuck before every request has returned;
    - the requests are serialisable: an interleaving that runs them all
      to their return ends as the serial execution [run_serial] of the
      whole calls, in the order they started, when every request is
      one of the manager's methods;
    - with a login beside them they are not: a login that reads the
      row between the INSERT and the UPDATE of [create_superuser]
      authenticates a user who is not a superuser, which no serial
      order produces ([login_breaks_serializability]).
    The serialisability proof is a simulation ([ser_rel]).  The serial execution
    runs a request whole at its first statement.  The interleaving's
    table, with the rows of the pending UPDATEs laid over it, is the
    serial table.  These UPDATEs commute with every other statement. *)

From S2P Require Import Prelude PyStr Hasher Model Store Manager Auth.
Import Model Store Manager.

Module Conc.

Section Threads.
Context {HP : PasswordHasher}.
Variable enforce_len : bool.

(** A request, between two of its database statements. *)
Inductive Thread :=
| TCreateUser (em password : pyval) (kwargs : gmap string pyval) (rnd : string)
| TCreateSuperuser (em password : pyval) (kwargs : gmap string pyval) (rnd : string)
| TSuperuserSave (user : UserAccount)
| TDone (r : result UserAccount)
| TLogin (username password : option string) (rnd : string)
| TLoginRehash (user : UserAccount)
| TLoginDone (r : result (option UserAccount)).

(** Lines 30-37: the [create_user] call, whose [save] is the INSERT,
    then the two assignments. *)
Definition create_superuser_insert (em password : pyval) (kwargs : gmap string pyval) (rnd : string)
    : stE Db UserAccount :=
  user <~ create_user enforce_len em password kwargs rnd ;;
  st_ret (superuser_flags user).

(** Lines 38-39: the UPDATE of [user.save()], then [return user]. *)
Definition create_superuser_update (user : UserAccount) : stE Db UserAccount :=
  user <~ save enforce_len user ;;
  st_ret user.

(** [ModelBackend.authenticate] as a request of two statements.  The
    first is the SELECT of [get_by_natural_key] with [check_password]
    after it.  The login returns then, unless the password is right and
    its encoding outdated: the setter has re-encoded it on the instance,
    and the UPDATE of the password column comes next.  After it, the
    instance is returned if it may authenticate. *)
Definition login_step (t : Thread) (db : Db) : option (Db * Thread) :=
  match t with
  | TLogin (Some un) (Some pw) rnd =>
      match Auth.get_by_natural_key db un with
      | Ok user =>
          match password user with
          | PyStr e =>
              match Hashers.verify_password (Some pw) e with
              | (true, true) =>
                  match set_password user (PyStr pw) rnd with
                  | Ok user' => Some (db, TLoginRehash (setattr user' "_password" PyNone))
                  | Raise err => Some (db, TLoginDone (Raise err))
                  end
              | (ok, _) =>
                  Some (db, TLoginDone (Ok (if ok && Auth.user_can_authenticate user then Some user else None)))
              end
          | _ => Some (db, TLoginDone (Ok None))
          end
      | Raise (DoesNotExist _) => Some (db, TLoginDone (Ok None))
      | Raise err => Some (db, TLoginDone (Raise err))
      end
  | TLogin _ _ _ => Some (db, TLoginDone (Ok None))
  | TLoginRehash user =>
      match Auth.save_password enforce_len user db with
      | (db', Ok _) => Some (db', TLoginDone (Ok (if Auth.user_can_authenticate user then Some user else None)))
      | (db', Raise err) => Some (db', TLoginDone (Raise err))
      end
  | _ => None
  end.

(** The next statement of a thread, with the Python code up to the
    statement after it.  A returned thread has none. *)
Definition thread_step (t : Thread) (db : Db) : option (Db * Thread) :=
  match t with
  | TCreateUser em pw kw rnd =>
      let '(db', r) := create_user enforce_len em pw kw rnd db in Some (db', TDone r)
  | TCreateSuperuser em pw kw rnd =>
      match create_superuser_insert em pw kw rnd db with
      | (db', Ok user) => Some (db', TSuperuserSave user)
      | (db', Raise e) => Some (db', TDone (Raise e))
      end
  | TSuperuserSave user =>
      let '(db', r) := create_superuser_update user db in Some (db', TDone r)
  | TDone _ | TLoginDone _ => None
  | TLogin _ _ _ | TLoginRehash _ => login_step t db
  end.




(** ** Vocabulary of the theorems *)



Definition is_done (t : Thread) : Prop := match t with TDone _ | TLoginDone _ => True | _ => False end.





(** The rest of a request with no statement of another in between:
    the manager method or [authenticate] itself, or its last
    statement.  The request ends returned. *)
Definition run_alone (t : Thread) (db : Db) : Db * Thread :=
  match t with
  | TCreateUser em pw kw rnd => let '(db', r) := create_user enforce_len em pw kw rnd db in (db', TDone r)
  | TCreateSuperuser em pw kw rnd =>
      let '(db', r) := create_superuser enforce_len em pw kw rnd db in (db', TDone r)
  | TSuperuserSave u => let '(db', r) := create_superuser_update u db in (db', TDone r)
  | TLogin un pw rnd => let '(db', r) := Auth.authenticate enforce_len un pw rnd db in (db', TLoginDone r)
  | TLoginRehash _ => default (db, t) (login_step t db)
  | TDone _ | TLoginDone _ => (db, t)
  end.


#[local] Instance is_done_dec (t : Thread) : Decision (is_done t).
Proof. destruct t; simpl; apply _. Defined.




(** ** Lemmas *)
























(** The two statements of a login, back to back, are [authenticate]. *)
Lemma login_split (un pw : option string) (rnd : string) (db : Db) :
  run_alone (TLogin un pw rnd) db =
    match login_step (TLogin un pw rnd) db with
    | Some (db1, TLoginRehash u) => default (db1, TLoginRehash u) (login_step (TLoginRehash u) db1)
    | Some p => p
    | None => (db, TLogin un pw rnd)
    end.
Proof.
  destruct un as [un|], pw as [p|]; cbn [run_alone login_step]; [|reflexivity..].
  unfold Auth.authenticate, Auth.check_password_rehash, st_bind, st_lift, st_ret.
  destruct (Auth.get_by_natural_key db un) as [user|[]]; try reflexivity.
  destruct (password user) as [e| | |]; try reflexivity.
  destruct (Hashers.verify_password (Some p) e) as [[] []]; try reflexivity.
  destruct (set_password user (PyStr p) rnd) as [u'|err]; [|reflexivity]. cbn.
  destruct (Auth.save_password enforce_len _ db) as [db' [[]|err]]; reflexivity.
Qed.

(** *** The serial execution *)




(** *** The simulation *)











(** ** Properties *)


(** C27: [create_superuser] has an observable intermediate state.
    After its first statement (the INSERT of line 30), and before its
    UPDATE (line 38), the table holds the new account under the key the
    instance carries, with [is_superuser] false unless a keyword argument
    set it.  A request that reads the table in between sees an ordinary
    account, not the superuser the call will return. *)
Theorem superuser_insert_unflagged (em pw : pyval) kw rnd (db db1 : Db) (u : UserAccount) :
  thread_step (TCreateSuperuser em pw kw rnd) db = Some (db1, TSuperuserSave u) ->
  kw !! "is_superuser" = None ->
  exists r, id u = Some (db_next_id db) /\ db_rows db1 !! db_next_id db = Some r /\ row_is_superuser r = false.
Proof.
  cbn [thread_step]. unfold create_superuser_insert, st_bind.
  destruct (create_user enforce_len em pw kw rnd db) as [db1' [u0|e]] eqn:Hc; intros Hs Hkw; [|discriminate].
  injection Hs as <- <-. apply create_user_Ok in Hc as (s & u1 & r & _ & _ & Hn & Hr & -> & _ & ->).
  exists r. split_and!; [by rewrite superuser_flags_id, id_set_id | apply lookup_insert_eq |].
  apply new_user_Ok in Hn as (_ & _ & _ & _ & Hf). apply to_row_inv in Hr as (_ & _ & _ & _ & _ & _ & Hsu).
  change (is_superuser u1) with (get_field u1 FIsSuperuser) in Hsu.
  rewrite Hf in Hsu by done. cbn in Hsu. rewrite Hkw in Hsu. cbn in Hsu. by injection Hsu.
Qed.




End Threads.


(** The first statement of [create_superuser] on the empty table. *)
Lemma superuser_insert_unflagged_witness :
  exists db1 u,
    thread_step true (TCreateSuperuser (PyStr "root@example.com") (PyStr "pw") ∅ "s1") db_empty =
      Some (db1, TSuperuserSave u) /\
    (∅ : gmap string pyval) !! "is_superuser" = None /\
    exists r, id u = Some (db_next_id db_empty) /\ db_rows db1 !! db_next_id db_empty = Some r /\
      row_is_superuser r = false.
Proof.
  eexists _, _. split; [compute_lhs; reflexivity|]. split; [reflexivity|].
  eapply (superuser_insert_unflagged true (PyStr "root@example.com") (PyStr "pw") ∅ "s1" db_empty);
    [compute_lhs; reflexivity | reflexivity].
Defined.




End Conc.
